(** * WorkSync: client state handlers and REST persistence boundary

  A shallow embedding of the task/project handlers of [App.tsx], of the
  Express route handlers of [server.js] and of the start-up code of
  [database.js], with the properties of the synchronisation flow proved
  about them. *)

From Stdlib Require Import String Ascii List Bool ZArith Arith Lia.
From Stdlib Require DecimalPos DecimalN.
Import ListNotations.
Local Open Scope string_scope.
Local Open Scope list_scope.

Set Implicit Arguments.

(** ** JavaScript value conventions used by the handlers *)

Module JS.

(** [if (s)] on an optional string: [undefined], [null] and the empty
    string are falsy. *)
Definition truthy (v : option string) : bool :=
  match v with
  | Some s => negb (s =? EmptyString)%string
  | None => false
  end.

(** [a || d] where [d] is a string. *)
Definition or_else (a : option string) (d : string) : string :=
  match a with
  | Some s => if (s =? EmptyString)%string then d else s
  | None => d
  end.

(** [a || null]. *)
Definition or_null (a : option string) : option string :=
  if truthy a then a else None.

(** [b ? 1 : 0] on an optional boolean flag. *)
Definition flag (b : option bool) : Z :=
  match b with
  | Some true => 1%Z
  | _ => 0%Z
  end.

(** [!!n] on an INTEGER column ([NULL] and [0] are falsy). *)
Definition not_not (n : option Z) : bool :=
  match n with
  | Some z => negb (z =? 0)%Z
  | None => false
  end.

(** [xs || []]. *)
Definition or_nil {A : Type} (xs : option (list A)) : list A :=
  match xs with
  | Some l => l
  | None => []
  end.

(** [b ? 1 : 0] on a boolean. *)
Definition bit (b : bool) : Z := if b then 1%Z else 0%Z.

(** The lower-casing of the letters A to Z, which is what [LOWER()] of
    SQLite does (and what [s.toLowerCase()] does to an ASCII string). *)
Definition lowerChar (c : ascii) : ascii :=
  let n := nat_of_ascii c in
  if (65 <=? n)%nat && (n <=? 90)%nat then ascii_of_nat (n + 32) else c.

Fixpoint toLowerCase (s : string) : string :=
  match s with
  | EmptyString => EmptyString
  | String c r => String (lowerChar c) (toLowerCase r)
  end.

(** A string holds the UTF-8 bytes of the JavaScript string (an unpaired
    surrogate as its three-byte form).

    White space removed by [trim()]: the one-byte characters tab, line
    feed, vertical tab, form feed, carriage return and space ... *)
Definition isWhiteSpace (c : ascii) : bool :=
  let n := nat_of_ascii c in
  ((9 <=? n)%nat && (n <=? 13)%nat) || (n =? 32)%nat.

(** ... U+00A0, which is the two bytes C2 A0 ... *)
Definition isWhiteSpace2 (c1 c2 : ascii) : bool :=
  (nat_of_ascii c1 =? 194)%nat && (nat_of_ascii c2 =? 160)%nat.

(** ... and the three-byte characters U+1680 (E1 9A 80), U+2000 to U+200A
    (E2 80 80 to E2 80 8A), U+2028 and U+2029 (E2 80 A8, E2 80 A9), U+202F
    (E2 80 AF), U+205F (E2 81 9F), U+3000 (E3 80 80) and U+FEFF
    (EF BB BF). *)
Definition isWhiteSpace3 (c1 c2 c3 : ascii) : bool :=
  let n1 := nat_of_ascii c1 in
  let n2 := nat_of_ascii c2 in
  let n3 := nat_of_ascii c3 in
  ((n1 =? 225) && (n2 =? 154) && (n3 =? 128))%nat
  || ((n1 =? 226) && (n2 =? 128)
      && (((128 <=? n3) && (n3 <=? 138))
          || (n3 =? 168) || (n3 =? 169) || (n3 =? 175)))%nat
  || ((n1 =? 226) && (n2 =? 129) && (n3 =? 159))%nat
  || ((n1 =? 227) && (n2 =? 128) && (n3 =? 128))%nat
  || ((n1 =? 239) && (n2 =? 187) && (n3 =? 191))%nat.

(** [s.trim()] is the empty string: [s] is made of white space only. *)
Fixpoint blank (s : string) : bool :=
  match s with
  | EmptyString => true
  | String c1 r1 =>
      if isWhiteSpace c1 then blank r1
      else
        match r1 with
        | EmptyString => false
        | String c2 r2 =>
            if isWhiteSpace2 c1 c2 then blank r2
            else
              match r2 with
              | EmptyString => false
              | String c3 r3 =>
                  if isWhiteSpace3 c1 c2 c3 then blank r3 else false
              end
        end
  end.

(** [s.length]: the number of UTF-16 code units of the string.  A character
    of one, two or three UTF-8 bytes is one unit and a character of four
    bytes is two; the bytes [10xxxxxx] that continue a character count for
    nothing. *)
Definition units (c : ascii) : nat :=
  let n := nat_of_ascii c in
  if (n <? 128)%nat then 1
  else if (n <? 192)%nat then 0
  else if (n <? 240)%nat then 1
  else 2.

Fixpoint length (s : string) : nat :=
  match s with
  | EmptyString => 0
  | String c r => units c + length r
  end.

(** [s.slice(0, n)] *)
Definition slice0 (n : nat) (s : string) : string := substring 0 n s.

End JS.

(** [s.toLowerCase()] maps the string through the Unicode case tables of
    the engine.  The handlers take the method through this interface, with
    the two facts about it that the properties use: lower-casing a
    lower-cased string changes nothing, and the empty string, and no other,
    is lower-cased to the empty string. *)
Class CaseMapping : Type := {
  toLowerCase : string -> string;
  toLowerCase_idempotent :
    forall s, toLowerCase (toLowerCase s) = toLowerCase s;
  toLowerCase_empty :
    forall s, toLowerCase s = EmptyString <-> s = EmptyString }.

(** ** The data model of [types.ts] *)

Module Subtask.
Record t := mk { id : string; content : string; isCompleted : bool }.
End Subtask.

Module Task.
Record t := mk {
  id : string;
  content : string;
  isCompleted : bool;
  type : string;                       (* 'daily' | 'weekly' *)
  date : string;
  createdAt : string;
  isPriority : option bool;
  subtasks : option (list Subtask.t);
  engagementId : option string;
  engagementName : option string;
  projectId : option string;
  projectName : option string }.
End Task.

Module ProjectTask.
Record t := mk { id : string; content : string; isCompleted : bool }.
End ProjectTask.

Module ResearchNote.
Record t := mk { id : string; date : string; content : string; createdAt : string }.
End ResearchNote.

Module InternalProject.
Record t := mk {
  id : string;
  name : string;
  description : string;
  status : string;
  startDate : string;
  dueDate : string;
  tasks : list ProjectTask.t;
  researchNotes : list ResearchNote.t;
  createdAt : string;
  sourceIdeaId : option string;
  sourceIdeaTitle : option string;
  sourceEngagementId : option string;
  sourceEngagementName : option string }.

(** [{ ...p, tasks: ts }] *)
Definition with_tasks (p : t) (ts : list ProjectTask.t) : t :=
  {| id := id p; name := name p; description := description p;
     status := status p; startDate := startDate p; dueDate := dueDate p;
     tasks := ts; researchNotes := researchNotes p; createdAt := createdAt p;
     sourceIdeaId := sourceIdeaId p; sourceIdeaTitle := sourceIdeaTitle p;
     sourceEngagementId := sourceEngagementId p;
     sourceEngagementName := sourceEngagementName p |}.
End InternalProject.

Module TimelineEntry.
Record t := mk { id : string; date : string; content : string; type : string }.
End TimelineEntry.

Module EngagementFile.
Record t := mk {
  id : string; name : string; type : string; size : N;
  data : string; uploadDate : string }.
End EngagementFile.

Module Engagement.
Record t := mk {
  id : string;
  engagementNumber : string;
  orgId : string;
  accountName : string;
  name : string;
  status : string;
  timeline : option (list TimelineEntry.t);
  files : option (list EngagementFile.t);
  aiSummary : option string;
  lastSummaryDate : option string }.
End Engagement.

Module Highlight.
Record t := mk {
  id : string; content : string; impact : string; date : string;
  needsFollowUp : bool; followUpContext : option string; createdAt : string }.
End Highlight.

Module IdeaEntry.
Record t := mk { id : string; content : string; timestamp : string }.
End IdeaEntry.

Module Idea.
Record t := mk {
  id : string;
  title : string;
  description : option string;
  entries : option (list IdeaEntry.t);
  category : string;
  priority : string;
  status : string;
  createdAt : string;
  updatedAt : option string;
  aiSummary : option string;
  lastSummaryDate : option string;
  engagementId : option string;
  engagementName : option string;
  convertedToProjectId : option string }.
End Idea.

Module CalendarEvent.
Record t := mk {
  id : string; title : string; description : option string; date : string;
  startTime : string; endTime : string; type : string;
  meetingNotes : option string; momSent : option bool }.
End CalendarEvent.

Module Note.
Record t := mk {
  id : string; title : string; content : string;
  tags : option (list string); createdAt : string; updatedAt : string }.
End Note.

(** ** The client state store ([App.tsx])

  [useState] setters are modelled by explicit state passing.  An updater
  [setX(prev => e)] is queued by React and applied when the component is
  rendered again, after the handler has run up to its first [await]: the
  first component of a handler's result is the state of that render, and
  what the updater assigns to a variable of the handler is not yet
  assigned where the handler reads it.  The awaited calls of
  [apiService.ts] are collected, in order, as the second component. *)

Module Client.

Record AppState := mkState {
  tasks : list Task.t;
  projects : list InternalProject.t }.

Inductive ApiCall :=
| saveTaskAPI (task : Task.t)
| deleteTaskAPI (id : string)
| saveProjectAPI (project : InternalProject.t)
| deleteProjectAPI (id : string).


(** [pt.id === updatedTask.id ? { ...pt, isCompleted, content } : pt] *)
Definition patchProjectTask (updatedTask : Task.t) (pt : ProjectTask.t)
  : ProjectTask.t :=
  if (ProjectTask.id pt =? Task.id updatedTask)%string
  then {| ProjectTask.id := ProjectTask.id pt;
          ProjectTask.content := Task.content updatedTask;
          ProjectTask.isCompleted := Task.isCompleted updatedTask |}
  else pt.

(** [prev.map(p => { if (p.id === pid) { const u = f(p); captured = u;
    return u; } return p; })]: the list that [map] returns together with
    the final value of the variable the callback assigns. *)
Fixpoint mapCapturing (pid : string)
    (f : InternalProject.t -> InternalProject.t)
    (prev : list InternalProject.t) (captured : option InternalProject.t)
  : list InternalProject.t * option InternalProject.t :=
  match prev with
  | [] => ([], captured)
  | p :: rest =>
      if (InternalProject.id p =? pid)%string
      then let pUpdate := f p in
           let '(rest', captured') := mapCapturing pid f rest (Some pUpdate) in
           (pUpdate :: rest', captured')
      else let '(rest', captured') := mapCapturing pid f rest captured in
           (p :: rest', captured')
  end.

(** The handler declares [targetProject], hands [setProjects] an updater
    that assigns it, and tests it on the next line.  React puts the updater
    in its queue and runs it when it renders the component again, so the
    handler reads the variable as it was declared; the state that a handler
    returns is the state of that next render. *)
Definition handleUpdateTask (updatedTask : Task.t) (st : AppState)
  : AppState * list ApiCall :=
  if JS.truthy (Task.projectId updatedTask) then
    let pid := JS.or_else (Task.projectId updatedTask) EmptyString in
    (* let targetProject: InternalProject | undefined; *)
    let targetProject : option InternalProject.t := None in
    (* setProjects(prev => prev.map(...)) *)
    let updater (prev : list InternalProject.t) :=
      mapCapturing pid
        (fun p => InternalProject.with_tasks p
                    (map (patchProjectTask updatedTask)
                         (InternalProject.tasks p)))
        prev targetProject in
    (* if (targetProject) { await saveProjectAPI(targetProject); } *)
    let requests :=
      match targetProject with
      | Some p => [saveProjectAPI p]
      | None => []
      end in
    ({| tasks := tasks st; projects := fst (updater (projects st)) |},
     requests)
  else
    ({| tasks := map (fun t => if (Task.id t =? Task.id updatedTask)%string
                               then updatedTask else t) (tasks st);
        projects := projects st |},
     [saveTaskAPI updatedTask]).

(** [p.tasks.some(pt => pt.id === taskId)] *)
Definition hasTask (taskId : string) (p : InternalProject.t) : bool :=
  existsb (fun pt => (ProjectTask.id pt =? taskId)%string)
          (InternalProject.tasks p).

(** [updatedProject] is assigned inside the queued updater as well, and
    read before the updater has run. *)
Definition handleDeleteTask (taskId : string) (st : AppState)
  : AppState * list ApiCall :=
  match find (hasTask taskId) (projects st) with
  | Some projectTaskSource =>
      (* let updatedProject: InternalProject | undefined; *)
      let updatedProject : option InternalProject.t := None in
      (* setProjects(prev => prev.map(...)) *)
      let updater (prev : list InternalProject.t) :=
        mapCapturing (InternalProject.id projectTaskSource)
          (fun p => InternalProject.with_tasks p
                      (filter (fun pt => negb (ProjectTask.id pt =? taskId)%string)
                              (InternalProject.tasks p)))
          prev updatedProject in
      (* if (updatedProject) { await saveProjectAPI(updatedProject); } *)
      let requests :=
        match updatedProject with
        | Some p => [saveProjectAPI p]
        | None => []
        end in
      ({| tasks := tasks st; projects := fst (updater (projects st)) |},
       requests)
  | None =>
      ({| tasks := filter (fun t => negb (Task.id t =? taskId)%string) (tasks st);
          projects := projects st |},
       [deleteTaskAPI taskId])
  end.

(** [masterTasksList]: the standalone tasks followed by every project task
    mapped into a task-shaped view ([today] is
    [new Date().toISOString().slice(0, 10)]). *)
Definition projectTaskView (today : string) (p : InternalProject.t)
    (pt : ProjectTask.t) : Task.t :=
  {| Task.id := ProjectTask.id pt;
     Task.content := ProjectTask.content pt;
     Task.isCompleted := ProjectTask.isCompleted pt;
     Task.type := "daily";
     Task.date := today;
     Task.createdAt := InternalProject.createdAt p;
     Task.isPriority := None;
     Task.subtasks := None;
     Task.engagementId := None;
     Task.engagementName := None;
     Task.projectId := Some (InternalProject.id p);
     Task.projectName := Some (InternalProject.name p) |}.

Definition masterTasksList (today : string) (st : AppState) : list Task.t :=
  tasks st ++
  flat_map (fun p => map (projectTaskView today p) (InternalProject.tasks p))
           (projects st).

End Client.

(** ** The relational store ([database.js])

    One record per [CREATE TABLE]; a table is the list of its rows in
    rowid order, which is the order [SELECT *] returns.  [NULL] is [None].
    Columns that hold serialized JSON are [TEXT]. *)

Module UserRow.
Record t := mk {
  id : string; email : string; passwordHash : string; name : string;
  createdAt : string }.
End UserRow.

Module EngagementRow.
Record t := mk {
  id : string; userId : option string; engagementNumber : string;
  orgId : string; accountName : string; name : string; status : string;
  timeline : option string; files : option string;
  aiSummary : option string; lastSummaryDate : option string }.
Definition with_userId (r : t) (u : option string) : t :=
  {| id := id r; userId := u; engagementNumber := engagementNumber r;
     orgId := orgId r; accountName := accountName r; name := name r;
     status := status r; timeline := timeline r; files := files r;
     aiSummary := aiSummary r; lastSummaryDate := lastSummaryDate r |}.
End EngagementRow.

Module TaskRow.
Record t := mk {
  id : string; userId : option string; content : string;
  isCompleted : option Z; type : string; date : string; createdAt : string;
  isPriority : option Z; engagementId : option string;
  projectId : option string; subtasks : option string }.
Definition with_userId (r : t) (u : option string) : t :=
  {| id := id r; userId := u; content := content r;
     isCompleted := isCompleted r; type := type r; date := date r;
     createdAt := createdAt r; isPriority := isPriority r;
     engagementId := engagementId r; projectId := projectId r;
     subtasks := subtasks r |}.
End TaskRow.

Module ProjectRow.
Record t := mk {
  id : string; userId : option string; name : string;
  description : option string; status : string; startDate : string;
  dueDate : string; createdAt : string;
  sourceIdeaId : option string; sourceIdeaTitle : option string;
  sourceEngagementId : option string; sourceEngagementName : option string }.
Definition with_userId (r : t) (u : option string) : t :=
  {| id := id r; userId := u; name := name r; description := description r;
     status := status r; startDate := startDate r; dueDate := dueDate r;
     createdAt := createdAt r; sourceIdeaId := sourceIdeaId r;
     sourceIdeaTitle := sourceIdeaTitle r;
     sourceEngagementId := sourceEngagementId r;
     sourceEngagementName := sourceEngagementName r |}.
End ProjectRow.

Module ProjectTaskRow.
Record t := mk {
  id : string; projectId : option string; content : string;
  isCompleted : option Z }.
End ProjectTaskRow.

Module ResearchNoteRow.
Record t := mk {
  id : string; projectId : option string; content : string; date : string;
  createdAt : string }.
End ResearchNoteRow.

Module HighlightRow.
Record t := mk {
  id : string; userId : option string; content : string; impact : string;
  date : string; needsFollowUp : option Z; followUpContext : option string;
  createdAt : string }.
Definition with_userId (r : t) (u : option string) : t :=
  {| id := id r; userId := u; content := content r; impact := impact r;
     date := date r; needsFollowUp := needsFollowUp r;
     followUpContext := followUpContext r; createdAt := createdAt r |}.
End HighlightRow.

Module IdeaRow.
Record t := mk {
  id : string; userId : option string; title : string;
  description : option string; entries : option string; category : string;
  priority : string; status : string; createdAt : option string;
  updatedAt : option string; aiSummary : option string;
  lastSummaryDate : option string; engagementId : option string;
  engagementName : option string; convertedToProjectId : option string }.
Definition with_userId (r : t) (u : option string) : t :=
  {| id := id r; userId := u; title := title r; description := description r;
     entries := entries r; category := category r; priority := priority r;
     status := status r; createdAt := createdAt r; updatedAt := updatedAt r;
     aiSummary := aiSummary r; lastSummaryDate := lastSummaryDate r;
     engagementId := engagementId r; engagementName := engagementName r;
     convertedToProjectId := convertedToProjectId r |}.
(** [SET convertedToProjectId = ?, status = 'Implemented'] *)
Definition mark_converted (r : t) (projectId : string) : t :=
  {| id := id r; userId := userId r; title := title r;
     description := description r; entries := entries r;
     category := category r; priority := priority r;
     status := "Implemented"; createdAt := createdAt r;
     updatedAt := updatedAt r; aiSummary := aiSummary r;
     lastSummaryDate := lastSummaryDate r; engagementId := engagementId r;
     engagementName := engagementName r;
     convertedToProjectId := Some projectId |}.
End IdeaRow.

Module CalendarEventRow.
Record t := mk {
  id : string; userId : option string; title : string;
  description : option string; date : string; startTime : string;
  endTime : string; type : string; meetingNotes : option string;
  momSent : option Z }.
Definition with_userId (r : t) (u : option string) : t :=
  {| id := id r; userId := u; title := title r; description := description r;
     date := date r; startTime := startTime r; endTime := endTime r;
     type := type r; meetingNotes := meetingNotes r; momSent := momSent r |}.
End CalendarEventRow.

Module UsefulLinkRow.
Record t := mk {
  id : string; userId : option string; title : string; url : string;
  category : string; description : option string; createdAt : string }.
Definition with_userId (r : t) (u : option string) : t :=
  {| id := id r; userId := u; title := title r; url := url r;
     category := category r; description := description r;
     createdAt := createdAt r |}.
End UsefulLinkRow.

Module NoteRow.
Record t := mk {
  id : string; userId : option string; title : string; content : string;
  tags : option string; createdAt : string; updatedAt : string }.
Definition with_userId (r : t) (u : option string) : t :=
  {| id := id r; userId := u; title := title r; content := content r;
     tags := tags r; createdAt := createdAt r; updatedAt := updatedAt r |}.
End NoteRow.

Module SettingRow.
Record t := mk { key : string; value : string; userId : option string }.
Definition with_userId (r : t) (u : option string) : t :=
  {| key := key r; value := value r; userId := u |}.
End SettingRow.

Module DB.

Record t := mk {
  users : list UserRow.t;
  engagements : list EngagementRow.t;
  tasks : list TaskRow.t;
  projects : list ProjectRow.t;
  project_tasks : list ProjectTaskRow.t;
  research_notes : list ResearchNoteRow.t;
  highlights : list HighlightRow.t;
  ideas : list IdeaRow.t;
  calendar_events : list CalendarEventRow.t;
  useful_links : list UsefulLinkRow.t;
  notes : list NoteRow.t;
  settings : list SettingRow.t }.

(** [column = ?] with a string parameter: [NULL] equals nothing. *)
Definition col_eq (c : option string) (v : string) : bool :=
  match c with
  | Some s => (s =? v)%string
  | None => false
  end.

Section Table.
Variable Row : Type.
Variable key : Row -> string.

(** [INSERT OR REPLACE]: the row holding the primary key, if any, is
    deleted and the new row is appended with a fresh rowid. *)
Definition insertOrReplace (r : Row) (tbl : list Row) : list Row :=
  filter (fun x => negb (key x =? key r)%string) tbl ++ [r].

(** [INSERT]: fails on a primary-key conflict and leaves the table as it
    was. *)
Definition insert (r : Row) (tbl : list Row) : option (list Row) :=
  if existsb (fun x => (key x =? key r)%string) tbl then None
  else Some (tbl ++ [r]).

(** [stmt.run(...)] of a prepared [INSERT] with no callback: a row that
    violates the primary key is not inserted.  The error is emitted on the
    statement, which has no listener; the store is followed here, not what
    becomes of the process after the error. *)
Definition insertIgnoringError (tbl : list Row) (r : Row) : list Row :=
  match insert r tbl with
  | Some tbl' => tbl'
  | None => tbl
  end.

End Table.

(** Replacing one table of the store. *)
Definition set_users (d : t) (x : list UserRow.t) : t :=
  {| users := x; engagements := engagements d; tasks := tasks d;
     projects := projects d; project_tasks := project_tasks d;
     research_notes := research_notes d; highlights := highlights d;
     ideas := ideas d; calendar_events := calendar_events d;
     useful_links := useful_links d; notes := notes d;
     settings := settings d |}.

Definition set_engagements (d : t) (x : list EngagementRow.t) : t :=
  {| users := users d; engagements := x; tasks := tasks d;
     projects := projects d; project_tasks := project_tasks d;
     research_notes := research_notes d; highlights := highlights d;
     ideas := ideas d; calendar_events := calendar_events d;
     useful_links := useful_links d; notes := notes d;
     settings := settings d |}.

Definition set_tasks (d : t) (x : list TaskRow.t) : t :=
  {| users := users d; engagements := engagements d; tasks := x;
     projects := projects d; project_tasks := project_tasks d;
     research_notes := research_notes d; highlights := highlights d;
     ideas := ideas d; calendar_events := calendar_events d;
     useful_links := useful_links d; notes := notes d;
     settings := settings d |}.

Definition set_projects (d : t) (x : list ProjectRow.t) : t :=
  {| users := users d; engagements := engagements d; tasks := tasks d;
     projects := x; project_tasks := project_tasks d;
     research_notes := research_notes d; highlights := highlights d;
     ideas := ideas d; calendar_events := calendar_events d;
     useful_links := useful_links d; notes := notes d;
     settings := settings d |}.

Definition set_project_tasks (d : t) (x : list ProjectTaskRow.t) : t :=
  {| users := users d; engagements := engagements d; tasks := tasks d;
     projects := projects d; project_tasks := x;
     research_notes := research_notes d; highlights := highlights d;
     ideas := ideas d; calendar_events := calendar_events d;
     useful_links := useful_links d; notes := notes d;
     settings := settings d |}.

Definition set_research_notes (d : t) (x : list ResearchNoteRow.t) : t :=
  {| users := users d; engagements := engagements d; tasks := tasks d;
     projects := projects d; project_tasks := project_tasks d;
     research_notes := x; highlights := highlights d; ideas := ideas d;
     calendar_events := calendar_events d; useful_links := useful_links d;
     notes := notes d; settings := settings d |}.

Definition set_highlights (d : t) (x : list HighlightRow.t) : t :=
  {| users := users d; engagements := engagements d; tasks := tasks d;
     projects := projects d; project_tasks := project_tasks d;
     research_notes := research_notes d; highlights := x; ideas := ideas d;
     calendar_events := calendar_events d; useful_links := useful_links d;
     notes := notes d; settings := settings d |}.

Definition set_ideas (d : t) (x : list IdeaRow.t) : t :=
  {| users := users d; engagements := engagements d; tasks := tasks d;
     projects := projects d; project_tasks := project_tasks d;
     research_notes := research_notes d; highlights := highlights d;
     ideas := x; calendar_events := calendar_events d;
     useful_links := useful_links d; notes := notes d;
     settings := settings d |}.

Definition set_calendar_events (d : t) (x : list CalendarEventRow.t) : t :=
  {| users := users d; engagements := engagements d; tasks := tasks d;
     projects := projects d; project_tasks := project_tasks d;
     research_notes := research_notes d; highlights := highlights d;
     ideas := ideas d; calendar_events := x; useful_links := useful_links d;
     notes := notes d; settings := settings d |}.

Definition set_useful_links (d : t) (x : list UsefulLinkRow.t) : t :=
  {| users := users d; engagements := engagements d; tasks := tasks d;
     projects := projects d; project_tasks := project_tasks d;
     research_notes := research_notes d; highlights := highlights d;
     ideas := ideas d; calendar_events := calendar_events d;
     useful_links := x; notes := notes d; settings := settings d |}.

Definition set_notes (d : t) (x : list NoteRow.t) : t :=
  {| users := users d; engagements := engagements d; tasks := tasks d;
     projects := projects d; project_tasks := project_tasks d;
     research_notes := research_notes d; highlights := highlights d;
     ideas := ideas d; calendar_events := calendar_events d;
     useful_links := useful_links d; notes := x; settings := settings d |}.

Definition set_settings (d : t) (x : list SettingRow.t) : t :=
  {| users := users d; engagements := engagements d; tasks := tasks d;
     projects := projects d; project_tasks := project_tasks d;
     research_notes := research_notes d; highlights := highlights d;
     ideas := ideas d; calendar_events := calendar_events d;
     useful_links := useful_links d; notes := notes d; settings := x |}.

End DB.

(** ** The REST boundary ([server.js])

    A handler is a function of the authenticated [req.userId], the request
    body and the store; it returns the response and the store it leaves.
    [JSON.stringify] and [JSON.parse] are the ECMAScript built-ins: the
    handlers are written against their interface on arrays of records. *)

Inductive Response (A : Type) : Type :=
| Ok (body : A)                        (* res.json(body) *)
| Err (status : nat) (error : string)  (* res.status(status).json({ error }) *)
| Uncaught.                            (* an exception leaves the callback *)

Arguments Ok {A} body.
Arguments Err {A} status error.
Arguments Uncaught {A}.

Class JsonArray (A : Type) : Type := {
  JSON_stringify : list A -> string;
  JSON_parse : string -> option (list A);  (* [None]: SyntaxError *)
  JSON_parse_stringify : forall l, JSON_parse (JSON_stringify l) = Some l;
  JSON_stringify_truthy : forall l, JSON_stringify l <> EmptyString }.

(** [rows.map(f)] where [f] may throw. *)
Fixpoint mapThrowing {A B : Type} (f : A -> option B) (l : list A)
  : option (list B) :=
  match l with
  | [] => Some []
  | x :: rest =>
      match f x with
      | None => None
      | Some y =>
          match mapThrowing f rest with
          | None => None
          | Some ys => Some (y :: ys)
          end
      end
  end.

(** The values that differ from one run to the next. *)
Module Env.
Record t := mk {
  dateNow : string;              (* Date.now() *)
  randomId : string;             (* Math.random().toString(36).substr(2, 9) *)
  isoNow : string;               (* new Date().toISOString() *)
  bcryptHash : string -> string  (* bcrypt.hash(password, SALT_ROUNDS) *) }.
End Env.

Module TaskOut.
Record t := mk {
  row : TaskRow.t;               (* ...r *)
  isCompleted : bool; isPriority : bool; subtasks : list Subtask.t }.
End TaskOut.

Module EngagementOut.
Record t := mk {
  row : EngagementRow.t;
  timeline : list TimelineEntry.t; files : list EngagementFile.t }.
End EngagementOut.

Module HighlightOut.
Record t := mk { row : HighlightRow.t; needsFollowUp : bool }.
End HighlightOut.

Module CalendarEventOut.
Record t := mk { row : CalendarEventRow.t; momSent : bool }.
End CalendarEventOut.

Module NoteOut.
Record t := mk { row : NoteRow.t; tags : list string }.
End NoteOut.

Module IdeaOut.
Record t := mk { row : IdeaRow.t; entries : list IdeaEntry.t }.
End IdeaOut.

Module ProjectTaskOut.
Record t := mk { row : ProjectTaskRow.t; isCompleted : bool }.
(** The response element read at the client's type [ProjectTask]. *)
Definition view (o : t) : ProjectTask.t :=
  {| ProjectTask.id := ProjectTaskRow.id (row o);
     ProjectTask.content := ProjectTaskRow.content (row o);
     ProjectTask.isCompleted := isCompleted o |}.
End ProjectTaskOut.

Module ProjectOut.
Record t := mk {
  row : ProjectRow.t;
  tasks : list ProjectTaskOut.t;
  researchNotes : list ResearchNoteRow.t }.
(** A research-note row read at the client's type [ResearchNote]. *)
Definition noteView (n : ResearchNoteRow.t) : ResearchNote.t :=
  {| ResearchNote.id := ResearchNoteRow.id n;
     ResearchNote.date := ResearchNoteRow.date n;
     ResearchNote.content := ResearchNoteRow.content n;
     ResearchNote.createdAt := ResearchNoteRow.createdAt n |}.
End ProjectOut.

(** The fields of the body of the conversion request that the handler reads
    ([Partial<InternalProject>]). *)
Module ProjectData.
Record t := mk {
  name : option string; description : option string; status : option string;
  startDate : option string; dueDate : option string }.
Definition empty : t := mk None None None None None.
End ProjectData.

(** The project object that the conversion returns. *)
Module CreatedProject.
Record t := mk {
  id : string; name : string; description : option string; status : string;
  startDate : string; dueDate : string; createdAt : string;
  tasks : list ProjectTask.t; researchNotes : list ResearchNote.t;
  sourceIdeaId : string; sourceIdeaTitle : string;
  sourceEngagementId : option string; sourceEngagementName : option string }.
End CreatedProject.

Module RegisterBody.
Record t := mk {
  email : option string; password : option string; name : option string }.
End RegisterBody.

Module Server.

Section Handlers.

Context {jsonSubtasks : JsonArray Subtask.t}.
Context {jsonTimeline : JsonArray TimelineEntry.t}.
Context {jsonFiles : JsonArray EngagementFile.t}.
Context {jsonTags : JsonArray string}.
Context {jsonEntries : JsonArray IdeaEntry.t}.
Context {caseMapping : CaseMapping}.

(** *** Authentication: [POST /api/auth/register] *)

Definition post_auth_register (env : Env.t) (body : RegisterBody.t) (d : DB.t)
  : Response string * DB.t :=
  if negb (JS.truthy (RegisterBody.email body))
     || negb (JS.truthy (RegisterBody.password body))
     || negb (JS.truthy (RegisterBody.name body))
  then (Err 400 "Email, password, and name are required", d)
  else
    let email := JS.or_else (RegisterBody.email body) EmptyString in
    let password := JS.or_else (RegisterBody.password body) EmptyString in
    let name := JS.or_else (RegisterBody.name body) EmptyString in
    if (JS.length password <? 6)%nat
    then (Err 400 "Password must be at least 6 characters", d)
    else
      match find (fun u => (UserRow.email u =? toLowerCase email)%string)
                 (DB.users d) with
      | Some _ => (Err 400 "Email already registered", d)
      | None =>
          let id := ("user-" ++ Env.dateNow env ++ "-" ++ Env.randomId env)%string in
          let row := {| UserRow.id := id;
                        UserRow.email := toLowerCase email;
                        UserRow.passwordHash := Env.bcryptHash env password;
                        UserRow.name := name;
                        UserRow.createdAt := Env.isoNow env |} in
          if existsb (fun u => (UserRow.id u =? id)%string
                               || (UserRow.email u =? UserRow.email row)%string)
                     (DB.users d)
          then (Err 500 "SQLITE_CONSTRAINT: UNIQUE constraint failed", d)
          else (Ok "Registration successful",
                DB.set_users d (DB.users d ++ [row]))
      end.

(** *** Engagements *)

Definition formatEngagement (r : EngagementRow.t) : option EngagementOut.t :=
  match JSON_parse (JS.or_else (EngagementRow.timeline r) "[]") with
  | None => None
  | Some timeline =>
      match JSON_parse (JS.or_else (EngagementRow.files r) "[]") with
      | None => None
      | Some files =>
          Some {| EngagementOut.row := r;
                  EngagementOut.timeline := timeline;
                  EngagementOut.files := files |}
      end
  end.

Definition get_engagements (userId : string) (d : DB.t)
  : Response (list EngagementOut.t) :=
  match mapThrowing formatEngagement
          (filter (fun r => DB.col_eq (EngagementRow.userId r) userId)
                  (DB.engagements d)) with
  | Some formatted => Ok formatted
  | None => Uncaught
  end.

Definition engagementRow (userId : string) (e : Engagement.t) : EngagementRow.t :=
  {| EngagementRow.id := Engagement.id e;
     EngagementRow.userId := Some userId;
     EngagementRow.engagementNumber := Engagement.engagementNumber e;
     EngagementRow.orgId := Engagement.orgId e;
     EngagementRow.accountName := Engagement.accountName e;
     EngagementRow.name := Engagement.name e;
     EngagementRow.status := Engagement.status e;
     EngagementRow.timeline :=
       Some (JSON_stringify (JS.or_nil (Engagement.timeline e)));
     EngagementRow.files :=
       Some (JSON_stringify (JS.or_nil (Engagement.files e)));
     EngagementRow.aiSummary := Engagement.aiSummary e;
     EngagementRow.lastSummaryDate := Engagement.lastSummaryDate e |}.

(** Of the body of a successful response only [message] is kept. *)
Definition post_engagements (userId : string) (e : Engagement.t) (d : DB.t)
  : Response string * DB.t :=
  (Ok "Saved",
   DB.set_engagements d
     (DB.insertOrReplace EngagementRow.id (engagementRow userId e)
                         (DB.engagements d))).

(** *** Tasks *)

Definition formatTask (r : TaskRow.t) : option TaskOut.t :=
  match JSON_parse (JS.or_else (TaskRow.subtasks r) "[]") with
  | None => None
  | Some subtasks =>
      Some {| TaskOut.row := r;
              TaskOut.isCompleted := JS.not_not (TaskRow.isCompleted r);
              TaskOut.isPriority := JS.not_not (TaskRow.isPriority r);
              TaskOut.subtasks := subtasks |}
  end.

Definition get_tasks (userId : string) (d : DB.t) : Response (list TaskOut.t) :=
  match mapThrowing formatTask
          (filter (fun r => DB.col_eq (TaskRow.userId r) userId) (DB.tasks d)) with
  | Some formatted => Ok formatted
  | None => Uncaught
  end.

(** The ten columns named by the [INSERT OR REPLACE]; [projectId], which the
    statement does not name, takes its default [NULL]. *)
Definition taskRow (userId : string) (t : Task.t) : TaskRow.t :=
  {| TaskRow.id := Task.id t;
     TaskRow.userId := Some userId;
     TaskRow.content := Task.content t;
     TaskRow.isCompleted := Some (JS.bit (Task.isCompleted t));
     TaskRow.type := Task.type t;
     TaskRow.date := Task.date t;
     TaskRow.createdAt := Task.createdAt t;
     TaskRow.isPriority := Some (JS.flag (Task.isPriority t));
     TaskRow.engagementId := Task.engagementId t;
     TaskRow.projectId := None;
     TaskRow.subtasks := Some (JSON_stringify (JS.or_nil (Task.subtasks t))) |}.

Definition post_tasks (userId : string) (t : Task.t) (d : DB.t)
  : Response string * DB.t :=
  (Ok "Saved",
   DB.set_tasks d (DB.insertOrReplace TaskRow.id (taskRow userId t) (DB.tasks d))).

(** *** Projects and their child tables *)

Definition get_projects (userId : string) (d : DB.t) : Response (list ProjectOut.t) :=
  let projects :=
    filter (fun p => DB.col_eq (ProjectRow.userId p) userId) (DB.projects d) in
  let tasks := DB.project_tasks d in
  let notes := DB.research_notes d in
  Ok (map (fun p =>
             {| ProjectOut.row := p;
                ProjectOut.tasks :=
                  map (fun t => {| ProjectTaskOut.row := t;
                                   ProjectTaskOut.isCompleted :=
                                     JS.not_not (ProjectTaskRow.isCompleted t) |})
                      (filter (fun t => DB.col_eq (ProjectTaskRow.projectId t)
                                                  (ProjectRow.id p)) tasks);
                ProjectOut.researchNotes :=
                  filter (fun n => DB.col_eq (ResearchNoteRow.projectId n)
                                             (ProjectRow.id p)) notes |})
          projects).

Definition projectRow (userId : string) (p : InternalProject.t) : ProjectRow.t :=
  {| ProjectRow.id := InternalProject.id p;
     ProjectRow.userId := Some userId;
     ProjectRow.name := InternalProject.name p;
     ProjectRow.description := Some (InternalProject.description p);
     ProjectRow.status := InternalProject.status p;
     ProjectRow.startDate := InternalProject.startDate p;
     ProjectRow.dueDate := InternalProject.dueDate p;
     ProjectRow.createdAt := InternalProject.createdAt p;
     ProjectRow.sourceIdeaId := JS.or_null (InternalProject.sourceIdeaId p);
     ProjectRow.sourceIdeaTitle := JS.or_null (InternalProject.sourceIdeaTitle p);
     ProjectRow.sourceEngagementId :=
       JS.or_null (InternalProject.sourceEngagementId p);
     ProjectRow.sourceEngagementName :=
       JS.or_null (InternalProject.sourceEngagementName p) |}.

(** [stmtTask.run(t.id, p.id, t.content, t.isCompleted ? 1 : 0)] *)
Definition projectTaskRow (projectId : string) (t : ProjectTask.t)
  : ProjectTaskRow.t :=
  {| ProjectTaskRow.id := ProjectTask.id t;
     ProjectTaskRow.projectId := Some projectId;
     ProjectTaskRow.content := ProjectTask.content t;
     ProjectTaskRow.isCompleted := Some (JS.bit (ProjectTask.isCompleted t)) |}.

(** [stmtNote.run(n.id, p.id, n.content, n.date, n.createdAt)] *)
Definition researchNoteRow (projectId : string) (n : ResearchNote.t)
  : ResearchNoteRow.t :=
  {| ResearchNoteRow.id := ResearchNote.id n;
     ResearchNoteRow.projectId := Some projectId;
     ResearchNoteRow.content := ResearchNote.content n;
     ResearchNoteRow.date := ResearchNote.date n;
     ResearchNoteRow.createdAt := ResearchNote.createdAt n |}.

Definition post_projects (userId : string) (p : InternalProject.t) (d : DB.t)
  : Response string * DB.t :=
  let pid := InternalProject.id p in
  let d1 := DB.set_projects d
              (DB.insertOrReplace ProjectRow.id (projectRow userId p)
                                  (DB.projects d)) in
  (* db.serialize: the two DELETEs, then the two batches of INSERTs *)
  let d2 := DB.set_project_tasks d1
              (filter (fun t => negb (DB.col_eq (ProjectTaskRow.projectId t) pid))
                      (DB.project_tasks d1)) in
  let d3 := DB.set_research_notes d2
              (filter (fun n => negb (DB.col_eq (ResearchNoteRow.projectId n) pid))
                      (DB.research_notes d2)) in
  let d4 := DB.set_project_tasks d3
              (fold_left (fun tbl t =>
                            DB.insertIgnoringError ProjectTaskRow.id tbl
                              (projectTaskRow pid t))
                         (InternalProject.tasks p) (DB.project_tasks d3)) in
  let d5 := DB.set_research_notes d4
              (fold_left (fun tbl n =>
                            DB.insertIgnoringError ResearchNoteRow.id tbl
                              (researchNoteRow pid n))
                         (InternalProject.researchNotes p)
                         (DB.research_notes d4)) in
  (Ok "Project synced", d5).

(** *** Idea to project conversion *)

(** [WHERE id = ? AND userId = ?] on the ideas table. *)
Definition ownsIdea (ideaId userId : string) (i : IdeaRow.t) : bool :=
  (IdeaRow.id i =? ideaId)%string && DB.col_eq (IdeaRow.userId i) userId.

Definition post_ideas_convert_to_project (env : Env.t) (userId ideaId : string)
    (projectData : ProjectData.t) (d : DB.t)
  : Response CreatedProject.t * DB.t :=
  match find (ownsIdea ideaId userId) (DB.ideas d) with
  | None => (Err 404 "Idea not found", d)
  | Some idea =>
      let projectId := ("proj-" ++ Env.dateNow env ++ "-" ++ Env.randomId env)%string in
      let now := Env.isoNow env in
      let projectName := JS.or_else (ProjectData.name projectData) (IdeaRow.title idea) in
      let projectDescription :=
        if JS.truthy (ProjectData.description projectData)
        then ProjectData.description projectData
        else IdeaRow.description idea in
      let projectStatus := JS.or_else (ProjectData.status projectData) "Not Started" in
      let startDate := JS.or_else (ProjectData.startDate projectData) (JS.slice0 10 now) in
      let dueDate := JS.or_else (ProjectData.dueDate projectData) EmptyString in
      let row :=
        {| ProjectRow.id := projectId;
           ProjectRow.userId := Some userId;
           ProjectRow.name := projectName;
           ProjectRow.description := projectDescription;
           ProjectRow.status := projectStatus;
           ProjectRow.startDate := startDate;
           ProjectRow.dueDate := dueDate;
           ProjectRow.createdAt := now;
           ProjectRow.sourceIdeaId := Some (IdeaRow.id idea);
           ProjectRow.sourceIdeaTitle := Some (IdeaRow.title idea);
           ProjectRow.sourceEngagementId := JS.or_null (IdeaRow.engagementId idea);
           ProjectRow.sourceEngagementName :=
             JS.or_null (IdeaRow.engagementName idea) |} in
      match DB.insert ProjectRow.id row (DB.projects d) with
      | None => (Err 500 "SQLITE_CONSTRAINT: UNIQUE constraint failed: projects.id", d)
      | Some projects' =>
          let d1 := DB.set_projects d projects' in
          let d2 := DB.set_ideas d1
                      (map (fun i => if ownsIdea ideaId userId i
                                     then IdeaRow.mark_converted i projectId
                                     else i)
                           (DB.ideas d1)) in
          (Ok {| CreatedProject.id := projectId;
                 CreatedProject.name := projectName;
                 CreatedProject.description := projectDescription;
                 CreatedProject.status := projectStatus;
                 CreatedProject.startDate := startDate;
                 CreatedProject.dueDate := dueDate;
                 CreatedProject.createdAt := now;
                 CreatedProject.tasks := [];
                 CreatedProject.researchNotes := [];
                 CreatedProject.sourceIdeaId := IdeaRow.id idea;
                 CreatedProject.sourceIdeaTitle := IdeaRow.title idea;
                 CreatedProject.sourceEngagementId :=
                   JS.or_null (IdeaRow.engagementId idea);
                 CreatedProject.sourceEngagementName :=
                   JS.or_null (IdeaRow.engagementName idea) |},
           d2)
      end
  end.

(** *** Highlights *)

Definition get_highlights (userId : string) (d : DB.t)
  : Response (list HighlightOut.t) :=
  Ok (map (fun r => {| HighlightOut.row := r;
                       HighlightOut.needsFollowUp :=
                         JS.not_not (HighlightRow.needsFollowUp r) |})
          (filter (fun r => DB.col_eq (HighlightRow.userId r) userId)
                  (DB.highlights d))).

Definition highlightRow (userId : string) (h : Highlight.t) : HighlightRow.t :=
  {| HighlightRow.id := Highlight.id h;
     HighlightRow.userId := Some userId;
     HighlightRow.content := Highlight.content h;
     HighlightRow.impact := Highlight.impact h;
     HighlightRow.date := Highlight.date h;
     HighlightRow.needsFollowUp := Some (JS.bit (Highlight.needsFollowUp h));
     HighlightRow.followUpContext := Highlight.followUpContext h;
     HighlightRow.createdAt := Highlight.createdAt h |}.

Definition post_highlights (userId : string) (h : Highlight.t) (d : DB.t)
  : Response string * DB.t :=
  (Ok "Saved",
   DB.set_highlights d
     (DB.insertOrReplace HighlightRow.id (highlightRow userId h)
                         (DB.highlights d))).

(** *** Ideas *)

Definition formatIdea (env : Env.t) (r : IdeaRow.t) : IdeaOut.t :=
  let entries :=
    match JSON_parse (JS.or_else (IdeaRow.entries r) "[]") with
    | Some parsed => parsed
    | None => []                         (* catch (e) { entries = []; } *)
    end in
  let entries :=
    match entries, IdeaRow.description r with
    | [], Some description =>
        if negb (description =? EmptyString)%string && negb (JS.blank description)
        then [ {| IdeaEntry.id := ("legacy-" ++ IdeaRow.id r)%string;
                  IdeaEntry.content := description;
                  IdeaEntry.timestamp :=
                    JS.or_else (IdeaRow.createdAt r) (Env.isoNow env) |} ]
        else entries
    | _, _ => entries
    end in
  {| IdeaOut.row := r; IdeaOut.entries := entries |}.

Definition get_ideas (env : Env.t) (userId : string) (d : DB.t)
  : Response (list IdeaOut.t) :=
  Ok (map (formatIdea env)
          (filter (fun r => DB.col_eq (IdeaRow.userId r) userId) (DB.ideas d))).

Definition ideaRow (userId : string) (i : Idea.t) : IdeaRow.t :=
  let entriesJson := JSON_stringify (JS.or_nil (Idea.entries i)) in
  let description :=
    match Idea.entries i with
    | Some (first :: _) => IdeaEntry.content first
    | _ => JS.or_else (Idea.description i) EmptyString
    end in
  {| IdeaRow.id := Idea.id i;
     IdeaRow.userId := Some userId;
     IdeaRow.title := Idea.title i;
     IdeaRow.description := Some description;
     IdeaRow.entries := Some entriesJson;
     IdeaRow.category := Idea.category i;
     IdeaRow.priority := Idea.priority i;
     IdeaRow.status := Idea.status i;
     IdeaRow.createdAt := Some (Idea.createdAt i);
     IdeaRow.updatedAt := JS.or_null (Idea.updatedAt i);
     IdeaRow.aiSummary := JS.or_null (Idea.aiSummary i);
     IdeaRow.lastSummaryDate := JS.or_null (Idea.lastSummaryDate i);
     IdeaRow.engagementId := JS.or_null (Idea.engagementId i);
     IdeaRow.engagementName := JS.or_null (Idea.engagementName i);
     IdeaRow.convertedToProjectId := JS.or_null (Idea.convertedToProjectId i) |}.

Definition post_ideas (userId : string) (i : Idea.t) (d : DB.t)
  : Response string * DB.t :=
  (Ok "Saved",
   DB.set_ideas d (DB.insertOrReplace IdeaRow.id (ideaRow userId i) (DB.ideas d))).

(** *** Calendar events *)

Definition get_calendar (userId : string) (d : DB.t)
  : Response (list CalendarEventOut.t) :=
  Ok (map (fun r => {| CalendarEventOut.row := r;
                       CalendarEventOut.momSent :=
                         JS.not_not (CalendarEventRow.momSent r) |})
          (filter (fun r => DB.col_eq (CalendarEventRow.userId r) userId)
                  (DB.calendar_events d))).

Definition calendarEventRow (userId : string) (e : CalendarEvent.t)
  : CalendarEventRow.t :=
  {| CalendarEventRow.id := CalendarEvent.id e;
     CalendarEventRow.userId := Some userId;
     CalendarEventRow.title := CalendarEvent.title e;
     CalendarEventRow.description := CalendarEvent.description e;
     CalendarEventRow.date := CalendarEvent.date e;
     CalendarEventRow.startTime := CalendarEvent.startTime e;
     CalendarEventRow.endTime := CalendarEvent.endTime e;
     CalendarEventRow.type := CalendarEvent.type e;
     CalendarEventRow.meetingNotes := CalendarEvent.meetingNotes e;
     CalendarEventRow.momSent := Some (JS.flag (CalendarEvent.momSent e)) |}.

Definition post_calendar (userId : string) (e : CalendarEvent.t) (d : DB.t)
  : Response string * DB.t :=
  (Ok "Saved",
   DB.set_calendar_events d
     (DB.insertOrReplace CalendarEventRow.id (calendarEventRow userId e)
                         (DB.calendar_events d))).

(** *** Notes *)

Definition formatNote (r : NoteRow.t) : option NoteOut.t :=
  match JSON_parse (JS.or_else (NoteRow.tags r) "[]") with
  | None => None
  | Some tags => Some {| NoteOut.row := r; NoteOut.tags := tags |}
  end.

Definition get_notes (userId : string) (d : DB.t) : Response (list NoteOut.t) :=
  match mapThrowing formatNote
          (filter (fun r => DB.col_eq (NoteRow.userId r) userId) (DB.notes d)) with
  | Some formatted => Ok formatted
  | None => Uncaught
  end.

Definition noteRow (userId : string) (n : Note.t) : NoteRow.t :=
  {| NoteRow.id := Note.id n;
     NoteRow.userId := Some userId;
     NoteRow.title := Note.title n;
     NoteRow.content := Note.content n;
     NoteRow.tags := Some (JSON_stringify (JS.or_nil (Note.tags n)));
     NoteRow.createdAt := Note.createdAt n;
     NoteRow.updatedAt := Note.updatedAt n |}.

Definition post_notes (userId : string) (n : Note.t) (d : DB.t)
  : Response string * DB.t :=
  (Ok "Saved",
   DB.set_notes d (DB.insertOrReplace NoteRow.id (noteRow userId n) (DB.notes d))).

End Handlers.

End Server.

(** ** Start-up ([database.js], and the module body of [server.js]) *)

Module Startup.

Definition RISHAV_EMAIL : string := "newrishav@gmail.com".

(** [UPDATE table SET userId = ? WHERE userId IS NULL] *)
Definition assignOrphans {Row : Type} (userId : Row -> option string)
    (with_userId : Row -> option string -> Row) (uid : string)
    (tbl : list Row) : list Row :=
  map (fun r => match userId r with
                | None => with_userId r (Some uid)
                | Some _ => r
                end) tbl.

(** [SELECT id FROM users WHERE LOWER(email) = LOWER(?)] *)
Definition legacyUser (d : DB.t) : option UserRow.t :=
  find (fun u => (JS.toLowerCase (UserRow.email u)
                  =? JS.toLowerCase RISHAV_EMAIL)%string)
       (DB.users d).

(** The callback that [migrateToMultiTenancy] hands to [setTimeout]. *)
Definition migrateData (d : DB.t) : DB.t :=
  match legacyUser d with
  | None => d
  | Some user =>
      let uid := UserRow.id user in
      {| DB.users := DB.users d;
         DB.engagements :=
           assignOrphans EngagementRow.userId EngagementRow.with_userId uid
                         (DB.engagements d);
         DB.tasks :=
           assignOrphans TaskRow.userId TaskRow.with_userId uid (DB.tasks d);
         DB.projects :=
           assignOrphans ProjectRow.userId ProjectRow.with_userId uid
                         (DB.projects d);
         DB.project_tasks := DB.project_tasks d;
         DB.research_notes := DB.research_notes d;
         DB.highlights :=
           assignOrphans HighlightRow.userId HighlightRow.with_userId uid
                         (DB.highlights d);
         DB.ideas :=
           assignOrphans IdeaRow.userId IdeaRow.with_userId uid (DB.ideas d);
         DB.calendar_events :=
           assignOrphans CalendarEventRow.userId CalendarEventRow.with_userId
                         uid (DB.calendar_events d);
         DB.useful_links :=
           assignOrphans UsefulLinkRow.userId UsefulLinkRow.with_userId uid
                         (DB.useful_links d);
         DB.notes :=
           assignOrphans NoteRow.userId NoteRow.with_userId uid (DB.notes d);
         DB.settings :=
           assignOrphans SettingRow.userId SettingRow.with_userId uid
                         (DB.settings d) |}
  end.

(** The callbacks that start-up leaves with the event loop: the one given
    to [new sqlite3.Database], which calls [initDatabase], and the one
    given to [setTimeout(..., 500)]. *)
Inductive Callback := initDatabase | migrationTimer.

Definition Callback_eqb (a b : Callback) : bool :=
  match a, b with
  | initDatabase, initDatabase => true
  | migrationTimer, migrationTimer => true
  | _, _ => false
  end.

(** The requests that read a collection scoped by [userId], and a write. *)
Inductive Request :=
| GET_engagements (userId : string)
| GET_tasks (userId : string)
| GET_projects (userId : string)
| GET_highlights (userId : string)
| GET_ideas (env : Env.t) (userId : string)
| GET_calendar (userId : string)
| GET_notes (userId : string)
| POST_tasks (userId : string) (t : Task.t)
| POST_projects (userId : string) (p : InternalProject.t).

Inductive Reply :=
| engagementsReply (r : Response (list EngagementOut.t))
| tasksReply (r : Response (list TaskOut.t))
| projectsReply (r : Response (list ProjectOut.t))
| highlightsReply (r : Response (list HighlightOut.t))
| ideasReply (r : Response (list IdeaOut.t))
| calendarReply (r : Response (list CalendarEventOut.t))
| notesReply (r : Response (list NoteOut.t))
| messageReply (r : Response string).

(** The node process: the store, the milliseconds since the modules were
    loaded, whether [app.listen] was called, the callbacks waiting with
    their due times, and whether the migration callback has run. *)
Record Process := mkProcess {
  store : DB.t;
  clock : nat;
  listening : bool;
  pending : list (nat * Callback);
  migrated : bool }.

Inductive Event :=
| Tick                     (* a millisecond passes *)
| Fire (c : Callback)      (* the event loop runs a callback that is due *)
| Serve (r : Request).     (* a request arrives and is handled *)

Section Loop.

Context {jsonSubtasks : JsonArray Subtask.t}.
Context {jsonTimeline : JsonArray TimelineEntry.t}.
Context {jsonFiles : JsonArray EngagementFile.t}.
Context {jsonTags : JsonArray string}.
Context {jsonEntries : JsonArray IdeaEntry.t}.

Definition handle (r : Request) (d : DB.t) : Reply * DB.t :=
  match r with
  | GET_engagements u => (engagementsReply (Server.get_engagements u d), d)
  | GET_tasks u => (tasksReply (Server.get_tasks u d), d)
  | GET_projects u => (projectsReply (Server.get_projects u d), d)
  | GET_highlights u => (highlightsReply (Server.get_highlights u d), d)
  | GET_ideas env u => (ideasReply (Server.get_ideas env u d), d)
  | GET_calendar u => (calendarReply (Server.get_calendar u d), d)
  | GET_notes u => (notesReply (Server.get_notes u d), d)
  | POST_tasks u t =>
      let '(res, d') := Server.post_tasks u t d in (messageReply res, d')
  | POST_projects u p =>
      let '(res, d') := Server.post_projects u p d in (messageReply res, d')
  end.

(** Loading the modules: [database.js] opens the database, whose callback
    is [initDatabase]; the body of [server.js] ends with [app.listen]. *)
Definition boot (d : DB.t) : Process :=
  {| store := d; clock := 0; listening := true;
     pending := [(0, initDatabase)]; migrated := false |}.

(** Removes the first waiting occurrence of [c] that is due. *)
Fixpoint takeDue (now : nat) (c : Callback) (q : list (nat * Callback))
  : option (list (nat * Callback)) :=
  match q with
  | [] => None
  | (due, c') :: rest =>
      if Callback_eqb c c' && (due <=? now)%nat then Some rest
      else match takeDue now c rest with
           | Some rest' => Some ((due, c') :: rest')
           | None => None
           end
  end.

(** One step of the process; a served request is logged with the value of
    [migrated] at the time it was handled. *)
Definition step (e : Event) (p : Process)
  : option (Process * list (bool * Reply)) :=
  match e with
  | Tick =>
      Some ({| store := store p; clock := S (clock p);
               listening := listening p; pending := pending p;
               migrated := migrated p |}, [])
  | Fire c =>
      match takeDue (clock p) c (pending p) with
      | None => None
      | Some rest =>
          match c with
          | initDatabase =>
              (* CREATE TABLE IF NOT EXISTS ...; migrateToMultiTenancy():
                 ALTER TABLE ... ADD COLUMN userId; setTimeout(..., 500) *)
              Some ({| store := store p; clock := clock p;
                       listening := listening p;
                       pending := rest ++ [(clock p + 500, migrationTimer)];
                       migrated := migrated p |}, [])
          | migrationTimer =>
              Some ({| store := migrateData (store p); clock := clock p;
                       listening := listening p; pending := rest;
                       migrated := true |}, [])
          end
      end
  | Serve r =>
      if listening p then
        let '(reply, d') := handle r (store p) in
        Some ({| store := d'; clock := clock p; listening := listening p;
                 pending := pending p; migrated := migrated p |},
              [(migrated p, reply)])
      else None
  end.

Fixpoint run (es : list Event) (p : Process)
  : option (Process * list (bool * Reply)) :=
  match es with
  | [] => Some (p, [])
  | e :: rest =>
      match step e p with
      | None => None
      | Some (p', log) =>
          match run rest p' with
          | None => None
          | Some (p'', log') => Some (p'', log ++ log')
          end
      end
  end.

End Loop.

End Startup.

(** ** A JSON text codec

    A printer in the format of [JSON.stringify] and a parser for it, over
    byte strings and natural numbers.  It is used to build instances of
    [JsonArray]. *)

Module Json.

#[local] Unset Elimination Schemes.

Inductive value :=
| Null
| Bool (b : bool)
| Num (n : N)
| Str (s : string)
| Arr (l : list value)
| Obj (m : list (string * value)).

#[local] Set Elimination Schemes.

Definition dquote : ascii := "034"%char.
Definition bslash : ascii := "092"%char.

Definition hexDigit (n : nat) : ascii :=
  if (n <? 10)%nat then ascii_of_nat (48 + n) else ascii_of_nat (87 + n).

Definition hexValue (c : ascii) : option nat :=
  let n := nat_of_ascii c in
  if (48 <=? n)%nat && (n <=? 57)%nat then Some (n - 48)
  else if (97 <=? n)%nat && (n <=? 102)%nat then Some (n - 87)
  else if (65 <=? n)%nat && (n <=? 70)%nat then Some (n - 55)
  else None.

(** The escape of one character: the quote, the backslash and the control
    characters are escaped, the others are copied. *)
Definition escapeChar (c : ascii) : list ascii :=
  let n := nat_of_ascii c in
  if (n =? 34)%nat then [bslash; dquote]
  else if (n =? 92)%nat then [bslash; bslash]
  else if (n =? 8)%nat then [bslash; "b"%char]
  else if (n =? 9)%nat then [bslash; "t"%char]
  else if (n =? 10)%nat then [bslash; "n"%char]
  else if (n =? 12)%nat then [bslash; "f"%char]
  else if (n =? 13)%nat then [bslash; "r"%char]
  else if (n <? 32)%nat
       then [bslash; "u"%char; "0"%char; "0"%char;
             hexDigit (n / 16); hexDigit (n mod 16)]
  else [c].

Fixpoint escape (s : string) : list ascii :=
  match s with
  | EmptyString => []
  | String c r => escapeChar c ++ escape r
  end.

Definition quote (s : string) : list ascii := dquote :: escape s ++ [dquote].

Fixpoint uintChars (d : Decimal.uint) : list ascii :=
  match d with
  | Decimal.Nil => []
  | Decimal.D0 r => "0"%char :: uintChars r
  | Decimal.D1 r => "1"%char :: uintChars r
  | Decimal.D2 r => "2"%char :: uintChars r
  | Decimal.D3 r => "3"%char :: uintChars r
  | Decimal.D4 r => "4"%char :: uintChars r
  | Decimal.D5 r => "5"%char :: uintChars r
  | Decimal.D6 r => "6"%char :: uintChars r
  | Decimal.D7 r => "7"%char :: uintChars r
  | Decimal.D8 r => "8"%char :: uintChars r
  | Decimal.D9 r => "9"%char :: uintChars r
  end.

Definition chars (s : string) : list ascii := list_ascii_of_string s.

Fixpoint print (v : value) : list ascii :=
  match v with
  | Null => chars "null"
  | Bool true => chars "true"
  | Bool false => chars "false"
  | Num n => uintChars (N.to_uint n)
  | Str s => quote s
  | Arr l =>
      "["%char ::
      (fix items (l : list value) : list ascii :=
         match l with
         | [] => ["]"%char]
         | [x] => print x ++ ["]"%char]
         | x :: rest => print x ++ ","%char :: items rest
         end) l
  | Obj m =>
      "{"%char ::
      (fix members (m : list (string * value)) : list ascii :=
         match m with
         | [] => ["}"%char]
         | [(k, x)] => quote k ++ ":"%char :: print x ++ ["}"%char]
         | (k, x) :: rest => quote k ++ ":"%char :: print x ++ ","%char :: members rest
         end) m
  end.

Definition digit (c : ascii) : option (Decimal.uint -> Decimal.uint) :=
  let n := nat_of_ascii c in
  if (n =? 48)%nat then Some Decimal.D0
  else if (n =? 49)%nat then Some Decimal.D1
  else if (n =? 50)%nat then Some Decimal.D2
  else if (n =? 51)%nat then Some Decimal.D3
  else if (n =? 52)%nat then Some Decimal.D4
  else if (n =? 53)%nat then Some Decimal.D5
  else if (n =? 54)%nat then Some Decimal.D6
  else if (n =? 55)%nat then Some Decimal.D7
  else if (n =? 56)%nat then Some Decimal.D8
  else if (n =? 57)%nat then Some Decimal.D9
  else None.

(** The longest prefix of decimal digits, and what follows it. *)
Fixpoint readDigits (s : list ascii) : Decimal.uint * list ascii :=
  match s with
  | [] => (Decimal.Nil, [])
  | c :: r =>
      match digit c with
      | Some k => let '(d, r') := readDigits r in (k d, r')
      | None => (Decimal.Nil, s)
      end
  end.

(** The string that ends at the next unescaped quote. *)
Fixpoint readString (s : list ascii) : option (string * list ascii) :=
  match s with
  | [] => None
  | c :: r =>
      if (c =? dquote)%char then Some (EmptyString, r)
      else if (c =? bslash)%char then
        match r with
        | [] => None
        | e :: r1 =>
            let continue (x : ascii) (tail : list ascii) :=
              match readString tail with
              | Some (str, out) => Some (String x str, out)
              | None => None
              end in
            if (e =? "u")%char then
              match r1 with
              | h1 :: h2 :: h3 :: h4 :: r2 =>
                  match hexValue h1, hexValue h2, hexValue h3, hexValue h4 with
                  | Some 0, Some 0, Some a, Some b =>
                      continue (ascii_of_nat (16 * a + b)) r2
                  | _, _, _, _ => None
                  end
              | _ => None
              end
            else if (e =? "b")%char then continue "008"%char r1
            else if (e =? "t")%char then continue "009"%char r1
            else if (e =? "n")%char then continue "010"%char r1
            else if (e =? "f")%char then continue "012"%char r1
            else if (e =? "r")%char then continue "013"%char r1
            else if (e =? dquote)%char || (e =? bslash)%char || (e =? "/")%char
                 then continue e r1
            else None
        end
      else
        match readString r with
        | Some (str, out) => Some (String c str, out)
        | None => None
        end
  end.

Fixpoint stripPrefix (p s : list ascii) : option (list ascii) :=
  match p with
  | [] => Some s
  | c :: p' =>
      match s with
      | [] => None
      | c' :: s' => if (c =? c')%char then stripPrefix p' s' else None
      end
  end.

Definition parseKeyword (s : list ascii) : option (value * list ascii) :=
  match stripPrefix (chars "null") s with
  | Some out => Some (Null, out)
  | None =>
      match stripPrefix (chars "true") s with
      | Some out => Some (Bool true, out)
      | None =>
          match stripPrefix (chars "false") s with
          | Some out => Some (Bool false, out)
          | None => None
          end
      end
  end.

(** Recursive descent, bounded by [fuel]. *)
Fixpoint parseValue (fuel : nat) (s : list ascii) {struct fuel}
  : option (value * list ascii) :=
  match fuel with
  | O => None
  | S fuel' =>
      match s with
      | [] => None
      | c :: r =>
          if (c =? dquote)%char then
            match readString r with
            | Some (x, out) => Some (Str x, out)
            | None => None
            end
          else if (c =? "[")%char then
            match r with
            | [] => None
            | c' :: r' =>
                if (c' =? "]")%char then Some (Arr [], r')
                else match parseElements fuel' r with
                     | Some (l, out) => Some (Arr l, out)
                     | None => None
                     end
            end
          else if (c =? "{")%char then
            match r with
            | [] => None
            | c' :: r' =>
                if (c' =? "}")%char then Some (Obj [], r')
                else match parseMembers fuel' r with
                     | Some (m, out) => Some (Obj m, out)
                     | None => None
                     end
            end
          else
            match digit c with
            | Some _ => let '(d, out) := readDigits s in Some (Num (N.of_uint d), out)
            | None => parseKeyword s
            end
      end
  end

with parseElements (fuel : nat) (s : list ascii) {struct fuel}
  : option (list value * list ascii) :=
  match fuel with
  | O => None
  | S fuel' =>
      match parseValue fuel' s with
      | Some (v, c :: out) =>
          if (c =? ",")%char then
            match parseElements fuel' out with
            | Some (vs, out') => Some (v :: vs, out')
            | None => None
            end
          else if (c =? "]")%char then Some ([v], out)
          else None
      | _ => None
      end
  end

with parseMembers (fuel : nat) (s : list ascii) {struct fuel}
  : option (list (string * value) * list ascii) :=
  match fuel with
  | O => None
  | S fuel' =>
      match s with
      | [] => None
      | q :: r =>
          if (q =? dquote)%char then
            match readString r with
            | Some (k, colon :: r1) =>
                if (colon =? ":")%char then
                  match parseValue fuel' r1 with
                  | Some (v, c :: out) =>
                      if (c =? ",")%char then
                        match parseMembers fuel' out with
                        | Some (m, out') => Some ((k, v) :: m, out')
                        | None => None
                        end
                      else if (c =? "}")%char then Some ([(k, v)], out)
                      else None
                  | _ => None
                  end
                else None
            | _ => None
            end
          else None
      end
  end.

Definition stringify (v : value) : string := string_of_list_ascii (print v).

Definition parse (s : string) : option value :=
  match parseValue (S (List.length (chars s))) (chars s) with
  | Some (v, []) => Some v
  | _ => None
  end.

(** *** Records as JSON objects *)

Fixpoint field (k : string) (m : list (string * value)) : option value :=
  match m with
  | [] => None
  | (k', v) :: rest => if (k =? k')%string then Some v else field k rest
  end.

Definition getStr (k : string) (m : list (string * value)) : option string :=
  match field k m with Some (Str s) => Some s | _ => None end.

Definition getBool (k : string) (m : list (string * value)) : option bool :=
  match field k m with Some (Bool b) => Some b | _ => None end.

Definition getNum (k : string) (m : list (string * value)) : option N :=
  match field k m with Some (Num n) => Some n | _ => None end.

Definition andThen {A B : Type} (o : option A) (f : A -> option B) : option B :=
  match o with
  | Some a => f a
  | None => None
  end.

Definition members (v : value) : option (list (string * value)) :=
  match v with Obj m => Some m | _ => None end.

Definition encodeSubtask (x : Subtask.t) : value :=
  Obj [("id", Str (Subtask.id x)); ("content", Str (Subtask.content x));
       ("isCompleted", Bool (Subtask.isCompleted x))].

Definition decodeSubtask (v : value) : option Subtask.t :=
  andThen (members v) (fun m =>
  andThen (getStr "id" m) (fun id =>
  andThen (getStr "content" m) (fun content =>
  andThen (getBool "isCompleted" m) (fun isCompleted =>
  Some (Subtask.mk id content isCompleted))))).

Definition encodeTimelineEntry (x : TimelineEntry.t) : value :=
  Obj [("id", Str (TimelineEntry.id x)); ("date", Str (TimelineEntry.date x));
       ("content", Str (TimelineEntry.content x));
       ("type", Str (TimelineEntry.type x))].

Definition decodeTimelineEntry (v : value) : option TimelineEntry.t :=
  andThen (members v) (fun m =>
  andThen (getStr "id" m) (fun id =>
  andThen (getStr "date" m) (fun date =>
  andThen (getStr "content" m) (fun content =>
  andThen (getStr "type" m) (fun type =>
  Some (TimelineEntry.mk id date content type)))))).

Definition encodeEngagementFile (x : EngagementFile.t) : value :=
  Obj [("id", Str (EngagementFile.id x)); ("name", Str (EngagementFile.name x));
       ("type", Str (EngagementFile.type x)); ("size", Num (EngagementFile.size x));
       ("data", Str (EngagementFile.data x));
       ("uploadDate", Str (EngagementFile.uploadDate x))].

Definition decodeEngagementFile (v : value) : option EngagementFile.t :=
  andThen (members v) (fun m =>
  andThen (getStr "id" m) (fun id =>
  andThen (getStr "name" m) (fun name =>
  andThen (getStr "type" m) (fun type =>
  andThen (getNum "size" m) (fun size =>
  andThen (getStr "data" m) (fun data =>
  andThen (getStr "uploadDate" m) (fun uploadDate =>
  Some (EngagementFile.mk id name type size data uploadDate)))))))).

Definition encodeIdeaEntry (x : IdeaEntry.t) : value :=
  Obj [("id", Str (IdeaEntry.id x)); ("content", Str (IdeaEntry.content x));
       ("timestamp", Str (IdeaEntry.timestamp x))].

Definition decodeIdeaEntry (v : value) : option IdeaEntry.t :=
  andThen (members v) (fun m =>
  andThen (getStr "id" m) (fun id =>
  andThen (getStr "content" m) (fun content =>
  andThen (getStr "timestamp" m) (fun timestamp =>
  Some (IdeaEntry.mk id content timestamp))))).

Definition encodeTag (x : string) : value := Str x.

Definition decodeTag (v : value) : option string :=
  match v with Str s => Some s | _ => None end.

(** [JSON.stringify] and [JSON.parse] on an array whose elements are
    encoded by [enc] and decoded by [dec]. *)
Definition stringifyArray {A : Type} (enc : A -> value) (l : list A) : string :=
  stringify (Arr (map enc l)).

Definition parseArray {A : Type} (dec : value -> option A) (s : string)
  : option (list A) :=
  match parse s with
  | Some (Arr vs) => mapThrowing dec vs
  | _ => None
  end.

(** *** What the parser is shown to do *)

(** What may follow a number: anything but a digit. *)
Definition noDigitHead (rest : list ascii) : Prop :=
  match rest with
  | [] => True
  | c :: _ => digit c = None
  end.

Fixpoint printItems (l : list value) : list ascii :=
  match l with
  | [] => ["]"%char]
  | [x] => print x ++ ["]"%char]
  | x :: rest => print x ++ ","%char :: printItems rest
  end.

Fixpoint printMembers (m : list (string * value)) : list ascii :=
  match m with
  | [] => ["}"%char]
  | [(k, x)] => quote k ++ ":"%char :: print x ++ ["}"%char]
  | (k, x) :: rest =>
      quote k ++ ":"%char :: print x ++ ","%char :: printMembers rest
  end.

(** [v] is read back from its print, whatever follows it. *)
Definition readsBack (v : value) : Prop :=
  forall fuel rest,
    List.length (print v) <= fuel ->
    noDigitHead rest ->
    parseValue fuel (print v ++ rest) = Some (v, rest).

End Json.

(** ** The rest of [App.tsx], and the handlers of [TaskTracker.tsx] that
    call it *)

Module UsefulLink.
Record t := mk {
  id : string; title : string; url : string; category : string;
  description : option string; createdAt : string }.
End UsefulLink.

Module ViewStateData.
Record t := mk { tab : string; view : string; targetId : option string }.
End ViewStateData.

Module App.

(** [ids.includes(id)] *)
Definition includes (ids : list string) (id : string) : bool :=
  existsb (fun x => (x =? id)%string) ids.

(** *** Tasks *)

Definition handleAddTask (task : Task.t) (st : Client.AppState)
  : Client.AppState * list Client.ApiCall :=
  ({| Client.tasks := task :: Client.tasks st;
      Client.projects := Client.projects st |},
   [Client.saveTaskAPI task]).

(** *** Engagements, the view routing and the modals *)

Record Shell := mkShell {
  engagements : list Engagement.t;
  viewState : ViewStateData.t;
  isAddModalOpen : bool;
  editingEngagement : option Engagement.t;
  itemsToDelete : option (list string) }.

Inductive EngagementCall :=
| saveEngagementAPI (engagement : Engagement.t)
| deleteEngagementAPI (id : string).

Definition setViewState (v : ViewStateData.t) (st : Shell) : Shell :=
  {| engagements := engagements st; viewState := v;
     isAddModalOpen := isAddModalOpen st;
     editingEngagement := editingEngagement st;
     itemsToDelete := itemsToDelete st |}.

Definition handleNavigate (id : string) (st : Shell) : Shell :=
  setViewState {| ViewStateData.tab := ViewStateData.tab (viewState st);
                  ViewStateData.view := "detail";
                  ViewStateData.targetId := Some id |} st.

Definition handleBack (st : Shell) : Shell :=
  setViewState {| ViewStateData.tab := ViewStateData.tab (viewState st);
                  ViewStateData.view := "dashboard";
                  ViewStateData.targetId := None |} st.

Definition handleAddEngagement (newEngagement : Engagement.t) (st : Shell)
  : Shell * list EngagementCall :=
  let st1 := {| engagements := newEngagement :: engagements st;
                viewState := viewState st;
                isAddModalOpen := false;
                editingEngagement := editingEngagement st;
                itemsToDelete := itemsToDelete st |} in
  (handleNavigate (Engagement.id newEngagement) st1,
   [saveEngagementAPI newEngagement]).

Definition handleUpdateEngagement (updatedEngagement : Engagement.t)
    (st : Shell) : Shell * list EngagementCall :=
  ({| engagements :=
        map (fun e => if (Engagement.id e
                          =? Engagement.id updatedEngagement)%string
                      then updatedEngagement else e)
            (engagements st);
      viewState := viewState st;
      isAddModalOpen := isAddModalOpen st;
      editingEngagement := None;
      itemsToDelete := itemsToDelete st |},
   [saveEngagementAPI updatedEngagement]).

Definition handleDeleteRequest (ids : list string) (st : Shell) : Shell :=
  {| engagements := engagements st; viewState := viewState st;
     isAddModalOpen := isAddModalOpen st;
     editingEngagement := editingEngagement st;
     itemsToDelete := Some ids |}.

Definition handleConfirmDelete (st : Shell) : Shell * list EngagementCall :=
  match itemsToDelete st with
  | None => (st, [])
  | Some ids =>
      let v := viewState st in
      ({| engagements :=
            filter (fun e => negb (includes ids (Engagement.id e)))
                   (engagements st);
          viewState :=
            if (ViewStateData.view v =? "detail")%string
               && JS.truthy (ViewStateData.targetId v)
               && includes ids (JS.or_else (ViewStateData.targetId v) EmptyString)
            then {| ViewStateData.tab := ViewStateData.tab v;
                    ViewStateData.view := "dashboard";
                    ViewStateData.targetId := ViewStateData.targetId v |}
            else v;
          isAddModalOpen := isAddModalOpen st;
          editingEngagement := editingEngagement st;
          itemsToDelete := None |},
       map deleteEngagementAPI ids)
  end.

(** [viewState.targetId ? engagements.find(e => e.id === viewState.targetId)
    : undefined] *)
Definition currentEngagement (st : Shell) : option Engagement.t :=
  if JS.truthy (ViewStateData.targetId (viewState st))
  then find (fun e => (Engagement.id e
                       =? JS.or_else (ViewStateData.targetId (viewState st))
                                     EmptyString)%string)
            (engagements st)
  else None.

(** The engagement pane that is rendered when the tab is [engagements]:
    the detail of [currentEngagement] in the [detail] view, when there is
    one. *)
Definition detailShown (st : Shell) : option Engagement.t :=
  if (ViewStateData.view (viewState st) =? "detail")%string
  then currentEngagement st
  else None.

End App.

(** [TaskTracker] is rendered with [tasks = masterTasksList] and the three
    task handlers of [App]; its own handlers build the task they pass on. *)
Module TaskTracker.

Section Props.

Variables (State Call : Type).
Variable tasks : list Task.t.
Variable onUpdateTask : Task.t -> State -> State * list Call.


(** [{ ...task, isPriority: b }] *)
Definition with_isPriority (task : Task.t) (b : bool) : Task.t :=
  {| Task.id := Task.id task; Task.content := Task.content task;
     Task.isCompleted := Task.isCompleted task; Task.type := Task.type task;
     Task.date := Task.date task; Task.createdAt := Task.createdAt task;
     Task.isPriority := Some b;
     Task.subtasks := Task.subtasks task;
     Task.engagementId := Task.engagementId task;
     Task.engagementName := Task.engagementName task;
     Task.projectId := Task.projectId task;
     Task.projectName := Task.projectName task |}.

(** [{ ...task, subtasks: sts }] *)
Definition with_subtasks (task : Task.t) (sts : list Subtask.t) : Task.t :=
  {| Task.id := Task.id task; Task.content := Task.content task;
     Task.isCompleted := Task.isCompleted task; Task.type := Task.type task;
     Task.date := Task.date task; Task.createdAt := Task.createdAt task;
     Task.isPriority := Task.isPriority task;
     Task.subtasks := Some sts;
     Task.engagementId := Task.engagementId task;
     Task.engagementName := Task.engagementName task;
     Task.projectId := Task.projectId task;
     Task.projectName := Task.projectName task |}.


(** [!task.isPriority], where [isPriority] may be absent. *)
Definition handleTogglePriority (task : Task.t) (st : State)
  : State * list Call :=
  onUpdateTask
    (with_isPriority task
       (match Task.isPriority task with
        | Some true => false
        | _ => true
        end)) st.

(** [{ ...st, isCompleted: !st.isCompleted }] for the subtask of that id. *)
Definition toggleSubtask (subtaskId : string) (s : Subtask.t) : Subtask.t :=
  if (Subtask.id s =? subtaskId)%string
  then {| Subtask.id := Subtask.id s; Subtask.content := Subtask.content s;
          Subtask.isCompleted := negb (Subtask.isCompleted s) |}
  else s.

Definition handleToggleSubtask (taskId subtaskId : string) (st : State)
  : State * list Call :=
  match find (fun t => (Task.id t =? taskId)%string) tasks with
  | None => (st, [])
  | Some task =>
      match Task.subtasks task with
      | None => (st, [])
      | Some subtasks =>
          onUpdateTask
            (with_subtasks task (map (toggleSubtask subtaskId) subtasks)) st
      end
  end.

Definition handleDeleteSubtask (taskId subtaskId : string) (st : State)
  : State * list Call :=
  match find (fun t => (Task.id t =? taskId)%string) tasks with
  | None => (st, [])
  | Some task =>
      match Task.subtasks task with
      | None => (st, [])
      | Some subtasks =>
          onUpdateTask
            (with_subtasks task
               (filter (fun s => negb (Subtask.id s =? subtaskId)%string)
                       subtasks)) st
      end
  end.

End Props.

End TaskTracker.

(** ** The rest of [server.js]: authentication, the [DELETE] endpoints,
    links and settings *)

Module LoginBody.
Record t := mk { email : option string; password : option string }.
End LoginBody.

Module AuthUser.
Record t := mk { id : string; email : string; name : string }.
End AuthUser.

Module LoginResponse.
Record t := mk { token : string; user : AuthUser.t }.
End LoginResponse.

(** The columns that [GET /api/auth/me] selects. *)
Module CurrentUser.
Record t := mk { id : string; email : string; name : string; createdAt : string }.
End CurrentUser.

(** [bcrypt.compare] and the two calls of [jsonwebtoken], with [JWT_SECRET]
    and the time of the call fixed. *)
Module Crypto.
Record t := mk {
  compare : string -> string -> bool;  (* bcrypt.compare(password, hash) *)
  sign : string -> string;             (* jwt.sign({ userId }, JWT_SECRET, ...) *)
  verify : string -> option string     (* jwt.verify(token, JWT_SECRET).userId;
                                          [None]: it throws *) }.
End Crypto.

(** [JSON.stringify] and [JSON.parse] on the body of a settings request. *)
Class JsonBody (A : Type) : Type := {
  stringifyBody : A -> string;
  parseBody : string -> option A;      (* [None]: SyntaxError *)
  parseBody_stringifyBody : forall b, parseBody (stringifyBody b) = Some b }.

Module Routes.

(** [s.split(sep)] for a separator of one character. *)
Fixpoint split (sep : ascii) (s : string) : list string :=
  match s with
  | EmptyString => [EmptyString]
  | String c rest =>
      if Ascii.eqb c sep then EmptyString :: split sep rest
      else match split sep rest with
           | w :: ws => String c w :: ws
           | [] => [String c EmptyString]
           end
  end.

(** What the middleware does with the request: it calls [next()] with
    [req.userId] set, or it answers itself. *)
Inductive Checked :=
| next (userId : string)
| rejected (status : nat) (error : string).

Definition authMiddleware (c : Crypto.t) (authorization : option string)
  : Checked :=
  if negb (JS.truthy authorization)
     || negb (String.prefix "Bearer "
                (JS.or_else authorization EmptyString))
  then rejected 401 "No token provided"
  else
    match nth_error (split " "%char (JS.or_else authorization EmptyString)) 1 with
    | None => rejected 401 "Invalid token"      (* jwt.verify(undefined) throws *)
    | Some token =>
        match Crypto.verify c token with
        | Some userId => next userId
        | None => rejected 401 "Invalid token"
        end
    end.

(** [app.get(path, authMiddleware, handler)] *)
Definition protected {A : Type} (c : Crypto.t) (authorization : option string)
    (handler : string -> DB.t -> Response A * DB.t) (d : DB.t)
  : Response A * DB.t :=
  match authMiddleware c authorization with
  | next userId => handler userId d
  | rejected status error => (Err status error, d)
  end.

(** *** [POST /api/auth/login], [GET /api/auth/me] *)

Section Login.

Context {caseMapping : CaseMapping}.

Definition post_auth_login (c : Crypto.t) (body : LoginBody.t) (d : DB.t)
  : Response LoginResponse.t :=
  if negb (JS.truthy (LoginBody.email body))
     || negb (JS.truthy (LoginBody.password body))
  then Err 400 "Email and password are required"
  else
    let email := JS.or_else (LoginBody.email body) EmptyString in
    let password := JS.or_else (LoginBody.password body) EmptyString in
    match find (fun u => (UserRow.email u =? toLowerCase email)%string)
               (DB.users d) with
    | None => Err 401 "Invalid email or password"
    | Some user =>
        if Crypto.compare c password (UserRow.passwordHash user)
        then Ok {| LoginResponse.token := Crypto.sign c (UserRow.id user);
                   LoginResponse.user :=
                     {| AuthUser.id := UserRow.id user;
                        AuthUser.email := UserRow.email user;
                        AuthUser.name := UserRow.name user |} |}
        else Err 401 "Invalid email or password"
    end.

End Login.

Definition get_auth_me (userId : string) (d : DB.t) : Response CurrentUser.t :=
  match find (fun u => (UserRow.id u =? userId)%string) (DB.users d) with
  | None => Err 404 "User not found"
  | Some user =>
      Ok {| CurrentUser.id := UserRow.id user;
            CurrentUser.email := UserRow.email user;
            CurrentUser.name := UserRow.name user;
            CurrentUser.createdAt := UserRow.createdAt user |}
  end.

(** *** The [DELETE] endpoints *)

(** [DELETE FROM table WHERE id = ? AND userId = ?]: the rows that are left,
    and [this.changes]. *)
Section Delete.
Variable Row : Type.
Variable key : Row -> string.
Variable owner : Row -> option string.

Definition hit (id userId : string) (r : Row) : bool :=
  (key r =? id)%string && DB.col_eq (owner r) userId.

Definition deleteOwned (id userId : string) (tbl : list Row) : list Row :=
  filter (fun r => negb (hit id userId r)) tbl.

Definition changes (id userId : string) (tbl : list Row) : nat :=
  length (filter (hit id userId) tbl).

End Delete.

Definition delete_engagements (userId id : string) (d : DB.t)
  : Response nat * DB.t :=
  (Ok (changes EngagementRow.id EngagementRow.userId id userId (DB.engagements d)),
   DB.set_engagements d
     (deleteOwned EngagementRow.id EngagementRow.userId id userId
                  (DB.engagements d))).

Definition delete_tasks (userId id : string) (d : DB.t)
  : Response nat * DB.t :=
  (Ok (changes TaskRow.id TaskRow.userId id userId (DB.tasks d)),
   DB.set_tasks d
     (deleteOwned TaskRow.id TaskRow.userId id userId (DB.tasks d))).

Definition delete_projects (userId id : string) (d : DB.t)
  : Response nat * DB.t :=
  match find (hit ProjectRow.id ProjectRow.userId id userId) (DB.projects d) with
  | None => (Err 404 "Project not found", d)
  | Some _ =>
      let d1 := DB.set_project_tasks d
                  (filter (fun t => negb (DB.col_eq (ProjectTaskRow.projectId t) id))
                          (DB.project_tasks d)) in
      let d2 := DB.set_research_notes d1
                  (filter (fun n => negb (DB.col_eq (ResearchNoteRow.projectId n) id))
                          (DB.research_notes d1)) in
      (Ok (changes ProjectRow.id ProjectRow.userId id userId (DB.projects d2)),
       DB.set_projects d2
         (deleteOwned ProjectRow.id ProjectRow.userId id userId (DB.projects d2)))
  end.

Definition delete_highlights (userId id : string) (d : DB.t)
  : Response string * DB.t :=
  (Ok "Deleted",
   DB.set_highlights d
     (deleteOwned HighlightRow.id HighlightRow.userId id userId
                  (DB.highlights d))).

Definition delete_ideas (userId id : string) (d : DB.t)
  : Response string * DB.t :=
  (Ok "Deleted",
   DB.set_ideas d
     (deleteOwned IdeaRow.id IdeaRow.userId id userId (DB.ideas d))).

Definition delete_calendar (userId id : string) (d : DB.t)
  : Response string * DB.t :=
  (Ok "Deleted",
   DB.set_calendar_events d
     (deleteOwned CalendarEventRow.id CalendarEventRow.userId id userId
                  (DB.calendar_events d))).

Definition delete_links (userId id : string) (d : DB.t)
  : Response string * DB.t :=
  (Ok "Deleted",
   DB.set_useful_links d
     (deleteOwned UsefulLinkRow.id UsefulLinkRow.userId id userId
                  (DB.useful_links d))).

Definition delete_notes (userId id : string) (d : DB.t)
  : Response string * DB.t :=
  (Ok "Deleted",
   DB.set_notes d
     (deleteOwned NoteRow.id NoteRow.userId id userId (DB.notes d))).

(** *** Links *)

Definition get_links (userId : string) (d : DB.t)
  : Response (list UsefulLinkRow.t) :=
  Ok (filter (fun r => DB.col_eq (UsefulLinkRow.userId r) userId)
             (DB.useful_links d)).

Definition usefulLinkRow (userId : string) (l : UsefulLink.t)
  : UsefulLinkRow.t :=
  {| UsefulLinkRow.id := UsefulLink.id l;
     UsefulLinkRow.userId := Some userId;
     UsefulLinkRow.title := UsefulLink.title l;
     UsefulLinkRow.url := UsefulLink.url l;
     UsefulLinkRow.category := UsefulLink.category l;
     UsefulLinkRow.description := UsefulLink.description l;
     UsefulLinkRow.createdAt := UsefulLink.createdAt l |}.

Definition post_links (userId : string) (l : UsefulLink.t) (d : DB.t)
  : Response string * DB.t :=
  (Ok "Saved",
   DB.set_useful_links d
     (DB.insertOrReplace UsefulLinkRow.id (usefulLinkRow userId l)
                         (DB.useful_links d))).

(** *** Settings *)

(** [`${req.userId}:${req.params.key}`] *)
Definition compositeKey (userId key : string) : string :=
  (userId ++ ":" ++ key)%string.

Section Settings.

Context {Body : Type} {jsonBody : JsonBody Body}.

(** Whether the database file holds the table [settings].  Neither
    [server.js] nor [database.js] creates it: a file has the table when the
    earlier server, which ran [CREATE TABLE IF NOT EXISTS settings], made
    it, and [migrateToMultiTenancy] then adds the column [userId].  On a
    file without the table both statements fail, and the handlers answer
    500 with the message of the error. *)
Variable settingsTable : bool.

Definition NO_SETTINGS_TABLE : string := "SQLITE_ERROR: no such table: settings".

(** [res.json(row ? JSON.parse(row.value) : null)]: [Ok None] is [null]. *)
Definition get_settings (userId key : string) (d : DB.t)
  : Response (option Body) :=
  if negb settingsTable then Err 500 NO_SETTINGS_TABLE
  else
    match find (fun r => (SettingRow.key r =? compositeKey userId key)%string)
               (DB.settings d) with
    | None => Ok None
    | Some row =>
        match parseBody (SettingRow.value row) with
        | Some body => Ok (Some body)
        | None => Uncaught
        end
    end.

Definition post_settings (userId key : string) (body : Body) (d : DB.t)
  : Response string * DB.t :=
  if negb settingsTable then (Err 500 NO_SETTINGS_TABLE, d)
  else
    (Ok "Saved",
     DB.set_settings d
       (DB.insertOrReplace SettingRow.key
          {| SettingRow.key := compositeKey userId key;
             SettingRow.value := stringifyBody body;
             SettingRow.userId := Some userId |}
          (DB.settings d))).

End Settings.

End Routes.

(** ** The tab order in [apiService.ts] *)

Module ApiService.

Definition DEFAULT_TAB_ORDER : list string :=
  ["home"; "engagements"; "calendar"; "tasks"; "highlights"; "projects";
   "ideas"; "links"; "notes"].

(** [fetchTabOrder], from the answer to [GET /api/settings/tabOrder]: a
    response that is not [ok], a body that is not an array, and a failed
    request all give the default. *)
Definition fetchTabOrder (res : Response (option (list string))) : list string :=
  match res with
  | Ok (Some data) =>
      let missingTabs :=
        filter (fun tab => negb (App.includes data tab)) DEFAULT_TAB_ORDER in
      data ++ missingTabs
  | _ => DEFAULT_TAB_ORDER
  end.

End ApiService.

(** ** Predicates of the further statements *)

(** The character does not occur in the string. *)
Definition freeOf (c : ascii) (s : string) : Prop :=
  ~ In c (list_ascii_of_string s).

(** The element of the answer to [GET /api/projects] for a project row,
    from given child tables. *)
Definition projectOut (tasks : list ProjectTaskRow.t)
    (notes : list ResearchNoteRow.t) (p : ProjectRow.t) : ProjectOut.t :=
  {| ProjectOut.row := p;
     ProjectOut.tasks :=
       map (fun t => {| ProjectTaskOut.row := t;
                        ProjectTaskOut.isCompleted :=
                          JS.not_not (ProjectTaskRow.isCompleted t) |})
           (filter (fun t => DB.col_eq (ProjectTaskRow.projectId t)
                                       (ProjectRow.id p)) tasks);
     ProjectOut.researchNotes :=
       filter (fun n => DB.col_eq (ResearchNoteRow.projectId n)
                                  (ProjectRow.id p)) notes |}.

(** ** Predicates used in the statements *)

(** Emails are stored the way registration writes them. *)
Definition emailsLowerCase {caseMapping : CaseMapping} (d : DB.t) : Prop :=
  forall u, In u (DB.users d) -> UserRow.email u = toLowerCase (UserRow.email u).

(** A flag stored as 0 is read as [false], a flag stored as 1 as [true]. *)
Definition readsFlag (column : option Z) (flag : bool) : Prop :=
  (column = Some 0%Z -> flag = false) /\ (column = Some 1%Z -> flag = true).

(** The boolean that an optional flag of a request body stands for. *)
Definition flagValue (b : option bool) : bool :=
  match b with
  | Some true => true
  | _ => false
  end.

(** [new] is [old] with every row whose [userId] is [NULL] given to [uid],
    and the other rows as they were. *)
Definition Adopted {Row : Type} (userId : Row -> option string)
    (with_userId : Row -> option string -> Row) (uid : string)
    (old new : list Row) : Prop :=
  Forall2 (fun r r' => match userId r with
                       | Some _ => r' = r
                       | None => r' = with_userId r (Some uid)
                       end) old new.

(** What a client reads of a response: the id of each project with its
    tasks and research notes. *)
Definition projectsRead (r : Response (list ProjectOut.t))
  : list (string * list ProjectTask.t * list ResearchNote.t) :=
  match r with
  | Ok outs =>
      map (fun o => (ProjectRow.id (ProjectOut.row o),
                     map ProjectTaskOut.view (ProjectOut.tasks o),
                     map ProjectOut.noteView (ProjectOut.researchNotes o)))
          outs
  | _ => []
  end.

(** What holds of the process at every moment after the modules are
    loaded. *)
Definition afterBoot (p : Startup.Process) : Prop :=
  Startup.listening p = true
  /\ (Startup.migrated p = true -> 500 <= Startup.clock p)
  /\ (forall due, In (due, Startup.migrationTimer) (Startup.pending p) ->
                  500 <= due).

(** The schedule that lets the migration run as early as it can. *)
Definition earliestMigration : list Startup.Event :=
  Startup.Fire Startup.initDatabase
  :: repeat Startup.Tick 500 ++ [Startup.Fire Startup.migrationTimer].

Section Ordering.

Context {jsonSubtasks : JsonArray Subtask.t}.
Context {jsonTimeline : JsonArray TimelineEntry.t}.
Context {jsonFiles : JsonArray EngagementFile.t}.
Context {jsonTags : JsonArray string}.
Context {jsonEntries : JsonArray IdeaEntry.t}.

(** C8 as the specification words it: every request is served after the
    migration. *)
Definition migrationPrecedesTraffic : Prop :=
  forall (d : DB.t) (es : list Startup.Event) (p : Startup.Process)
         (log : list (bool * Startup.Reply)),
    Startup.run es (Startup.boot d) = Some (p, log) ->
    forall entry, In entry log -> fst entry = true.

End Ordering.

(** ** Sample data *)

Definition sampleTask (id content : string) (done : bool)
    (projectId : option string) : Task.t :=
  {| Task.id := id; Task.content := content; Task.isCompleted := done;
     Task.type := "daily"; Task.date := "2024-01-01";
     Task.createdAt := "2024-01-01T00:00:00.000Z"; Task.isPriority := None;
     Task.subtasks := None; Task.engagementId := None;
     Task.engagementName := None; Task.projectId := projectId;
     Task.projectName := None |}.

Definition sampleProject (id name : string) (tasks : list ProjectTask.t)
  : InternalProject.t :=
  {| InternalProject.id := id; InternalProject.name := name;
     InternalProject.description := "Study for exam";
     InternalProject.status := "In Progress";
     InternalProject.startDate := "2024-01-01";
     InternalProject.dueDate := "2024-02-01";
     InternalProject.tasks := tasks; InternalProject.researchNotes := [];
     InternalProject.createdAt := "2024-01-01T00:00:00.000Z";
     InternalProject.sourceIdeaId := None;
     InternalProject.sourceIdeaTitle := None;
     InternalProject.sourceEngagementId := None;
     InternalProject.sourceEngagementName := None |}.

Definition sampleState : Client.AppState :=
  {| Client.tasks := [sampleTask "task-1" "Review reports" false None];
     Client.projects :=
       [sampleProject "p-1" "Certification"
          [ProjectTask.mk "pt-1" "Complete Section 1-4" true;
           ProjectTask.mk "pt-2" "Take practice exam 1" false];
        sampleProject "p-2" "Internal Dev Tools"
          [ProjectTask.mk "pt-4" "Survey team" false]] |}.

Definition sampleIdea (id title description status : string)
    (converted : option string) : IdeaRow.t :=
  {| IdeaRow.id := id; IdeaRow.userId := Some "user-1"; IdeaRow.title := title;
     IdeaRow.description := Some description; IdeaRow.entries := None;
     IdeaRow.category := "Process"; IdeaRow.priority := "High";
     IdeaRow.status := status;
     IdeaRow.createdAt := Some "2024-01-01T00:00:00.000Z";
     IdeaRow.updatedAt := None; IdeaRow.aiSummary := None;
     IdeaRow.lastSummaryDate := None; IdeaRow.engagementId := None;
     IdeaRow.engagementName := None; IdeaRow.convertedToProjectId := converted |}.

Definition sampleProjectRow (id name : string) (source : option string)
  : ProjectRow.t :=
  {| ProjectRow.id := id; ProjectRow.userId := Some "user-1";
     ProjectRow.name := name; ProjectRow.description := Some "Team rotation";
     ProjectRow.status := "Not Started"; ProjectRow.startDate := "2024-01-02";
     ProjectRow.dueDate := EmptyString;
     ProjectRow.createdAt := "2024-01-02T00:00:00.000Z";
     ProjectRow.sourceIdeaId := source; ProjectRow.sourceIdeaTitle := Some name;
     ProjectRow.sourceEngagementId := None;
     ProjectRow.sourceEngagementName := None |}.

Definition emptyStore : DB.t :=
  {| DB.users := []; DB.engagements := []; DB.tasks := []; DB.projects := [];
     DB.project_tasks := []; DB.research_notes := []; DB.highlights := [];
     DB.ideas := []; DB.calendar_events := []; DB.useful_links := [];
     DB.notes := []; DB.settings := [] |}.

(** A store holding the idea of the scenario, owned by [user-1], and a
    second idea with the project of its earlier conversion. *)
Definition ideaStore : DB.t :=
  DB.set_projects
    (DB.set_ideas emptyStore
       [sampleIdea "idea-1" "Automated Status Tool" "Script for Jira" "New" None;
        sampleIdea "idea-2" "Friday Lunch & Learn" "Team rotation" "Implemented"
                   (Some "proj-1-a")])
    [sampleProjectRow "proj-1-a" "Friday Lunch & Learn" (Some "idea-2")].

Definition sampleEnv : Env.t :=
  {| Env.dateNow := "1704240000000"; Env.randomId := "k3j9x2m1q";
     Env.isoNow := "2024-01-03T00:00:00.000Z";
     Env.bcryptHash := fun password => ("$2b$10$" ++ password)%string |}.

Definition userStore : DB.t :=
  DB.set_users emptyStore
    [ {| UserRow.id := "user-1"; UserRow.email := "newrishav@gmail.com";
         UserRow.passwordHash := "$2b$10$abcdef"; UserRow.name := "Rishav";
         UserRow.createdAt := "2024-01-01T00:00:00.000Z" |} ].

(** The store of [seedDatabase], owned by [user-1]. *)
Definition projectStore : DB.t :=
  DB.set_research_notes
    (DB.set_project_tasks
       (DB.set_projects emptyStore
          [sampleProjectRow "p-1" "Certification: AWS SA" None;
           sampleProjectRow "p-2" "Internal Dev Tools" None])
       [ProjectTaskRow.mk "pt-1" (Some "p-1") "Complete Section 1-4" (Some 1%Z);
        ProjectTaskRow.mk "pt-2" (Some "p-1") "Take practice exam 1" (Some 0%Z);
        ProjectTaskRow.mk "pt-4" (Some "p-2") "Survey team" (Some 0%Z)])
    [ResearchNoteRow.mk "rn-1" (Some "p-1") "S3 consistency model changed"
                        "2024-01-01" "2024-01-01T00:00:00.000Z"].

Definition sampleSubtasks : list Subtask.t :=
  [Subtask.mk "st-1" "Check variance" false;
   Subtask.mk "st-2" "Format slides" true].

Definition taskWithSubtasks : Task.t :=
  {| Task.id := "task-1"; Task.content := "Review Q3 financial reports";
     Task.isCompleted := false; Task.type := "daily";
     Task.date := "2024-01-01"; Task.createdAt := "2024-01-01T00:00:00.000Z";
     Task.isPriority := Some true; Task.subtasks := Some sampleSubtasks;
     Task.engagementId := None; Task.engagementName := None;
     Task.projectId := None; Task.projectName := None |}.

Definition legacyShapedIdea : Idea.t :=
  {| Idea.id := "idea-1"; Idea.title := "Automated Status Tool";
     Idea.description := Some "Script for Jira"; Idea.entries := Some [];
     Idea.category := "Process"; Idea.priority := "High"; Idea.status := "New";
     Idea.createdAt := "2024-01-01T00:00:00.000Z"; Idea.updatedAt := None;
     Idea.aiSummary := None; Idea.lastSummaryDate := None;
     Idea.engagementId := None; Idea.engagementName := None;
     Idea.convertedToProjectId := None |}.

(** A store written before multi-tenancy: the legacy user has registered,
    and one task has no owner yet. *)
Definition orphanTask : TaskRow.t :=
  {| TaskRow.id := "task-1"; TaskRow.userId := None;
     TaskRow.content := "Review Q3 financial reports";
     TaskRow.isCompleted := Some 0%Z; TaskRow.type := "daily";
     TaskRow.date := "2024-01-01";
     TaskRow.createdAt := "2024-01-01T00:00:00.000Z";
     TaskRow.isPriority := Some 1%Z; TaskRow.engagementId := None;
     TaskRow.projectId := None; TaskRow.subtasks := Some "[]" |}.

Definition legacyStore : DB.t := DB.set_tasks userStore [orphanTask].

Definition sampleEngagement (id name : string) : Engagement.t :=
  {| Engagement.id := id; Engagement.engagementNumber := "ENG-001";
     Engagement.orgId := "ORG-1"; Engagement.accountName := "Acme";
     Engagement.name := name; Engagement.status := "Active";
     Engagement.timeline := Some []; Engagement.files := Some [];
     Engagement.aiSummary := None; Engagement.lastSummaryDate := None |}.

(** The detail of engagement [e-1] is open and the deletion of [e-1] and
    [e-3] awaits confirmation. *)
Definition sampleShell : App.Shell :=
  {| App.engagements :=
       [sampleEngagement "e-1" "Cloud migration";
        sampleEngagement "e-2" "Data platform";
        sampleEngagement "e-3" "Security review"];
     App.viewState :=
       {| ViewStateData.tab := "engagements"; ViewStateData.view := "detail";
          ViewStateData.targetId := Some "e-1" |};
     App.isAddModalOpen := false;
     App.editingEngagement := None;
     App.itemsToDelete := Some ["e-1"; "e-3"] |}.

Definition tenantTask (id userId content : string) : TaskRow.t :=
  {| TaskRow.id := id; TaskRow.userId := Some userId;
     TaskRow.content := content;
     TaskRow.isCompleted := Some 0%Z; TaskRow.type := "daily";
     TaskRow.date := "2024-01-01";
     TaskRow.createdAt := "2024-01-01T00:00:00.000Z";
     TaskRow.isPriority := Some 0%Z; TaskRow.engagementId := None;
     TaskRow.projectId := None; TaskRow.subtasks := Some "[]" |}.

(** Two users with one task each. *)
Definition tenantStore : DB.t :=
  DB.set_tasks userStore
    [tenantTask "task-1" "user-1" "Review Q3 financial reports";
     tenantTask "task-2" "user-2" "Book the venue"].

(** A stand-in for [bcrypt] and [jsonwebtoken] that agrees with
    [sampleEnv]: the hash is the password after the salt prefix, the token
    is the user id after a fixed header. *)
Definition sampleCrypto : Crypto.t :=
  {| Crypto.compare :=
       fun password hash => (hash =? "$2b$10$" ++ password)%string;
     Crypto.sign := fun userId => ("eyJhbGciOiJIUzI1NiJ9." ++ userId)%string;
     Crypto.verify :=
       fun token =>
         if String.prefix "eyJhbGciOiJIUzI1NiJ9." token
         then Some (substring 21 (String.length token - 21) token)
         else None |}.

Definition sampleRegistration : RegisterBody.t :=
  {| RegisterBody.email := Some "Ada@Example.org";
     RegisterBody.password := Some "s3cret-pw";
     RegisterBody.name := Some "Ada" |}.

(** * Properties *)

(** ** The client handlers *)


Lemma with_tasks_tasks (p : InternalProject.t) (ts : list ProjectTask.t) :
  InternalProject.tasks (InternalProject.with_tasks p ts) = ts.
Proof. reflexivity. Qed.


Section MapCapturing.

Variable pid : string.
Variable f : InternalProject.t -> InternalProject.t.

Let rewriteOne (p : InternalProject.t) : InternalProject.t :=
  if (InternalProject.id p =? pid)%string then f p else p.

Lemma mapCapturing_list (prev : list InternalProject.t) :
  forall captured,
    fst (Client.mapCapturing pid f prev captured) = map rewriteOne prev.
Proof.
  induction prev as [|p rest IH]; intro captured; simpl.
  - reflexivity.
  - unfold rewriteOne at 1.
    destruct (InternalProject.id p =? pid)%string.
    + specialize (IH (Some (f p))).
      destruct (Client.mapCapturing pid f rest (Some (f p))); simpl in *.
      now rewrite IH.
    + specialize (IH captured).
      destruct (Client.mapCapturing pid f rest captured); simpl in *.
      now rewrite IH.
Qed.

Lemma mapCapturing_no_match (prev : list InternalProject.t) :
  (forall q, In q prev -> InternalProject.id q <> pid) ->
  forall captured,
    Client.mapCapturing pid f prev captured = (prev, captured).
Proof.
  induction prev as [|p rest IH]; intros Hne captured; simpl.
  - reflexivity.
  - assert (Hp : (InternalProject.id p =? pid)%string = false)
      by (apply String.eqb_neq, Hne; now left).
    rewrite Hp, IH by (intros q Hq; apply Hne; now right).
    reflexivity.
Qed.



End MapCapturing.

Lemma truthy_Some (s : string) :
  s <> EmptyString -> JS.truthy (Some s) = true /\ JS.or_else (Some s) EmptyString = s.
Proof.
  intro H. apply String.eqb_neq in H. unfold JS.truthy, JS.or_else.
  now rewrite H.
Qed.


Example handleUpdateTask_sample :
  Client.handleUpdateTask
    (sampleTask "pt-2" "Take practice exam 2" true (Some "p-1")) sampleState
  = ({| Client.tasks := Client.tasks sampleState;
        Client.projects :=
          [sampleProject "p-1" "Certification"
             [ProjectTask.mk "pt-1" "Complete Section 1-4" true;
              ProjectTask.mk "pt-2" "Take practice exam 2" true];
           sampleProject "p-2" "Internal Dev Tools"
             [ProjectTask.mk "pt-4" "Survey team" false]] |},
     []).
Proof. reflexivity. Qed.


Lemma find_first {A : Type} (test : A -> bool) (pre post : list A) (x : A) :
  (forall q, In q pre -> test q = false) ->
  test x = true ->
  find test (pre ++ x :: post) = Some x.
Proof.
  intros Hpre Hx. induction pre as [|q pre IH]; simpl.
  - now rewrite Hx.
  - rewrite (Hpre q) by now left.
    apply IH. intros q' Hq'. apply Hpre. now right.
Qed.

Lemma find_all_false {A : Type} (test : A -> bool) (l : list A) :
  (forall q, In q l -> test q = false) -> find test l = None.
Proof.
  intro H. induction l as [|q l IH]; simpl; [reflexivity|].
  rewrite (H q) by now left.
  apply IH. intros q' Hq'. apply H. now right.
Qed.

Lemma filter_without_task (taskId : string) (q : InternalProject.t) :
  Client.hasTask taskId q = false ->
  filter (fun pt => negb (ProjectTask.id pt =? taskId)%string)
         (InternalProject.tasks q)
  = InternalProject.tasks q.
Proof.
  unfold Client.hasTask. intro H.
  induction (InternalProject.tasks q) as [|pt ts IH]; simpl in *; [reflexivity|].
  apply orb_false_iff in H. destruct H as [Hpt Hts].
  rewrite Hpt; simpl. now rewrite IH.
Qed.



(** ** Idea to project conversion *)

Section Conversion.

Variable env : Env.t.
Variables userId ideaId : string.

Let newId : string :=
  ("proj-" ++ Env.dateNow env ++ "-" ++ Env.randomId env)%string.

Lemma ownsIdea_true (i : IdeaRow.t) :
  Server.ownsIdea ideaId userId i = true
  <-> IdeaRow.id i = ideaId /\ IdeaRow.userId i = Some userId.
Proof.
  unfold Server.ownsIdea, DB.col_eq. rewrite andb_true_iff, String.eqb_eq.
  destruct (IdeaRow.userId i) as [u|].
  - rewrite String.eqb_eq. split; intros [H1 H2]; split; congruence.
  - split; intros [H1 H2]; discriminate.
Qed.

Lemma find_owned_idea (ideas : list IdeaRow.t) (X : IdeaRow.t) :
  In X ideas ->
  IdeaRow.id X = ideaId ->
  IdeaRow.userId X = Some userId ->
  (forall i, In i ideas -> IdeaRow.id i = ideaId -> i = X) ->
  find (Server.ownsIdea ideaId userId) ideas = Some X.
Proof.
  intros HIn Hid Huser Hkey.
  induction ideas as [|i ideas IH]; [contradiction|]. simpl.
  destruct (Server.ownsIdea ideaId userId i) eqn:E.
  - apply ownsIdea_true in E. f_equal. apply Hkey; [now left | tauto].
  - destruct HIn as [->|HIn].
    + assert (Server.ownsIdea ideaId userId X = true) by (apply ownsIdea_true; tauto).
      congruence.
    + apply IH; [assumption|]. intros i' Hi'. apply Hkey. now right.
Qed.

Lemma insert_fresh {Row : Type} (key : Row -> string) (r : Row) (tbl : list Row) :
  (forall x, In x tbl -> key x <> key r) ->
  DB.insert key r tbl = Some (tbl ++ [r]).
Proof.
  intro Hfresh. unfold DB.insert.
  replace (existsb (fun x => (key x =? key r)%string) tbl) with false; [reflexivity|].
  symmetry. induction tbl as [|x tbl IH]; simpl; [reflexivity|].
  rewrite IH by (intros y Hy; apply Hfresh; now right).
  rewrite orb_false_r. apply String.eqb_neq, Hfresh. now left.
Qed.

(** With an empty body, an owned idea and an unused identifier, the
    conversion runs to its last callback. *)
Lemma convert_runs (d : DB.t) (X : IdeaRow.t) :
  In X (DB.ideas d) ->
  IdeaRow.id X = ideaId ->
  IdeaRow.userId X = Some userId ->
  (forall i, In i (DB.ideas d) -> IdeaRow.id i = ideaId -> i = X) ->
  (forall p, In p (DB.projects d) -> ProjectRow.id p <> newId) ->
  Server.post_ideas_convert_to_project env userId ideaId ProjectData.empty d
  = (Ok {| CreatedProject.id := newId;
           CreatedProject.name := IdeaRow.title X;
           CreatedProject.description := IdeaRow.description X;
           CreatedProject.status := "Not Started";
           CreatedProject.startDate := JS.slice0 10 (Env.isoNow env);
           CreatedProject.dueDate := EmptyString;
           CreatedProject.createdAt := Env.isoNow env;
           CreatedProject.tasks := [];
           CreatedProject.researchNotes := [];
           CreatedProject.sourceIdeaId := IdeaRow.id X;
           CreatedProject.sourceIdeaTitle := IdeaRow.title X;
           CreatedProject.sourceEngagementId := JS.or_null (IdeaRow.engagementId X);
           CreatedProject.sourceEngagementName :=
             JS.or_null (IdeaRow.engagementName X) |},
     DB.set_ideas
       (DB.set_projects d
          (DB.projects d ++
           [ {| ProjectRow.id := newId;
                ProjectRow.userId := Some userId;
                ProjectRow.name := IdeaRow.title X;
                ProjectRow.description := IdeaRow.description X;
                ProjectRow.status := "Not Started";
                ProjectRow.startDate := JS.slice0 10 (Env.isoNow env);
                ProjectRow.dueDate := EmptyString;
                ProjectRow.createdAt := Env.isoNow env;
                ProjectRow.sourceIdeaId := Some (IdeaRow.id X);
                ProjectRow.sourceIdeaTitle := Some (IdeaRow.title X);
                ProjectRow.sourceEngagementId := JS.or_null (IdeaRow.engagementId X);
                ProjectRow.sourceEngagementName :=
                  JS.or_null (IdeaRow.engagementName X) |} ]))
       (map (fun i => if Server.ownsIdea ideaId userId i
                      then IdeaRow.mark_converted i newId else i)
            (DB.ideas d))).
Proof.
  intros HIn Hid Huser Hkey Hfresh.
  unfold Server.post_ideas_convert_to_project.
  rewrite (find_owned_idea _ HIn Hid Huser Hkey).
  cbn [ProjectData.empty ProjectData.name ProjectData.description
       ProjectData.status ProjectData.startDate ProjectData.dueDate
       JS.or_else JS.truthy].
  rewrite insert_fresh by exact Hfresh.
  reflexivity.
Qed.

Lemma converted_rows (ideas : list IdeaRow.t) (X : IdeaRow.t) :
  IdeaRow.id X = ideaId ->
  IdeaRow.userId X = Some userId ->
  (forall i, In i ideas -> IdeaRow.id i = ideaId -> i = X) ->
  forall i',
    In i' (map (fun i => if Server.ownsIdea ideaId userId i
                         then IdeaRow.mark_converted i newId else i) ideas) ->
    (IdeaRow.id i' = ideaId -> i' = IdeaRow.mark_converted X newId)
    /\ (IdeaRow.id i' <> ideaId -> In i' ideas).
Proof.
  intros Hid Huser Hkey i' Hi'.
  apply in_map_iff in Hi'. destruct Hi' as (i & <- & Hi).
  destruct (Server.ownsIdea ideaId userId i) eqn:E.
  - apply ownsIdea_true in E. destruct E as [E1 E2].
    rewrite (Hkey i Hi E1). split; [reflexivity|].
    intro Hne. exfalso. apply Hne. simpl. exact Hid.
  - split.
    + intro Hi'. exfalso.
      assert (i = X) by (apply Hkey; assumption). subst i.
      assert (Server.ownsIdea ideaId userId X = true) by (apply ownsIdea_true; tauto).
      congruence.
    + intros _. exact Hi.
Qed.

End Conversion.

(** C3. Converting an idea [X] of the requesting user with an empty body,
    when the generated identifier is not yet a project id: the response is
    a project with the new id, [sourceIdeaId = X.id], [name = X.title], the
    idea's [description] column as description (the column in which
    [POST /api/ideas] mirrors the content of the first entry), status
    "Not Started", the first ten characters of the current ISO time as
    [startDate], and no tasks or research notes; exactly one project row,
    carrying these values, is appended; and the idea row becomes [X] with
    [convertedToProjectId] the new id and status "Implemented", the other
    idea rows being left as they are. *)
Theorem convert_idea_creates_project :
  forall (env : Env.t) (userId : string) (d : DB.t) (X : IdeaRow.t),
    let newId := ("proj-" ++ Env.dateNow env ++ "-" ++ Env.randomId env)%string in
    In X (DB.ideas d) ->
    IdeaRow.userId X = Some userId ->
    (forall i, In i (DB.ideas d) -> IdeaRow.id i = IdeaRow.id X -> i = X) ->
    (forall p, In p (DB.projects d) -> ProjectRow.id p <> newId) ->
    exists project row d',
      Server.post_ideas_convert_to_project env userId (IdeaRow.id X)
                                           ProjectData.empty d
      = (Ok project, d')
      /\ CreatedProject.id project = newId
      /\ CreatedProject.sourceIdeaId project = IdeaRow.id X
      /\ CreatedProject.name project = IdeaRow.title X
      /\ CreatedProject.description project = IdeaRow.description X
      /\ (forall (J : JsonArray IdeaEntry.t) u i first rest,
             Idea.entries i = Some (first :: rest) ->
             IdeaRow.description (Server.ideaRow u i)
             = Some (IdeaEntry.content first))
      /\ CreatedProject.status project = "Not Started"
      /\ CreatedProject.startDate project = JS.slice0 10 (Env.isoNow env)
      /\ CreatedProject.tasks project = []
      /\ CreatedProject.researchNotes project = []
      /\ DB.projects d' = DB.projects d ++ [row]
      /\ ProjectRow.id row = newId
      /\ ProjectRow.userId row = Some userId
      /\ ProjectRow.sourceIdeaId row = Some (IdeaRow.id X)
      /\ ProjectRow.name row = IdeaRow.title X
      /\ ProjectRow.description row = IdeaRow.description X
      /\ ProjectRow.status row = "Not Started"
      /\ ProjectRow.startDate row = JS.slice0 10 (Env.isoNow env)
      /\ DB.project_tasks d' = DB.project_tasks d
      /\ DB.research_notes d' = DB.research_notes d
      /\ length (DB.ideas d') = length (DB.ideas d)
      /\ In (IdeaRow.mark_converted X newId) (DB.ideas d')
      /\ IdeaRow.convertedToProjectId (IdeaRow.mark_converted X newId) = Some newId
      /\ IdeaRow.status (IdeaRow.mark_converted X newId) = "Implemented"
      /\ (forall X', In X' (DB.ideas d') ->
             (IdeaRow.id X' = IdeaRow.id X -> X' = IdeaRow.mark_converted X newId)
             /\ (IdeaRow.id X' <> IdeaRow.id X -> In X' (DB.ideas d))).
Proof.
  intros env userId d X newId HIn Huser Hkey Hfresh.
  do 3 eexists.
  split; [apply (@convert_runs env userId (IdeaRow.id X) d X HIn eq_refl Huser Hkey Hfresh)|].
  repeat (split; [reflexivity|]).
  split; [intros J u i first rest Hentries; unfold Server.ideaRow; simpl;
          now rewrite Hentries|].
  repeat (split; [reflexivity|]).
  split; [apply length_map|].
  split.
  - simpl. apply in_map_iff. exists X. split; [|exact HIn].
    assert (E : Server.ownsIdea (IdeaRow.id X) userId X = true)
      by (apply ownsIdea_true; tauto).
    now rewrite E.
  - split; [reflexivity|]. split; [reflexivity|].
    intros X' HX'. simpl in HX'.
    exact (@converted_rows env userId (IdeaRow.id X) (DB.ideas d) X eq_refl Huser Hkey X' HX').
Qed.

Lemma convert_idea_creates_project_witness :
  exists project d',
    Server.post_ideas_convert_to_project sampleEnv "user-1" "idea-1"
                                         ProjectData.empty ideaStore
    = (Ok project, d')
    /\ CreatedProject.name project = "Automated Status Tool"
    /\ CreatedProject.status project = "Not Started"
    /\ CreatedProject.tasks project = [].
Proof.
  destruct (@convert_idea_creates_project sampleEnv "user-1" ideaStore
              (sampleIdea "idea-1" "Automated Status Tool" "Script for Jira"
                          "New" None))
    as (project & row & d' & Hrun & _ & _ & Hname & _ & _ & Hstatus & _ & Htasks & _).
  - simpl. now left.
  - reflexivity.
  - intros i [<-|[<-|[]]] Hid; [reflexivity | discriminate Hid].
  - intros p [<-|[]]; discriminate.
  - exists project, d'. repeat split; assumption.
Defined.

(** C5. When no idea row has the given id together with the requesting
    user's id, the conversion answers 404 "Idea not found" and the store is
    left as it was, whatever the body. *)
Theorem convert_unknown_idea_not_found :
  forall (env : Env.t) (userId ideaId : string) (projectData : ProjectData.t)
         (d : DB.t),
    (forall i, In i (DB.ideas d) ->
               ~ (IdeaRow.id i = ideaId /\ IdeaRow.userId i = Some userId)) ->
    Server.post_ideas_convert_to_project env userId ideaId projectData d
    = (Err 404 "Idea not found", d).
Proof.
  intros env userId ideaId projectData d Hnone.
  unfold Server.post_ideas_convert_to_project.
  rewrite find_all_false; [reflexivity|].
  intros i Hi.
  destruct (Server.ownsIdea ideaId userId i) eqn:E; [|reflexivity].
  apply ownsIdea_true in E. exfalso. exact (Hnone i Hi E).
Qed.

Lemma convert_unknown_idea_not_found_witness :
  Server.post_ideas_convert_to_project sampleEnv "user-2" "idea-1"
                                       ProjectData.empty ideaStore
  = (Err 404 "Idea not found", ideaStore).
Proof.
  apply convert_unknown_idea_not_found.
  intros i [<-|[<-|[]]] [_ Huser]; discriminate Huser.
Defined.

(** C6. No guard blocks a second conversion.  For an idea [X] of the
    requesting user that is already converted (status "Implemented",
    [convertedToProjectId] the id of a stored project [first]), converting
    again with an unused identifier succeeds: a second project row with
    the new id and [sourceIdeaId = X.id] is appended, the row [first] is
    still stored, and [X.convertedToProjectId] now holds the new id, which
    differs from the id of [first]. *)
Theorem convert_twice_creates_second_project :
  forall (env : Env.t) (userId : string) (d : DB.t) (X : IdeaRow.t)
         (first : ProjectRow.t),
    let newId := ("proj-" ++ Env.dateNow env ++ "-" ++ Env.randomId env)%string in
    In X (DB.ideas d) ->
    IdeaRow.userId X = Some userId ->
    (forall i, In i (DB.ideas d) -> IdeaRow.id i = IdeaRow.id X -> i = X) ->
    IdeaRow.status X = "Implemented" ->
    IdeaRow.convertedToProjectId X = Some (ProjectRow.id first) ->
    In first (DB.projects d) ->
    (forall p, In p (DB.projects d) -> ProjectRow.id p <> newId) ->
    exists project second d',
      Server.post_ideas_convert_to_project env userId (IdeaRow.id X)
                                           ProjectData.empty d
      = (Ok project, d')
      /\ CreatedProject.id project = newId
      /\ newId <> ProjectRow.id first
      /\ DB.projects d' = DB.projects d ++ [second]
      /\ ProjectRow.id second = newId
      /\ ProjectRow.sourceIdeaId second = Some (IdeaRow.id X)
      /\ In first (DB.projects d')
      /\ (forall X', In X' (DB.ideas d') -> IdeaRow.id X' = IdeaRow.id X ->
                     IdeaRow.convertedToProjectId X' = Some newId
                     /\ IdeaRow.convertedToProjectId X' <> Some (ProjectRow.id first)
                     /\ IdeaRow.status X' = "Implemented")
      /\ (exists X', In X' (DB.ideas d') /\ IdeaRow.id X' = IdeaRow.id X).
Proof.
  intros env userId d X first newId HIn Huser Hkey Hstatus Hconv Hfirst Hfresh.
  assert (Hne : newId <> ProjectRow.id first)
    by (intro E; exact (Hfresh first Hfirst (eq_sym E))).
  do 3 eexists.
  split; [apply (@convert_runs env userId (IdeaRow.id X) d X HIn eq_refl Huser Hkey Hfresh)|].
  split; [reflexivity|]. split; [exact Hne|].
  split; [reflexivity|]. split; [reflexivity|]. split; [reflexivity|].
  split; [simpl; apply in_or_app; now left|].
  split.
  - intros X' HX' Hid. simpl in HX'.
    destruct (@converted_rows env userId (IdeaRow.id X) (DB.ideas d) X
                eq_refl Huser Hkey X' HX') as [Hsame _].
    rewrite (Hsame Hid). simpl.
    split; [reflexivity|]. split; [|reflexivity].
    intro E. apply Hne. now injection E.
  - exists (IdeaRow.mark_converted X newId). split; [|reflexivity].
    simpl. apply in_map_iff. exists X. split; [|exact HIn].
    assert (E : Server.ownsIdea (IdeaRow.id X) userId X = true)
      by (apply ownsIdea_true; tauto).
    now rewrite E.
Qed.

Lemma convert_twice_creates_second_project_witness :
  exists project d',
    Server.post_ideas_convert_to_project sampleEnv "user-1" "idea-2"
                                         ProjectData.empty ideaStore
    = (Ok project, d')
    /\ map ProjectRow.id (DB.projects d') = ["proj-1-a"; CreatedProject.id project]
    /\ CreatedProject.id project <> "proj-1-a".
Proof.
  destruct (@convert_twice_creates_second_project sampleEnv "user-1" ideaStore
              (sampleIdea "idea-2" "Friday Lunch & Learn" "Team rotation"
                          "Implemented" (Some "proj-1-a"))
              (sampleProjectRow "proj-1-a" "Friday Lunch & Learn" (Some "idea-2")))
    as (project & second & d' & Hrun & Hid & Hne & Hprojects & Hsecond & _).
  - simpl. right. now left.
  - reflexivity.
  - intros i [<-|[<-|[]]] Hid; [discriminate Hid | reflexivity].
  - reflexivity.
  - reflexivity.
  - simpl. now left.
  - intros p [<-|[]]; discriminate.
  - exists project, d'. split; [exact Hrun|]. split.
    + rewrite Hprojects, map_app. simpl. now rewrite Hsecond, Hid.
    + rewrite Hid. exact Hne.
Defined.

(** ** Registration *)

Lemma lowerChar_idempotent (c : ascii) :
  JS.lowerChar (JS.lowerChar c) = JS.lowerChar c.
Proof. destruct c as [[] [] [] [] [] [] [] []]; reflexivity. Qed.

Lemma lowerAscii_idempotent (s : string) :
  JS.toLowerCase (JS.toLowerCase s) = JS.toLowerCase s.
Proof.
  induction s as [|c s IH]; simpl; [reflexivity|].
  now rewrite lowerChar_idempotent, IH.
Qed.

Lemma lowerAscii_empty (s : string) :
  JS.toLowerCase s = EmptyString <-> s = EmptyString.
Proof. destruct s; split; (reflexivity || discriminate). Qed.

(** The lower-casing of A to Z alone meets the interface; it is
    [toLowerCase()] on the ASCII addresses of the sample requests. *)
Definition asciiCaseMapping : CaseMapping :=
  {| toLowerCase := JS.toLowerCase;
     toLowerCase_idempotent := lowerAscii_idempotent;
     toLowerCase_empty := lowerAscii_empty |}.



Lemma register_keeps_emailsLowerCase {caseMapping : CaseMapping}
      (env : Env.t) (body : RegisterBody.t) (d : DB.t) :
  emailsLowerCase d ->
  emailsLowerCase (snd (Server.post_auth_register env body d)).
Proof.
  intro Hinv. unfold Server.post_auth_register.
  repeat match goal with
         | |- context [if ?b then _ else _] => destruct b
         | |- context [match ?o with Some _ => _ | None => _ end] => destruct o
         end; simpl; try exact Hinv.
  intros u Hu. simpl in Hu. apply in_app_or in Hu.
  destruct Hu as [Hu|[<-|[]]]; [now apply Hinv|].
  simpl. now rewrite toLowerCase_idempotent.
Qed.

Lemma find_some_exists {A : Type} (test : A -> bool) (l : list A) :
  (exists x, In x l /\ test x = true) -> exists y, find test l = Some y.
Proof.
  intros (x & Hx & Ht). induction l as [|a l IH]; [contradiction|]. simpl.
  destruct (test a) eqn:E; [now exists a|].
  destruct Hx as [->|Hx]; [congruence|]. now apply IH.
Qed.




(** The password check counts UTF-16 code units, not bytes: five letters
    of two bytes each are refused, three characters of four bytes each
    pass. *)
Example post_auth_register_counts_code_units :
  String.length "äöüäö" = 10
  /\ JS.length "äöüäö" = 5
  /\ Server.post_auth_register (caseMapping := asciiCaseMapping) sampleEnv
       {| RegisterBody.email := Some "newrishav@gmail.com";
          RegisterBody.password := Some "äöüäö";
          RegisterBody.name := Some "Rishav" |}
       userStore
     = (Err 400 "Password must be at least 6 characters", userStore)
  /\ JS.length "😀😀😀" = 6
  /\ Server.post_auth_register (caseMapping := asciiCaseMapping) sampleEnv
       {| RegisterBody.email := Some "newrishav@gmail.com";
          RegisterBody.password := Some "😀😀😀";
          RegisterBody.name := Some "Rishav" |}
       userStore
     = (Err 400 "Email already registered", userStore).
Proof. repeat split. Qed.

(** ** Saving a project aggregate and reading it back *)

Section ChildRows.

Variables (Row Child : Type).
Variable key : Row -> string.
Variable parent : Row -> option string.
Variable mk : Child -> Row.
Variable pid : string.

Hypothesis mk_parent : forall c, parent (mk c) = Some pid.

Lemma insertIgnoringError_fresh (tbl : list Row) (r : Row) :
  (forall x, In x tbl -> key x <> key r) ->
  DB.insertIgnoringError key tbl r = tbl ++ [r].
Proof.
  intro H. unfold DB.insertIgnoringError. now rewrite insert_fresh.
Qed.

Lemma fold_insert_fresh (cs : list Child) :
  forall tbl,
    NoDup (map (fun c => key (mk c)) cs) ->
    (forall c x, In c cs -> In x tbl -> key x <> key (mk c)) ->
    fold_left (fun tbl c => DB.insertIgnoringError key tbl (mk c)) cs tbl
    = tbl ++ map mk cs.
Proof.
  induction cs as [|c cs IH]; intros tbl Hnodup Hfresh; simpl.
  - now rewrite app_nil_r.
  - inversion Hnodup as [|? ? Hnotin Hnodup']; subst.
    rewrite insertIgnoringError_fresh
      by (intros x Hx; apply (Hfresh c x); [now left | exact Hx]).
    rewrite IH; [now rewrite <- app_assoc| exact Hnodup' |].
    intros c' x Hc' Hx. apply in_app_or in Hx. destruct Hx as [Hx|[<-|[]]].
    + apply (Hfresh c' x); [now right | exact Hx].
    + intro E. apply Hnotin. rewrite E.
      apply (in_map (fun c => key (mk c))). exact Hc'.
Qed.

Lemma filter_children_kept (cs : list Child) :
  filter (fun r => DB.col_eq (parent r) pid) (map mk cs) = map mk cs.
Proof.
  induction cs as [|c cs IH]; simpl; [reflexivity|].
  rewrite mk_parent. simpl. now rewrite String.eqb_refl, IH.
Qed.

Lemma filter_children_deleted (tbl : list Row) :
  filter (fun r => DB.col_eq (parent r) pid)
         (filter (fun r => negb (DB.col_eq (parent r) pid)) tbl) = [].
Proof.
  induction tbl as [|r tbl IH]; simpl; [reflexivity|].
  destruct (DB.col_eq (parent r) pid) eqn:E; simpl; [exact IH|].
  now rewrite E.
Qed.

(** Delete the children of [pid], insert the submitted ones: the children
    of [pid] are then the submitted ones, in order. *)
Lemma delete_then_insert (tbl : list Row) (cs : list Child) :
  NoDup (map (fun c => key (mk c)) cs) ->
  (forall r c, In r tbl -> In c cs -> key r = key (mk c) -> parent r = Some pid) ->
  let tbl' :=
    fold_left (fun tbl c => DB.insertIgnoringError key tbl (mk c)) cs
              (filter (fun r => negb (DB.col_eq (parent r) pid)) tbl) in
  tbl' = filter (fun r => negb (DB.col_eq (parent r) pid)) tbl ++ map mk cs
  /\ filter (fun r => DB.col_eq (parent r) pid) tbl' = map mk cs.
Proof.
  intros Hnodup Hown tbl'. unfold tbl'.
  rewrite fold_insert_fresh.
  - split; [reflexivity|].
    now rewrite filter_app, filter_children_deleted, filter_children_kept.
  - exact Hnodup.
  - intros c x Hc Hx E. apply filter_In in Hx. destruct Hx as [Hx Hkeep].
    rewrite (Hown x c Hx Hc E) in Hkeep. simpl in Hkeep.
    now rewrite String.eqb_refl in Hkeep.
Qed.

End ChildRows.

Lemma filter_insertOrReplace {Row : Type} (key : Row -> string)
      (keep : Row -> bool) (r : Row) (tbl : list Row) :
  keep r = true ->
  filter keep (DB.insertOrReplace key r tbl)
  = filter (fun x => negb (key x =? key r)%string) (filter keep tbl) ++ [r].
Proof.
  intro Hr. unfold DB.insertOrReplace.
  rewrite filter_app. simpl. rewrite Hr. f_equal.
  induction tbl as [|x tbl IH]; simpl; [reflexivity|].
  destruct (key x =? key r)%string eqn:E1, (keep x) eqn:E2; simpl;
    rewrite ?E1, ?E2; simpl; now rewrite ?IH.
Qed.

Lemma col_eq_refl (s : string) : DB.col_eq (Some s) s = true.
Proof. apply String.eqb_refl. Qed.

Lemma not_not_bit (b : bool) : JS.not_not (Some (JS.bit b)) = b.
Proof. now destruct b. Qed.

Lemma view_projectTaskRow (pid : string) (ts : list ProjectTask.t) :
  map ProjectTaskOut.view
      (map (fun t => {| ProjectTaskOut.row := t;
                        ProjectTaskOut.isCompleted :=
                          JS.not_not (ProjectTaskRow.isCompleted t) |})
           (map (Server.projectTaskRow pid) ts)) = ts.
Proof.
  induction ts as [|t ts IH]; simpl; [reflexivity|].
  rewrite IH. destruct t as [id content []]; reflexivity.
Qed.

Lemma noteView_researchNoteRow (pid : string) (ns : list ResearchNote.t) :
  map ProjectOut.noteView (map (Server.researchNoteRow pid) ns) = ns.
Proof.
  induction ns as [|n ns IH]; simpl; [reflexivity|].
  rewrite IH. now destruct n.
Qed.

(** C2, as the store has it.  When the submitted project tasks have
    pairwise distinct ids, none of which is the id of a stored task of
    another project, and likewise for the research notes, then after
    [POST /api/projects] the same user's [GET /api/projects] ends with the
    project [p.id] carrying exactly the submitted tasks and research notes,
    in order, and no other returned project has that id; every child row
    stored under [p.id] is one of the submitted ones. *)
Theorem post_projects_then_get_projects :
  forall (userId : string) (p : InternalProject.t) (d : DB.t),
    let pid := InternalProject.id p in
    let d' := snd (Server.post_projects userId p d) in
    NoDup (map ProjectTask.id (InternalProject.tasks p)) ->
    NoDup (map ResearchNote.id (InternalProject.researchNotes p)) ->
    (forall r t, In r (DB.project_tasks d) -> In t (InternalProject.tasks p) ->
                 ProjectTaskRow.id r = ProjectTask.id t ->
                 ProjectTaskRow.projectId r = Some pid) ->
    (forall r n, In r (DB.research_notes d) ->
                 In n (InternalProject.researchNotes p) ->
                 ResearchNoteRow.id r = ResearchNote.id n ->
                 ResearchNoteRow.projectId r = Some pid) ->
    exists others out,
      Server.get_projects userId d' = Ok (others ++ [out])
      /\ (forall o, In o others -> ProjectRow.id (ProjectOut.row o) <> pid)
      /\ ProjectRow.id (ProjectOut.row out) = pid
      /\ map ProjectTaskOut.view (ProjectOut.tasks out) = InternalProject.tasks p
      /\ map ProjectOut.noteView (ProjectOut.researchNotes out)
         = InternalProject.researchNotes p
      /\ filter (fun r => DB.col_eq (ProjectTaskRow.projectId r) pid)
                (DB.project_tasks d')
         = map (Server.projectTaskRow pid) (InternalProject.tasks p)
      /\ filter (fun r => DB.col_eq (ResearchNoteRow.projectId r) pid)
                (DB.research_notes d')
         = map (Server.researchNoteRow pid) (InternalProject.researchNotes p).
Proof.
  intros userId p d pid d' Htasks Hnotes Hown_tasks Hown_notes.
  destruct (@delete_then_insert ProjectTaskRow.t ProjectTask.t
              ProjectTaskRow.id ProjectTaskRow.projectId
              (Server.projectTaskRow pid) pid (fun _ => eq_refl)
              (DB.project_tasks d) (InternalProject.tasks p))
    as [_ Ht]; [exact Htasks | exact Hown_tasks |].
  destruct (@delete_then_insert ResearchNoteRow.t ResearchNote.t
              ResearchNoteRow.id ResearchNoteRow.projectId
              (Server.researchNoteRow pid) pid (fun _ => eq_refl)
              (DB.research_notes d) (InternalProject.researchNotes p))
    as [_ Hn]; [exact Hnotes | exact Hown_notes |].
  unfold Server.get_projects. subst d'. simpl.
  fold pid. rewrite Ht, Hn.
  rewrite filter_insertOrReplace by apply col_eq_refl.
  rewrite map_app. simpl.
  do 2 eexists. split; [reflexivity|].
  split.
  - intros o Ho. apply in_map_iff in Ho. destruct Ho as (r & <- & Hr).
    simpl. apply filter_In in Hr. destruct Hr as [_ Hr].
    apply negb_true_iff, String.eqb_neq in Hr. exact Hr.
  - split; [reflexivity|]. simpl. fold pid.
    rewrite ?Ht, ?Hn.
    split; [apply view_projectTaskRow|].
    split; [apply noteView_researchNoteRow|].
    split; reflexivity.
Qed.

Example post_projects_then_get_projects_sample :
  projectsRead
    (Server.get_projects "user-1"
       (snd (Server.post_projects "user-1"
               (sampleProject "p-1" "Certification: AWS SA"
                  [ProjectTask.mk "pt-2" "Take practice exam 1" true;
                   ProjectTask.mk "pt-3" "Book the exam" false])
               projectStore)))
  = [("p-2", [ProjectTask.mk "pt-4" "Survey team" false], []);
     ("p-1", [ProjectTask.mk "pt-2" "Take practice exam 1" true;
              ProjectTask.mk "pt-3" "Book the exam" false], [])].
Proof. reflexivity. Qed.

Lemma post_projects_then_get_projects_witness :
  exists others out,
    Server.get_projects "user-1"
      (snd (Server.post_projects "user-1"
              (sampleProject "p-1" "Certification: AWS SA"
                 [ProjectTask.mk "pt-2" "Take practice exam 1" true;
                  ProjectTask.mk "pt-3" "Book the exam" false])
              projectStore))
    = Ok (others ++ [out])
    /\ map ProjectTaskOut.view (ProjectOut.tasks out)
       = [ProjectTask.mk "pt-2" "Take practice exam 1" true;
          ProjectTask.mk "pt-3" "Book the exam" false]
    /\ map ProjectOut.noteView (ProjectOut.researchNotes out) = [].
Proof.
  destruct (@post_projects_then_get_projects "user-1"
              (sampleProject "p-1" "Certification: AWS SA"
                 [ProjectTask.mk "pt-2" "Take practice exam 1" true;
                  ProjectTask.mk "pt-3" "Book the exam" false])
              projectStore)
    as (others & out & Hget & _ & _ & Htasks & Hnotes & _).
  - repeat constructor; simpl; intuition discriminate.
  - constructor.
  - intros r t [<-|[<-|[<-|[]]]] [<-|[<-|[]]] E;
      solve [reflexivity | discriminate E].
  - intros r n _ [].
  - exists others, out. repeat split; assumption.
Defined.

(** C2 as the specification words it fails when a submitted task carries
    the id of a task stored under another project ([id] is the primary key
    of [project_tasks]): the insert is refused, and the project is read
    back without the task. *)
Lemma post_projects_then_get_projects_counterexample :
  projectsRead
    (Server.get_projects "user-1"
       (snd (Server.post_projects "user-1"
               (sampleProject "p-2" "Internal Dev Tools"
                  [ProjectTask.mk "pt-1" "Survey team" false])
               projectStore)))
  = [("p-1", [ProjectTask.mk "pt-1" "Complete Section 1-4" true;
              ProjectTask.mk "pt-2" "Take practice exam 1" false],
             [ResearchNote.mk "rn-1" "2024-01-01" "S3 consistency model changed"
                              "2024-01-01T00:00:00.000Z"]);
     ("p-2", [], [])].
Proof. reflexivity. Qed.

(** ** The JSON text codec reads back what it prints *)

Section JsonRoundTrip.

Import Json.

Lemma readString_escapeChar (c : ascii) (tail : list ascii) :
  readString (escapeChar c ++ tail)
  = match readString tail with
    | Some (str, out) => Some (String c str, out)
    | None => None
    end.
Proof. destruct c as [[] [] [] [] [] [] [] []]; reflexivity. Qed.

Lemma readString_escape (s : string) (rest : list ascii) :
  readString (escape s ++ dquote :: rest) = Some (s, rest).
Proof.
  induction s as [|c s IH]; [reflexivity|].
  simpl escape. rewrite <- app_assoc, readString_escapeChar, IH. reflexivity.
Qed.

Lemma readString_quote (s : string) (rest : list ascii) :
  readString (escape s ++ [dquote] ++ rest) = Some (s, rest).
Proof. apply readString_escape. Qed.

Lemma readDigits_uintChars (d : Decimal.uint) (rest : list ascii) :
  noDigitHead rest -> readDigits (uintChars d ++ rest) = (d, rest).
Proof.
  intro Hrest.
  induction d; simpl; rewrite ?IHd; try reflexivity.
  destruct rest as [|c rest]; [reflexivity|].
  simpl in *. now rewrite Hrest.
Qed.

Lemma print_Arr (l : list value) : print (Arr l) = "["%char :: printItems l.
Proof. reflexivity. Qed.

Lemma print_Obj (m : list (string * value)) :
  print (Obj m) = "{"%char :: printMembers m.
Proof. reflexivity. Qed.

Lemma value_nested_ind (P : value -> Prop) :
  P Null ->
  (forall b, P (Bool b)) ->
  (forall n, P (Num n)) ->
  (forall s, P (Str s)) ->
  (forall l, Forall P l -> P (Arr l)) ->
  (forall m, Forall (fun kv => P (snd kv)) m -> P (Obj m)) ->
  forall v, P v.
Proof.
  intros HNull HBool HNum HStr HArr HObj.
  fix IH 1. intros [ | b | n | s | l | m].
  - exact HNull.
  - apply HBool.
  - apply HNum.
  - apply HStr.
  - apply HArr. revert l. fix IHl 1. intros [|x l].
    + constructor.
    + constructor; [apply IH | apply IHl].
  - apply HObj. revert m. fix IHm 1. intros [|[k x] m].
    + constructor.
    + constructor; [apply IH | apply IHm].
Qed.


Lemma uintChars_head (d : Decimal.uint) :
  d <> Decimal.Nil ->
  exists c r,
    uintChars d = c :: r
    /\ digit c <> None
    /\ (c =? dquote)%char = false
    /\ (c =? "[")%char = false
    /\ (c =? "{")%char = false
    /\ (c =? "]")%char = false.
Proof.
  intro Hd. destruct d; [contradiction| ..]; simpl;
    do 2 eexists; (split; [reflexivity|]); repeat split; discriminate.
Qed.

Lemma to_uint_nonnil (n : N) : N.to_uint n <> Decimal.Nil.
Proof.
  destruct n; [discriminate|]. apply DecimalPos.Unsigned.to_uint_nonnil.
Qed.

Lemma print_head (v : value) :
  exists c r, print v = c :: r /\ (c =? "]")%char = false.
Proof.
  destruct v as [ | [] | n | s | l | m]; try (do 2 eexists; split; reflexivity).
  destruct (uintChars_head (to_uint_nonnil n)) as (c & r & E & _ & _ & _ & _ & H).
  exists c, r. split; assumption.
Qed.

Lemma readsBack_items (l : list value) :
  Forall readsBack l ->
  l <> [] ->
  forall fuel rest,
    List.length (printItems l) <= fuel ->
    parseElements fuel (printItems l ++ rest) = Some (l, rest).
Proof.
  induction 1 as [|x l Hx Hl IH]; intros Hne fuel rest Hfuel; [contradiction|].
  destruct l as [|y l].
  - clear IH. simpl printItems in *. rewrite length_app in Hfuel. simpl in Hfuel.
    destruct fuel as [|fuel]; [lia|].
    rewrite <- app_assoc. simpl parseElements.
    rewrite Hx; [reflexivity | lia | exact eq_refl].
  - change (printItems (x :: y :: l))
      with (print x ++ ","%char :: printItems (y :: l)) in *.
    rewrite length_app in Hfuel. cbn [List.length] in Hfuel.
    destruct fuel as [|fuel]; [clear - Hfuel; lia|].
    assert (H1 : List.length (print x) <= fuel) by (clear - Hfuel; lia).
    assert (H2 : List.length (printItems (y :: l)) <= fuel) by (clear - Hfuel; lia).
    rewrite <- app_assoc. simpl parseElements.
    rewrite Hx; [| exact H1 | exact eq_refl].
    simpl. rewrite IH; [reflexivity | discriminate | exact H2].
Qed.

Lemma readsBack_members (m : list (string * value)) :
  Forall (fun kv => readsBack (snd kv)) m ->
  m <> [] ->
  forall fuel rest,
    List.length (printMembers m) <= fuel ->
    parseMembers fuel (printMembers m ++ rest) = Some (m, rest).
Proof.
  induction 1 as [|[k x] m Hx Hm IH]; intros Hne fuel rest Hfuel; [contradiction|].
  simpl in Hx.
  destruct m as [|kv m].
  - clear IH.
    change (printMembers [(k, x)])
      with (dquote :: (escape k ++ [dquote]) ++ ":"%char :: print x ++ ["}"%char]) in *.
    cbn [List.length] in Hfuel. rewrite !length_app in Hfuel.
    cbn [List.length] in Hfuel. rewrite !length_app in Hfuel.
    cbn [List.length] in Hfuel.
    destruct fuel as [|fuel]; [clear - Hfuel; lia|].
    assert (H1 : List.length (print x) <= fuel) by (clear - Hfuel; lia).
    cbn [app]. rewrite <- !app_assoc. cbn [app].
    cbn [parseMembers]. rewrite Ascii.eqb_refl, readString_escape.
    change (":" =? ":")%char with true. cbv iota.
    rewrite <- app_assoc. cbn [app].
    rewrite Hx; [reflexivity | exact H1 | exact eq_refl].
  - change (printMembers ((k, x) :: kv :: m))
      with (dquote :: (escape k ++ [dquote]) ++ ":"%char :: print x
                   ++ ","%char :: printMembers (kv :: m)) in *.
    cbn [List.length] in Hfuel. rewrite !length_app in Hfuel.
    cbn [List.length] in Hfuel. rewrite !length_app in Hfuel.
    cbn [List.length] in Hfuel.
    destruct fuel as [|fuel]; [clear - Hfuel; lia|].
    assert (H1 : List.length (print x) <= fuel) by (clear - Hfuel; lia).
    assert (H2 : List.length (printMembers (kv :: m)) <= fuel)
      by (clear - Hfuel; lia).
    cbn [app]. rewrite <- !app_assoc. cbn [app].
    cbn [parseMembers]. rewrite Ascii.eqb_refl, readString_escape.
    change (":" =? ":")%char with true. cbv iota.
    rewrite <- app_assoc. cbn [app].
    rewrite Hx; [| exact H1 | exact eq_refl].
    change ("," =? ",")%char with true. cbv iota.
    rewrite IH; [reflexivity | discriminate | exact H2].
Qed.

Theorem print_readsBack (v : value) : readsBack v.
Proof.
  induction v using value_nested_ind; intros fuel rest Hfuel Hrest.
  - destruct fuel; [simpl in Hfuel; lia | reflexivity].
  - destruct fuel; [destruct b; simpl in Hfuel; lia | destruct b; reflexivity].
  - destruct (uintChars_head (to_uint_nonnil n))
      as (c & r & E & Hdigit & Hq & Hb & Hc & _).
    cbn [print] in *.
    destruct fuel; [rewrite E in Hfuel; simpl in Hfuel; lia|].
    pose proof (readDigits_uintChars (N.to_uint n) rest Hrest) as Hread.
    rewrite E in *. cbn [app] in *. cbn [parseValue].
    rewrite Hq, Hb, Hc.
    destruct (digit c); [|contradiction].
    rewrite Hread, DecimalN.Unsigned.of_to. reflexivity.
  - destruct fuel; [simpl in Hfuel; lia|].
    cbn [print]. unfold quote. cbn [app parseValue].
    rewrite Ascii.eqb_refl, <- app_assoc. cbn [app].
    now rewrite readString_escape.
  - rewrite print_Arr in *. cbn [List.length] in Hfuel.
    destruct fuel; [lia|]. cbn [app parseValue].
    change ("[" =? dquote)%char with false.
    change ("[" =? "[")%char with true. cbv iota.
    destruct l as [|x l]; [reflexivity|].
    destruct (print_head x) as (c & r & E & Hc).
    assert (Hitems : exists r', printItems (x :: l) ++ rest = c :: r').
    { destruct l; simpl; rewrite E; eexists; reflexivity. }
    destruct Hitems as (r' & Hitems).
    rewrite Hitems, Hc, <- Hitems.
    rewrite readsBack_items; [reflexivity | assumption | discriminate | lia].
  - rewrite print_Obj in *. cbn [List.length] in Hfuel.
    destruct fuel; [lia|]. cbn [app parseValue].
    change ("{" =? dquote)%char with false.
    change ("{" =? "[")%char with false.
    change ("{" =? "{")%char with true. cbv iota.
    destruct m as [|[k x] m]; [reflexivity|].
    assert (Hmembers : exists r', printMembers ((k, x) :: m) ++ rest = dquote :: r').
    { destruct m; simpl; eexists; reflexivity. }
    destruct Hmembers as (r' & Hmembers).
    rewrite Hmembers. change (dquote =? "}")%char with false. cbv iota.
    rewrite <- Hmembers.
    rewrite readsBack_members; [reflexivity | assumption | discriminate | lia].
Qed.

Theorem parse_stringify (v : value) : parse (stringify v) = Some v.
Proof.
  unfold parse, stringify, chars.
  rewrite list_ascii_of_string_of_list_ascii.
  rewrite <- (app_nil_r (print v)) at 2.
  rewrite print_readsBack; [reflexivity | lia | exact I].
Qed.

Lemma stringify_not_empty (v : value) : stringify v <> EmptyString.
Proof.
  unfold stringify. destruct (print_head v) as (c & r & E & _).
  rewrite E. discriminate.
Qed.

Lemma mapThrowing_map {A B : Type} (enc : A -> B) (dec : B -> option A)
      (l : list A) :
  (forall a, dec (enc a) = Some a) ->
  mapThrowing dec (map enc l) = Some l.
Proof.
  intro H. induction l as [|a l IH]; simpl; [reflexivity|].
  now rewrite H, IH.
Qed.

Lemma parseArray_stringifyArray {A : Type} (enc : A -> value)
      (dec : value -> option A) :
  (forall a, dec (enc a) = Some a) ->
  forall l, parseArray dec (stringifyArray enc l) = Some l.
Proof.
  intros H l. unfold parseArray, stringifyArray.
  rewrite parse_stringify. now apply mapThrowing_map.
Qed.

Lemma stringifyArray_truthy {A : Type} (enc : A -> value) (l : list A) :
  stringifyArray enc l <> EmptyString.
Proof. apply stringify_not_empty. Qed.

Lemma decode_encode_Subtask (x : Subtask.t) :
  decodeSubtask (encodeSubtask x) = Some x.
Proof. now destruct x. Qed.

Lemma decode_encode_TimelineEntry (x : TimelineEntry.t) :
  decodeTimelineEntry (encodeTimelineEntry x) = Some x.
Proof. now destruct x. Qed.

Lemma decode_encode_EngagementFile (x : EngagementFile.t) :
  decodeEngagementFile (encodeEngagementFile x) = Some x.
Proof. now destruct x. Qed.

Lemma decode_encode_IdeaEntry (x : IdeaEntry.t) :
  decodeIdeaEntry (encodeIdeaEntry x) = Some x.
Proof. now destruct x. Qed.

Lemma decode_encode_Tag (x : string) : decodeTag (encodeTag x) = Some x.
Proof. reflexivity. Qed.

End JsonRoundTrip.

#[export] Instance jsonSubtasks : JsonArray Subtask.t :=
  {| JSON_stringify := Json.stringifyArray Json.encodeSubtask;
     JSON_parse := Json.parseArray Json.decodeSubtask;
     JSON_parse_stringify := @parseArray_stringifyArray _ _ _ decode_encode_Subtask;
     JSON_stringify_truthy := @stringifyArray_truthy _ _ |}.

#[export] Instance jsonTimeline : JsonArray TimelineEntry.t :=
  {| JSON_stringify := Json.stringifyArray Json.encodeTimelineEntry;
     JSON_parse := Json.parseArray Json.decodeTimelineEntry;
     JSON_parse_stringify :=
       @parseArray_stringifyArray _ _ _ decode_encode_TimelineEntry;
     JSON_stringify_truthy := @stringifyArray_truthy _ _ |}.

#[export] Instance jsonFiles : JsonArray EngagementFile.t :=
  {| JSON_stringify := Json.stringifyArray Json.encodeEngagementFile;
     JSON_parse := Json.parseArray Json.decodeEngagementFile;
     JSON_parse_stringify :=
       @parseArray_stringifyArray _ _ _ decode_encode_EngagementFile;
     JSON_stringify_truthy := @stringifyArray_truthy _ _ |}.

#[export] Instance jsonTags : JsonArray string :=
  {| JSON_stringify := Json.stringifyArray Json.encodeTag;
     JSON_parse := Json.parseArray Json.decodeTag;
     JSON_parse_stringify := @parseArray_stringifyArray _ _ _ decode_encode_Tag;
     JSON_stringify_truthy := @stringifyArray_truthy _ _ |}.

#[export] Instance jsonEntries : JsonArray IdeaEntry.t :=
  {| JSON_stringify := Json.stringifyArray Json.encodeIdeaEntry;
     JSON_parse := Json.parseArray Json.decodeIdeaEntry;
     JSON_parse_stringify := @parseArray_stringifyArray _ _ _ decode_encode_IdeaEntry;
     JSON_stringify_truthy := @stringifyArray_truthy _ _ |}.

(** ** Saving one object and listing the collection *)

Lemma mapThrowing_app {A B : Type} (f : A -> option B) (l1 l2 : list A)
      (o1 o2 : list B) :
  mapThrowing f l1 = Some o1 ->
  mapThrowing f l2 = Some o2 ->
  mapThrowing f (l1 ++ l2) = Some (o1 ++ o2).
Proof.
  revert o1. induction l1 as [|a l1 IH]; intros o1 H1 H2; simpl in *.
  - injection H1 as <-. exact H2.
  - destruct (f a) as [b|]; [|discriminate].
    destruct (mapThrowing f l1) as [bs|]; [|discriminate].
    injection H1 as <-. now rewrite (IH bs eq_refl H2).
Qed.

Lemma mapThrowing_total {A B : Type} (f : A -> B) (l : list A) :
  mapThrowing (fun a => Some (f a)) l = Some (map f l).
Proof.
  induction l as [|a l IH]; simpl; [reflexivity|]. now rewrite IH.
Qed.

Section SaveThenList.

Variables (Row Out : Type).
Variable key : Row -> string.
Variable owner : Row -> option string.
Variable format : Row -> option Out.
Variable rowOf : Out -> Row.

Hypothesis format_row : forall r o, format r = Some o -> rowOf o = r.

Lemma mapThrowing_filter (keep : Row -> bool) (l : list Row) :
  forall outs,
    mapThrowing format l = Some outs ->
    mapThrowing format (filter keep l)
    = Some (filter (fun o => keep (rowOf o)) outs).
Proof.
  induction l as [|r l IH]; intros outs H; simpl in *.
  - injection H as <-. reflexivity.
  - destruct (format r) as [o|] eqn:E; [|discriminate].
    destruct (mapThrowing format l) as [os|]; [|discriminate].
    injection H as <-. simpl.
    rewrite (format_row E).
    destruct (keep r); simpl; rewrite ?E, (IH os eq_refl); reflexivity.
Qed.

(** After [INSERT OR REPLACE] of a row of [userId], the user's list is the
    former list without the replaced entry, followed by the new entry. *)
Lemma list_after_save (userId : string) (r : Row) (o : Out)
      (tbl : list Row) (olds : list Out) :
  owner r = Some userId ->
  format r = Some o ->
  mapThrowing format (filter (fun x => DB.col_eq (owner x) userId) tbl)
  = Some olds ->
  mapThrowing format
    (filter (fun x => DB.col_eq (owner x) userId) (DB.insertOrReplace key r tbl))
  = Some (filter (fun o' => negb (key (rowOf o') =? key r)%string) olds ++ [o]).
Proof.
  intros Howner Hformat Holds.
  rewrite filter_insertOrReplace by (rewrite Howner; apply col_eq_refl).
  apply mapThrowing_app.
  - now apply mapThrowing_filter.
  - simpl. now rewrite Hformat.
Qed.

End SaveThenList.

Section EntityRoundTrips.

Context {jsonSubtasks : JsonArray Subtask.t}.
Context {jsonTimeline : JsonArray TimelineEntry.t}.
Context {jsonFiles : JsonArray EngagementFile.t}.
Context {jsonTags : JsonArray string}.
Context {jsonEntries : JsonArray IdeaEntry.t}.

Lemma parse_stored {A : Type} {J : JsonArray A} (l : list A) :
  JSON_parse (JS.or_else (Some (JSON_stringify l)) "[]") = Some l.
Proof.
  unfold JS.or_else.
  destruct (JSON_stringify l =? EmptyString)%string eqn:E.
  - apply String.eqb_eq in E. now apply JSON_stringify_truthy in E.
  - apply JSON_parse_stringify.
Qed.

Lemma not_not_flag (b : option bool) : JS.not_not (Some (JS.flag b)) = flagValue b.
Proof. now destruct b as [[]|]. Qed.

Lemma formatTask_taskRow (userId : string) (t : Task.t) :
  Server.formatTask (Server.taskRow userId t)
  = Some {| TaskOut.row := Server.taskRow userId t;
            TaskOut.isCompleted := Task.isCompleted t;
            TaskOut.isPriority := flagValue (Task.isPriority t);
            TaskOut.subtasks := JS.or_nil (Task.subtasks t) |}.
Proof.
  unfold Server.formatTask, Server.taskRow.
  cbn [TaskRow.subtasks TaskRow.isCompleted TaskRow.isPriority].
  now rewrite parse_stored, not_not_bit, not_not_flag.
Qed.

Lemma formatTask_row (r : TaskRow.t) (o : TaskOut.t) :
  Server.formatTask r = Some o -> TaskOut.row o = r.
Proof.
  unfold Server.formatTask. destruct (JSON_parse _); [|discriminate].
  now intros [= <-].
Qed.

Lemma formatEngagement_engagementRow (userId : string) (e : Engagement.t) :
  Server.formatEngagement (Server.engagementRow userId e)
  = Some {| EngagementOut.row := Server.engagementRow userId e;
            EngagementOut.timeline := JS.or_nil (Engagement.timeline e);
            EngagementOut.files := JS.or_nil (Engagement.files e) |}.
Proof.
  unfold Server.formatEngagement, Server.engagementRow.
  cbn [EngagementRow.timeline EngagementRow.files].
  now rewrite !parse_stored.
Qed.

Lemma formatEngagement_row (r : EngagementRow.t) (o : EngagementOut.t) :
  Server.formatEngagement r = Some o -> EngagementOut.row o = r.
Proof.
  unfold Server.formatEngagement.
  destruct (JSON_parse _); [|discriminate].
  destruct (JSON_parse _); [|discriminate].
  now intros [= <-].
Qed.

Lemma formatNote_noteRow (userId : string) (n : Note.t) :
  Server.formatNote (Server.noteRow userId n)
  = Some {| NoteOut.row := Server.noteRow userId n;
            NoteOut.tags := JS.or_nil (Note.tags n) |}.
Proof.
  unfold Server.formatNote, Server.noteRow. cbn [NoteRow.tags].
  now rewrite parse_stored.
Qed.

Lemma formatNote_row (r : NoteRow.t) (o : NoteOut.t) :
  Server.formatNote r = Some o -> NoteOut.row o = r.
Proof.
  unfold Server.formatNote. destruct (JSON_parse _); [|discriminate].
  now intros [= <-].
Qed.

Lemma get_tasks_after_post (userId : string) (t : Task.t) (d : DB.t)
      (olds : list TaskOut.t) :
  Server.get_tasks userId d = Ok olds ->
  Server.get_tasks userId (snd (Server.post_tasks userId t d))
  = Ok (filter (fun o => negb (TaskRow.id (TaskOut.row o) =? Task.id t)%string) olds
        ++ [ {| TaskOut.row := Server.taskRow userId t;
                TaskOut.isCompleted := Task.isCompleted t;
                TaskOut.isPriority := flagValue (Task.isPriority t);
                TaskOut.subtasks := JS.or_nil (Task.subtasks t) |} ]).
Proof.
  unfold Server.get_tasks, Server.post_tasks. simpl snd. simpl DB.tasks.
  destruct (mapThrowing Server.formatTask _) as [outs|] eqn:E; [|discriminate].
  intros [= <-].
  now rewrite (@list_after_save _ _ TaskRow.id TaskRow.userId
                 Server.formatTask TaskOut.row formatTask_row userId
                 (Server.taskRow userId t) _ (DB.tasks d) outs
                 eq_refl (formatTask_taskRow userId t) E).
Qed.

Lemma get_engagements_after_post (userId : string) (e : Engagement.t)
      (d : DB.t) (olds : list EngagementOut.t) :
  Server.get_engagements userId d = Ok olds ->
  Server.get_engagements userId (snd (Server.post_engagements userId e d))
  = Ok (filter (fun o => negb (EngagementRow.id (EngagementOut.row o)
                               =? Engagement.id e)%string) olds
        ++ [ {| EngagementOut.row := Server.engagementRow userId e;
                EngagementOut.timeline := JS.or_nil (Engagement.timeline e);
                EngagementOut.files := JS.or_nil (Engagement.files e) |} ]).
Proof.
  unfold Server.get_engagements, Server.post_engagements.
  simpl snd. simpl DB.engagements.
  destruct (mapThrowing Server.formatEngagement _) as [outs|] eqn:E; [|discriminate].
  intros [= <-].
  now rewrite (@list_after_save _ _ EngagementRow.id EngagementRow.userId
                 Server.formatEngagement EngagementOut.row
                 formatEngagement_row userId
                 (Server.engagementRow userId e) _ (DB.engagements d) outs
                 eq_refl (formatEngagement_engagementRow userId e) E).
Qed.

Lemma get_notes_after_post (userId : string) (n : Note.t) (d : DB.t)
      (olds : list NoteOut.t) :
  Server.get_notes userId d = Ok olds ->
  Server.get_notes userId (snd (Server.post_notes userId n d))
  = Ok (filter (fun o => negb (NoteRow.id (NoteOut.row o) =? Note.id n)%string) olds
        ++ [ {| NoteOut.row := Server.noteRow userId n;
                NoteOut.tags := JS.or_nil (Note.tags n) |} ]).
Proof.
  unfold Server.get_notes, Server.post_notes. simpl snd. simpl DB.notes.
  destruct (mapThrowing Server.formatNote _) as [outs|] eqn:E; [|discriminate].
  intros [= <-].
  now rewrite (@list_after_save _ _ NoteRow.id NoteRow.userId
                 Server.formatNote NoteOut.row formatNote_row userId
                 (Server.noteRow userId n) _ (DB.notes d) outs
                 eq_refl (formatNote_noteRow userId n) E).
Qed.

Lemma map_filter_row {Row Out : Type} (shape : Row -> Out) (rowOf : Out -> Row)
      (keep : Row -> bool) (l : list Row) :
  (forall r, rowOf (shape r) = r) ->
  map shape (filter keep l) = filter (fun o => keep (rowOf o)) (map shape l).
Proof.
  intro H. induction l as [|r l IH]; simpl; [reflexivity|].
  rewrite H. destruct (keep r); simpl; now rewrite IH.
Qed.

Lemma get_highlights_after_post (userId : string) (h : Highlight.t) (d : DB.t) :
  exists olds,
    Server.get_highlights userId d = Ok olds
    /\ Server.get_highlights userId (snd (Server.post_highlights userId h d))
       = Ok (filter (fun o => negb (HighlightRow.id (HighlightOut.row o)
                                    =? Highlight.id h)%string) olds
             ++ [ {| HighlightOut.row := Server.highlightRow userId h;
                     HighlightOut.needsFollowUp := Highlight.needsFollowUp h |} ]).
Proof.
  eexists. split; [reflexivity|].
  unfold Server.get_highlights, Server.post_highlights.
  simpl snd. simpl DB.highlights.
  rewrite filter_insertOrReplace by apply col_eq_refl.
  rewrite map_app, (map_filter_row _ HighlightOut.row) by reflexivity.
  simpl. now destruct (Highlight.needsFollowUp h).
Qed.

Lemma get_calendar_after_post (userId : string) (e : CalendarEvent.t) (d : DB.t) :
  exists olds,
    Server.get_calendar userId d = Ok olds
    /\ Server.get_calendar userId (snd (Server.post_calendar userId e d))
       = Ok (filter (fun o => negb (CalendarEventRow.id (CalendarEventOut.row o)
                                    =? CalendarEvent.id e)%string) olds
             ++ [ {| CalendarEventOut.row := Server.calendarEventRow userId e;
                     CalendarEventOut.momSent :=
                       flagValue (CalendarEvent.momSent e) |} ]).
Proof.
  eexists. split; [reflexivity|].
  unfold Server.get_calendar, Server.post_calendar.
  simpl snd. simpl DB.calendar_events.
  rewrite filter_insertOrReplace by apply col_eq_refl.
  rewrite map_app, (map_filter_row _ CalendarEventOut.row) by reflexivity.
  simpl. now destruct (CalendarEvent.momSent e) as [[]|].
Qed.

(** The entries that [GET /api/ideas] returns for the row that
    [POST /api/ideas] stores. *)
Lemma formatIdea_ideaRow (env : Env.t) (userId : string) (i : Idea.t) :
  IdeaOut.entries (Server.formatIdea env (Server.ideaRow userId i))
  = match JS.or_nil (Idea.entries i) with
    | [] =>
        let description := JS.or_else (Idea.description i) EmptyString in
        if JS.blank description then []
        else [ {| IdeaEntry.id := ("legacy-" ++ Idea.id i)%string;
                  IdeaEntry.content := description;
                  IdeaEntry.timestamp :=
                    JS.or_else (Some (Idea.createdAt i)) (Env.isoNow env) |} ]
    | entries => entries
    end.
Proof.
  unfold Server.formatIdea, Server.ideaRow.
  cbn [IdeaRow.entries IdeaRow.description IdeaRow.id IdeaRow.createdAt
       IdeaOut.entries].
  rewrite parse_stored.
  destruct (Idea.entries i) as [[|first rest]|]; cbn [JS.or_nil]; try reflexivity.
  - destruct (JS.or_else (Idea.description i) EmptyString) as [|c s] eqn:E;
      [reflexivity|].
    cbn [String.eqb negb andb]. now destruct (JS.blank (String c s)).
  - destruct (JS.or_else (Idea.description i) EmptyString) as [|c s] eqn:E;
      [reflexivity|].
    cbn [String.eqb negb andb]. now destruct (JS.blank (String c s)).
Qed.

(** A description of no-break spaces (U+00A0) and a byte order mark
    (U+FEFF) is blank for [trim()]; a zero-width space (U+200B) is not. *)
Example blank_samples :
  JS.blank (String "194" (String "160" " ")) = true
  /\ JS.blank (String "239" (String "187" (String "191" EmptyString))) = true
  /\ JS.blank (String "226" (String "128" (String "139" EmptyString))) = false
  /\ JS.blank " x " = false.
Proof. repeat split. Qed.

Lemma get_ideas_after_post (env : Env.t) (userId : string) (i : Idea.t)
      (d : DB.t) :
  exists olds,
    Server.get_ideas env userId d = Ok olds
    /\ Server.get_ideas env userId (snd (Server.post_ideas userId i d))
       = Ok (filter (fun o => negb (IdeaRow.id (IdeaOut.row o) =? Idea.id i)%string)
                    olds
             ++ [Server.formatIdea env (Server.ideaRow userId i)]).
Proof.
  eexists. split; [reflexivity|].
  unfold Server.get_ideas, Server.post_ideas. simpl snd. simpl DB.ideas.
  rewrite filter_insertOrReplace by apply col_eq_refl.
  now rewrite map_app, (map_filter_row _ IdeaOut.row) by reflexivity.
Qed.

End EntityRoundTrips.

Lemma in_insertOrReplace {Row : Type} (key : Row -> string) (r x : Row)
      (tbl : list Row) :
  In x (DB.insertOrReplace key r tbl) -> key x = key r -> x = r.
Proof.
  unfold DB.insertOrReplace. intros HIn Hkey.
  apply in_app_or in HIn. destruct HIn as [HIn|[<-|[]]]; [|reflexivity].
  apply filter_In in HIn. destruct HIn as [_ Hne].
  apply negb_true_iff, String.eqb_neq in Hne. contradiction.
Qed.

(** C10. [POST /api/tasks] writes the ten columns that its statement names
    and nothing else of the body: two bodies that agree on [id], [content],
    [isCompleted], [type], [date], [createdAt], [isPriority], [subtasks]
    and [engagementId] leave the same store, whatever their [projectId],
    [projectName] and [engagementName].  The request is answered "Saved";
    only the [tasks] table changes: the row of the same id is replaced by
    one row that holds the submitted [id], the requesting user, the
    submitted [content], [type], [date], [createdAt] and [engagementId],
    [isCompleted] and [isPriority] as 1 or 0, the JSON text of the subtasks
    (of the empty array when there are none), and [projectId] [NULL]; and
    the user's next [GET /api/tasks] ends with that row, carrying no
    [projectId].  In particular the task-shaped view of a project task,
    whose [projectId] is the project's id, is read back without it. *)
Theorem post_tasks_drops_project_link :
  forall (J : JsonArray Subtask.t) (userId : string) (t : Task.t) (d : DB.t),
    let d' := snd (Server.post_tasks userId t d) in
    (forall t',
        Task.id t' = Task.id t ->
        Task.content t' = Task.content t ->
        Task.isCompleted t' = Task.isCompleted t ->
        Task.type t' = Task.type t ->
        Task.date t' = Task.date t ->
        Task.createdAt t' = Task.createdAt t ->
        Task.isPriority t' = Task.isPriority t ->
        Task.subtasks t' = Task.subtasks t ->
        Task.engagementId t' = Task.engagementId t ->
        Server.post_tasks userId t' d = Server.post_tasks userId t d)
    /\ fst (Server.post_tasks userId t d) = Ok "Saved"
    /\ d' = DB.set_tasks d (DB.tasks d')
    /\ (exists r,
           DB.tasks d'
           = filter (fun x => negb (TaskRow.id x =? Task.id t)%string)
                    (DB.tasks d) ++ [r]
           /\ TaskRow.id r = Task.id t
           /\ TaskRow.userId r = Some userId
           /\ TaskRow.content r = Task.content t
           /\ TaskRow.isCompleted r
              = Some (if Task.isCompleted t then 1 else 0)%Z
           /\ TaskRow.type r = Task.type t
           /\ TaskRow.date r = Task.date t
           /\ TaskRow.createdAt r = Task.createdAt t
           /\ TaskRow.isPriority r
              = Some (match Task.isPriority t with
                      | Some true => 1
                      | _ => 0
                      end)%Z
           /\ TaskRow.subtasks r
              = Some (JSON_stringify
                        (match Task.subtasks t with
                         | Some subtasks => subtasks
                         | None => []
                         end))
           /\ TaskRow.engagementId r = Task.engagementId t
           /\ TaskRow.projectId r = None
           /\ forall olds,
                Server.get_tasks userId d = Ok olds ->
                exists out,
                  Server.get_tasks userId d'
                  = Ok (filter (fun o => negb (TaskRow.id (TaskOut.row o)
                                               =? Task.id t)%string) olds
                        ++ [out])
                  /\ TaskOut.row out = r)
    /\ (forall r, In r (DB.tasks d') -> TaskRow.id r = Task.id t ->
                  TaskRow.projectId r = None)
    /\ (forall olds,
           Server.get_tasks userId d = Ok olds ->
           exists out,
             Server.get_tasks userId d'
             = Ok (filter (fun o => negb (TaskRow.id (TaskOut.row o)
                                          =? Task.id t)%string) olds ++ [out])
             /\ TaskRow.id (TaskOut.row out) = Task.id t
             /\ TaskRow.projectId (TaskOut.row out) = None)
    /\ (forall today p pt,
           Task.projectId (Client.projectTaskView today p pt)
           = Some (InternalProject.id p)
           /\ forall r,
               In r (DB.tasks (snd (Server.post_tasks userId
                                      (Client.projectTaskView today p pt) d))) ->
               TaskRow.id r = ProjectTask.id pt ->
               TaskRow.projectId r = None).
Proof.
  intros J userId t d d'.
  assert (Hrow : forall (t0 : Task.t) r,
             In r (DB.tasks (snd (Server.post_tasks userId t0 d))) ->
             TaskRow.id r = Task.id t0 -> TaskRow.projectId r = None).
  { intros t0 r Hr Hid. simpl in Hr.
    now rewrite (in_insertOrReplace TaskRow.id _ _ _ Hr Hid). }
  split; [|split; [|split; [|split; [|split; [|split]]]]].
  - intros t' H1 H2 H3 H4 H5 H6 H7 H8 H9.
    unfold Server.post_tasks, Server.taskRow.
    now rewrite H1, H2, H3, H4, H5, H6, H7, H8, H9.
  - reflexivity.
  - now destruct d.
  - eexists. split; [reflexivity|].
    cbn [TaskRow.id TaskRow.userId TaskRow.content TaskRow.isCompleted
         TaskRow.type TaskRow.date TaskRow.createdAt TaskRow.isPriority
         TaskRow.subtasks TaskRow.engagementId TaskRow.projectId].
    repeat (split; [reflexivity|]).
    intros olds Holds. eexists.
    split; [apply (get_tasks_after_post userId t d Holds)|]. reflexivity.
  - apply Hrow.
  - intros olds Holds. eexists.
    split; [apply (get_tasks_after_post userId t d Holds)|].
    split; reflexivity.
  - intros today p pt. split; [reflexivity|].
    intros r Hr Hid. exact (Hrow _ r Hr Hid).
Qed.

Lemma post_tasks_drops_project_link_witness :
  exists out,
    Server.get_tasks "user-1"
      (snd (Server.post_tasks "user-1"
              (Client.projectTaskView "2024-01-03"
                 (sampleProject "p-2" "Internal Dev Tools" [])
                 (ProjectTask.mk "pt-4" "Survey team" false))
              emptyStore))
    = Ok [out]
    /\ TaskRow.id (TaskOut.row out) = "pt-4"
    /\ TaskRow.projectId (TaskOut.row out) = None.
Proof.
  destruct (post_tasks_drops_project_link jsonSubtasks "user-1"
              (Client.projectTaskView "2024-01-03"
                 (sampleProject "p-2" "Internal Dev Tools" [])
                 (ProjectTask.mk "pt-4" "Survey team" false))
              emptyStore)
    as (_ & _ & _ & _ & _ & Hget & _).
  destruct (Hget [] eq_refl) as (out & Hout & Hid & Hproject).
  exists out. repeat split; assumption.
Defined.

Lemma mapThrowing_In {A B : Type} (f : A -> option B) (l : list A) :
  forall outs o,
    mapThrowing f l = Some outs -> In o outs ->
    exists a, In a l /\ f a = Some o.
Proof.
  induction l as [|a l IH]; intros outs o H Ho; simpl in H.
  - injection H as <-. contradiction.
  - destruct (f a) as [b|] eqn:E; [|discriminate].
    destruct (mapThrowing f l) as [bs|]; [|discriminate].
    injection H as <-. destruct Ho as [<-|Ho].
    + exists a. split; [now left | exact E].
    + destruct (IH bs o eq_refl Ho) as (a' & Ha' & Hf).
      exists a'. split; [now right | exact Hf].
Qed.

Lemma readsFlag_not_not (column : option Z) : readsFlag column (JS.not_not column).
Proof. split; intros ->; reflexivity. Qed.

(** C7, as the handlers have it.  For a task, an engagement and a note,
    when the user's list could be read before the save, the list read after
    the save is the former one without the entry of the same id, followed
    by the saved object with the submitted arrays ([subtasks]; [timeline]
    and [files]; [tags]; an absent array is read as the empty one) and the
    submitted flags (an absent flag is read as [false]).  The same holds of
    a highlight and a calendar event with their flags.  For an idea the
    [entries] are read back as submitted when they are not empty or when the
    submitted description is blank; an idea saved with no entries and a
    description that is not blank is read back with the one entry
    [legacy-<id>] that holds the description and the idea's [createdAt]
    (the time of the read when [createdAt] is empty).  In every list that is
    read, a flag
    column holding 0 or 1 comes back as [false] or [true], for
    [isCompleted], [isPriority], [needsFollowUp], [momSent] and the
    [isCompleted] of project tasks. *)
Theorem save_then_reload_round_trip :
  forall (J1 : JsonArray Subtask.t) (J2 : JsonArray TimelineEntry.t)
         (J3 : JsonArray EngagementFile.t) (J4 : JsonArray string)
         (J5 : JsonArray IdeaEntry.t)
         (env : Env.t) (userId : string) (d : DB.t),
    (forall t olds,
        Server.get_tasks userId d = Ok olds ->
        exists out,
          Server.get_tasks userId (snd (Server.post_tasks userId t d))
          = Ok (filter (fun o => negb (TaskRow.id (TaskOut.row o)
                                       =? Task.id t)%string) olds ++ [out])
          /\ TaskRow.id (TaskOut.row out) = Task.id t
          /\ TaskOut.subtasks out = JS.or_nil (Task.subtasks t)
          /\ TaskOut.isCompleted out = Task.isCompleted t
          /\ TaskOut.isPriority out = flagValue (Task.isPriority t))
    /\ (forall e olds,
           Server.get_engagements userId d = Ok olds ->
           exists out,
             Server.get_engagements userId
               (snd (Server.post_engagements userId e d))
             = Ok (filter (fun o => negb (EngagementRow.id (EngagementOut.row o)
                                          =? Engagement.id e)%string) olds
                   ++ [out])
             /\ EngagementRow.id (EngagementOut.row out) = Engagement.id e
             /\ EngagementOut.timeline out = JS.or_nil (Engagement.timeline e)
             /\ EngagementOut.files out = JS.or_nil (Engagement.files e))
    /\ (forall n olds,
           Server.get_notes userId d = Ok olds ->
           exists out,
             Server.get_notes userId (snd (Server.post_notes userId n d))
             = Ok (filter (fun o => negb (NoteRow.id (NoteOut.row o)
                                          =? Note.id n)%string) olds ++ [out])
             /\ NoteRow.id (NoteOut.row out) = Note.id n
             /\ NoteOut.tags out = JS.or_nil (Note.tags n))
    /\ (forall h,
           exists olds out,
             Server.get_highlights userId d = Ok olds
             /\ Server.get_highlights userId
                  (snd (Server.post_highlights userId h d))
                = Ok (filter (fun o => negb (HighlightRow.id (HighlightOut.row o)
                                             =? Highlight.id h)%string) olds
                      ++ [out])
             /\ HighlightRow.id (HighlightOut.row out) = Highlight.id h
             /\ HighlightOut.needsFollowUp out = Highlight.needsFollowUp h)
    /\ (forall e,
           exists olds out,
             Server.get_calendar userId d = Ok olds
             /\ Server.get_calendar userId (snd (Server.post_calendar userId e d))
                = Ok (filter (fun o => negb (CalendarEventRow.id
                                               (CalendarEventOut.row o)
                                             =? CalendarEvent.id e)%string) olds
                      ++ [out])
             /\ CalendarEventRow.id (CalendarEventOut.row out) = CalendarEvent.id e
             /\ CalendarEventOut.momSent out = flagValue (CalendarEvent.momSent e))
    /\ (forall i,
           JS.or_nil (Idea.entries i) <> []
           \/ JS.blank (JS.or_else (Idea.description i) EmptyString) = true ->
           exists olds out,
             Server.get_ideas env userId d = Ok olds
             /\ Server.get_ideas env userId (snd (Server.post_ideas userId i d))
                = Ok (filter (fun o => negb (IdeaRow.id (IdeaOut.row o)
                                             =? Idea.id i)%string) olds ++ [out])
             /\ IdeaRow.id (IdeaOut.row out) = Idea.id i
             /\ IdeaOut.entries out = JS.or_nil (Idea.entries i))
    /\ (forall i,
           JS.or_nil (Idea.entries i) = [] ->
           JS.blank (JS.or_else (Idea.description i) EmptyString) = false ->
           exists olds out,
             Server.get_ideas env userId d = Ok olds
             /\ Server.get_ideas env userId (snd (Server.post_ideas userId i d))
                = Ok (filter (fun o => negb (IdeaRow.id (IdeaOut.row o)
                                             =? Idea.id i)%string) olds ++ [out])
             /\ IdeaRow.id (IdeaOut.row out) = Idea.id i
             /\ IdeaOut.entries out
                = [ {| IdeaEntry.id := ("legacy-" ++ Idea.id i)%string;
                       IdeaEntry.content :=
                         JS.or_else (Idea.description i) EmptyString;
                       IdeaEntry.timestamp :=
                         if (Idea.createdAt i =? EmptyString)%string
                         then Env.isoNow env else Idea.createdAt i |} ])
    /\ (forall outs o,
           Server.get_tasks userId d = Ok outs -> In o outs ->
           readsFlag (TaskRow.isCompleted (TaskOut.row o)) (TaskOut.isCompleted o)
           /\ readsFlag (TaskRow.isPriority (TaskOut.row o)) (TaskOut.isPriority o))
    /\ (forall outs o,
           Server.get_highlights userId d = Ok outs -> In o outs ->
           readsFlag (HighlightRow.needsFollowUp (HighlightOut.row o))
                     (HighlightOut.needsFollowUp o))
    /\ (forall outs o,
           Server.get_calendar userId d = Ok outs -> In o outs ->
           readsFlag (CalendarEventRow.momSent (CalendarEventOut.row o))
                     (CalendarEventOut.momSent o))
    /\ (forall outs p o,
           Server.get_projects userId d = Ok outs -> In p outs ->
           In o (ProjectOut.tasks p) ->
           readsFlag (ProjectTaskRow.isCompleted (ProjectTaskOut.row o))
                     (ProjectTaskOut.isCompleted o)).
Proof.
  intros J1 J2 J3 J4 J5 env userId d.
  split; [|split; [|split; [|split; [|split; [|split; [|split; [|split; [|split; [|split]]]]]]]]].
  - intros t olds Holds. eexists.
    split; [apply (get_tasks_after_post userId t d Holds)|].
    repeat split.
  - intros e olds Holds. eexists.
    split; [apply (get_engagements_after_post userId e d Holds)|].
    repeat split.
  - intros n olds Holds. eexists.
    split; [apply (get_notes_after_post userId n d Holds)|].
    repeat split.
  - intro h. destruct (get_highlights_after_post userId h d) as (olds & H1 & H2).
    exists olds. eexists. split; [exact H1|]. split; [exact H2|]. split; reflexivity.
  - intro e. destruct (get_calendar_after_post userId e d) as (olds & H1 & H2).
    exists olds. eexists. split; [exact H1|]. split; [exact H2|]. split; reflexivity.
  - intros i Hi. destruct (get_ideas_after_post env userId i d) as (olds & H1 & H2).
    exists olds. eexists. split; [exact H1|]. split; [exact H2|].
    split; [reflexivity|].
    rewrite formatIdea_ideaRow.
    destruct (JS.or_nil (Idea.entries i)) as [|first rest]; [|reflexivity].
    destruct Hi as [Hi|Hi]; [contradiction|].
    cbv zeta. now rewrite Hi.
  - intros i Hnil Hblank.
    destruct (get_ideas_after_post env userId i d) as (olds & H1 & H2).
    exists olds. eexists. split; [exact H1|]. split; [exact H2|].
    split; [reflexivity|].
    rewrite formatIdea_ideaRow, Hnil. cbv zeta. rewrite Hblank.
    reflexivity.
  - intros outs o Hget Ho. unfold Server.get_tasks in Hget.
    destruct (mapThrowing Server.formatTask _) as [outs'|] eqn:E; [|discriminate].
    injection Hget as <-.
    destruct (mapThrowing_In _ _ _ E Ho) as (r & _ & Hr).
    unfold Server.formatTask in Hr.
    destruct (JSON_parse _); [|discriminate]. injection Hr as <-.
    split; apply readsFlag_not_not.
  - intros outs o Hget Ho. injection Hget as <-.
    apply in_map_iff in Ho. destruct Ho as (r & <- & _).
    apply readsFlag_not_not.
  - intros outs o Hget Ho. injection Hget as <-.
    apply in_map_iff in Ho. destruct Ho as (r & <- & _).
    apply readsFlag_not_not.
  - intros outs p o Hget Hp Ho. injection Hget as <-.
    apply in_map_iff in Hp. destruct Hp as (r & <- & _).
    simpl in Ho. apply in_map_iff in Ho. destruct Ho as (r' & <- & _).
    apply readsFlag_not_not.
Qed.

Lemma save_then_reload_round_trip_witness :
  exists out,
    Server.get_tasks "user-1"
      (snd (Server.post_tasks "user-1" taskWithSubtasks emptyStore))
    = Ok [out]
    /\ TaskOut.subtasks out = sampleSubtasks
    /\ TaskOut.isCompleted out = false
    /\ TaskOut.isPriority out = true.
Proof.
  destruct (save_then_reload_round_trip jsonSubtasks jsonTimeline jsonFiles
              jsonTags jsonEntries sampleEnv "user-1" emptyStore)
    as (Htasks & _).
  destruct (Htasks taskWithSubtasks [] eq_refl)
    as (out & Hget & _ & Hsub & Hdone & Hprio).
  exists out. repeat split; assumption.
Defined.

Example stored_subtasks_text :
  TaskRow.subtasks (Server.taskRow "user-1" taskWithSubtasks)
  = Some (Json.stringify
            (Json.Arr (map Json.encodeSubtask sampleSubtasks))).
Proof. reflexivity. Qed.

(** C7 as the specification words it fails for an idea saved with no
    entries and a description that is not blank: [GET /api/ideas] turns the
    description into one entry, so the empty array is not read back. *)
Lemma save_then_reload_round_trip_counterexample :
  exists out,
    Server.get_ideas sampleEnv "user-1"
      (snd (Server.post_ideas "user-1" legacyShapedIdea emptyStore))
    = Ok [out]
    /\ Idea.entries legacyShapedIdea = Some []
    /\ IdeaOut.entries out
       = [ {| IdeaEntry.id := "legacy-idea-1";
              IdeaEntry.content := "Script for Jira";
              IdeaEntry.timestamp := "2024-01-01T00:00:00.000Z" |} ]
    /\ IdeaOut.entries out <> JS.or_nil (Idea.entries legacyShapedIdea).
Proof.
  eexists. split; [vm_compute; reflexivity|].
  split; [reflexivity|]. split; [reflexivity|]. discriminate.
Qed.

(** ** Start-up: the migration and the listening server *)

Lemma assignOrphans_Adopted {Row : Type} (userId : Row -> option string)
      (with_userId : Row -> option string -> Row) (uid : string)
      (tbl : list Row) :
  Adopted userId with_userId uid tbl
          (Startup.assignOrphans userId with_userId uid tbl).
Proof.
  unfold Adopted. induction tbl as [|r tbl IH]; simpl; constructor; [|exact IH].
  now destruct (userId r).
Qed.

Lemma takeDue_Some (now : nat) (c : Startup.Callback)
      (q rest : list (nat * Startup.Callback)) :
  Startup.takeDue now c q = Some rest ->
  forall x, In x rest -> In x q.
Proof.
  revert rest. induction q as [|[due c'] q IH]; intros rest H x Hx; simpl in H.
  - discriminate.
  - destruct (Startup.Callback_eqb c c' && (due <=? now)%nat).
    + injection H as <-. now right.
    + destruct (Startup.takeDue now c q) as [rest'|]; [|discriminate].
      injection H as <-. destruct Hx as [<-|Hx]; [now left|].
      right. exact (IH rest' eq_refl x Hx).
Qed.

Lemma takeDue_due (now : nat) (c : Startup.Callback)
      (q rest : list (nat * Startup.Callback)) :
  Startup.takeDue now c q = Some rest ->
  exists due, In (due, c) q /\ due <= now.
Proof.
  revert rest. induction q as [|[due c'] q IH]; intros rest H; simpl in H.
  - discriminate.
  - destruct (Startup.Callback_eqb c c' && (due <=? now)%nat) eqn:E.
    + apply andb_true_iff in E. destruct E as [E1 E2].
      apply Nat.leb_le in E2. exists due. split; [|exact E2].
      left. f_equal. destruct c, c'; (reflexivity || discriminate).
    + destruct (Startup.takeDue now c q) as [rest'|]; [|discriminate].
      destruct (IH rest' eq_refl) as (due' & Hin & Hle).
      exists due'. split; [now right | exact Hle].
Qed.

Section EventLoop.

Context {jsonSubtasks : JsonArray Subtask.t}.
Context {jsonTimeline : JsonArray TimelineEntry.t}.
Context {jsonFiles : JsonArray EngagementFile.t}.
Context {jsonTags : JsonArray string}.
Context {jsonEntries : JsonArray IdeaEntry.t}.

Lemma afterBoot_boot (d : DB.t) : afterBoot (Startup.boot d).
Proof.
  repeat split; simpl; try discriminate.
  intros due [H|[]]. discriminate H.
Qed.

Lemma afterBoot_step (e : Startup.Event) (p p' : Startup.Process)
      (log : list (bool * Startup.Reply)) :
  afterBoot p ->
  Startup.step e p = Some (p', log) ->
  afterBoot p'
  /\ Startup.clock p <= Startup.clock p'
  /\ (forall entry, In entry log -> fst entry = Startup.migrated p).
Proof.
  intros (Hlisten & Hmigr & Hpending) Hstep.
  destruct e as [|c|r]; simpl in Hstep.
  - injection Hstep as <- <-. unfold afterBoot; simpl.
    repeat split; try assumption; try lia; try contradiction.
    intro H. specialize (Hmigr H). lia.
  - destruct (Startup.takeDue (Startup.clock p) c (Startup.pending p))
      as [rest|] eqn:E; [|discriminate].
    destruct c; injection Hstep as <- <-; unfold afterBoot; simpl.
    + repeat split; try assumption; try lia; try contradiction.
      intros due Hdue. apply in_app_or in Hdue.
      destruct Hdue as [Hdue|[Hdue|[]]].
      * apply Hpending. exact (takeDue_Some _ _ _ E _ Hdue).
      * injection Hdue as <-. lia.
    + destruct (takeDue_due _ _ _ E) as (due & Hin & Hle).
      pose proof (Hpending due Hin) as Hdue.
      repeat split; try assumption; try lia; try contradiction.
      intros due' Hdue'. apply Hpending.
      exact (takeDue_Some _ _ _ E _ Hdue').
  - rewrite Hlisten in Hstep.
    destruct (Startup.handle r (Startup.store p)) as [reply d'].
    injection Hstep as <- <-. unfold afterBoot; simpl.
    repeat split; try assumption; try lia.
    intros entry [<-|[]]. reflexivity.
Qed.

Lemma afterBoot_run (es : list Startup.Event) :
  forall (p p' : Startup.Process) (log : list (bool * Startup.Reply)),
    afterBoot p ->
    Startup.run es p = Some (p', log) ->
    afterBoot p'
    /\ Startup.clock p <= Startup.clock p'
    /\ (forall entry, In entry log -> fst entry = true ->
                      500 <= Startup.clock p').
Proof.
  induction es as [|e es IH]; intros p p' log Hp Hrun; simpl in Hrun.
  - injection Hrun as <- <-. split; [exact Hp|]. split; [lia|]. contradiction.
  - destruct (Startup.step e p) as [[p1 log1]|] eqn:Hstep; [|discriminate].
    destruct (Startup.run es p1) as [[p2 log2]|] eqn:Hrest; [|discriminate].
    injection Hrun as <- <-.
    destruct (afterBoot_step e Hp Hstep) as (Hp1 & Hle1 & Hlog1).
    destruct (IH p1 p2 log2 Hp1 Hrest) as (Hp2 & Hle2 & Hlog2).
    split; [exact Hp2|]. split; [lia|].
    intros entry Hentry Htrue. apply in_app_or in Hentry.
    destruct Hentry as [Hentry|Hentry].
    + rewrite (Hlog1 entry Hentry) in Htrue.
      destruct Hp as (_ & Hmigr & _). specialize (Hmigr Htrue). lia.
    + exact (Hlog2 entry Hentry Htrue).
Qed.

Lemma run_ticks (n : nat) :
  forall p,
    Startup.run (repeat Startup.Tick n) p
    = Some ({| Startup.store := Startup.store p;
               Startup.clock := n + Startup.clock p;
               Startup.listening := Startup.listening p;
               Startup.pending := Startup.pending p;
               Startup.migrated := Startup.migrated p |}, []).
Proof.
  induction n as [|n IH]; intro p; simpl.
  - now destruct p.
  - rewrite IH. simpl. now rewrite Nat.add_succ_r.
Qed.

Lemma run_app (es1 es2 : list Startup.Event) :
  forall p p1 log1,
    Startup.run es1 p = Some (p1, log1) ->
    Startup.run (es1 ++ es2) p
    = match Startup.run es2 p1 with
      | Some (p2, log2) => Some (p2, log1 ++ log2)
      | None => None
      end.
Proof.
  induction es1 as [|e es1 IH]; intros p p1 log1 H; simpl in *.
  - injection H as <- <-. now destruct (Startup.run es2 p) as [[? ?]|].
  - destruct (Startup.step e p) as [[p' log']|]; [|discriminate].
    destruct (Startup.run es1 p') as [[p'' log'']|] eqn:E; [|discriminate].
    injection H as <- <-. rewrite (IH p' p'' log'' E).
    destruct (Startup.run es2 p'') as [[? ?]|]; [|reflexivity].
    now rewrite app_assoc.
Qed.

Lemma initDatabase_sets_timer (d : DB.t) :
  Startup.run [Startup.Fire Startup.initDatabase] (Startup.boot d)
  = Some ({| Startup.store := d; Startup.clock := 0;
             Startup.listening := true;
             Startup.pending := [(500, Startup.migrationTimer)];
             Startup.migrated := false |}, []).
Proof. reflexivity. Qed.

Lemma migrationTimer_fires (d : DB.t) :
  Startup.run [Startup.Fire Startup.migrationTimer]
    {| Startup.store := d; Startup.clock := 500 + 0;
       Startup.listening := true;
       Startup.pending := [(500, Startup.migrationTimer)];
       Startup.migrated := false |}
  = Some ({| Startup.store := Startup.migrateData d; Startup.clock := 500;
             Startup.listening := true; Startup.pending := [];
             Startup.migrated := true |}, []).
Proof. reflexivity. Qed.

Lemma earliestMigration_runs (d : DB.t) :
  Startup.run earliestMigration (Startup.boot d)
  = Some ({| Startup.store := Startup.migrateData d;
             Startup.clock := 500;
             Startup.listening := true;
             Startup.pending := [];
             Startup.migrated := true |}, []).
Proof.
  unfold earliestMigration.
  change (Startup.Fire Startup.initDatabase
          :: repeat Startup.Tick 500 ++ [Startup.Fire Startup.migrationTimer])
    with ([Startup.Fire Startup.initDatabase]
          ++ repeat Startup.Tick 500 ++ [Startup.Fire Startup.migrationTimer]).
  rewrite (run_app [Startup.Fire Startup.initDatabase] _ _
                   (initDatabase_sets_timer d)).
  rewrite (run_app _ _ _ (run_ticks 500 _)).
  cbn [Startup.store Startup.clock Startup.listening Startup.pending
       Startup.migrated].
  now rewrite migrationTimer_fires.
Qed.

End EventLoop.

(** C8, as the start-up code has it.  The migration body leaves the store
    as it is when no user has the legacy email (compared in lower case);
    when such a user exists it gives every row with a [NULL] [userId] in
    the eight entity tables and in [settings] to that user and leaves the
    other rows, the users and the child tables of projects as they are.
    It runs from a timer set 500 ms after [initDatabase], while the server
    listens from the moment the modules are loaded: in every run the
    server keeps accepting requests, the migration has not run before
    millisecond 500, every request served earlier is served on the store
    without the migration, and there is a run in which the migration
    completes at millisecond 500. *)
Theorem migration_runs_on_timer_while_listening :
  forall (J1 : JsonArray Subtask.t) (J2 : JsonArray TimelineEntry.t)
         (J3 : JsonArray EngagementFile.t) (J4 : JsonArray string)
         (J5 : JsonArray IdeaEntry.t) (d : DB.t),
    (Startup.legacyUser d = None ->
     (forall u, In u (DB.users d) ->
                JS.toLowerCase (UserRow.email u)
                <> JS.toLowerCase Startup.RISHAV_EMAIL)
     /\ Startup.migrateData d = d)
    /\ (forall user,
           Startup.legacyUser d = Some user ->
           let uid := UserRow.id user in
           let d' := Startup.migrateData d in
           In user (DB.users d)
           /\ JS.toLowerCase (UserRow.email user)
              = JS.toLowerCase Startup.RISHAV_EMAIL
           /\ Adopted EngagementRow.userId EngagementRow.with_userId uid
                      (DB.engagements d) (DB.engagements d')
           /\ Adopted TaskRow.userId TaskRow.with_userId uid
                      (DB.tasks d) (DB.tasks d')
           /\ Adopted ProjectRow.userId ProjectRow.with_userId uid
                      (DB.projects d) (DB.projects d')
           /\ Adopted HighlightRow.userId HighlightRow.with_userId uid
                      (DB.highlights d) (DB.highlights d')
           /\ Adopted IdeaRow.userId IdeaRow.with_userId uid
                      (DB.ideas d) (DB.ideas d')
           /\ Adopted CalendarEventRow.userId CalendarEventRow.with_userId uid
                      (DB.calendar_events d) (DB.calendar_events d')
           /\ Adopted UsefulLinkRow.userId UsefulLinkRow.with_userId uid
                      (DB.useful_links d) (DB.useful_links d')
           /\ Adopted NoteRow.userId NoteRow.with_userId uid
                      (DB.notes d) (DB.notes d')
           /\ Adopted SettingRow.userId SettingRow.with_userId uid
                      (DB.settings d) (DB.settings d')
           /\ DB.users d' = DB.users d
           /\ DB.project_tasks d' = DB.project_tasks d
           /\ DB.research_notes d' = DB.research_notes d)
    /\ (forall es p log,
           Startup.run es (Startup.boot d) = Some (p, log) ->
           Startup.listening p = true
           /\ (forall r, exists p' reply,
                  Startup.step (Startup.Serve r) p
                  = Some (p', [(Startup.migrated p, reply)]))
           /\ (Startup.migrated p = true -> 500 <= Startup.clock p)
           /\ (Startup.clock p < 500 ->
               forall entry, In entry log -> fst entry = false))
    /\ (exists es p,
           Startup.run es (Startup.boot d) = Some (p, [])
           /\ Startup.migrated p = true
           /\ Startup.clock p = 500
           /\ Startup.store p = Startup.migrateData d).
Proof.
  intros J1 J2 J3 J4 J5 d.
  split; [|split; [|split]].
  - intro Hnone. split.
    + intros u Hu E. unfold Startup.legacyUser in Hnone.
      pose proof (List.find_none _ _ Hnone u Hu) as Hfalse. simpl in Hfalse.
      apply String.eqb_neq in Hfalse. contradiction.
    + unfold Startup.migrateData. now rewrite Hnone.
  - intros user Huser uid d'.
    pose proof (find_some _ _ Huser) as [Hin Hemail].
    apply String.eqb_eq in Hemail.
    split; [exact Hin|]. split; [exact Hemail|].
    subst d'. unfold Startup.migrateData. rewrite Huser. simpl.
    repeat (split; [apply assignOrphans_Adopted|]).
    repeat split.
  - intros es p log Hrun.
    destruct (afterBoot_run es (afterBoot_boot d) Hrun)
      as ((Hlisten & Hmigr & _) & _ & Hlog).
    split; [exact Hlisten|]. split; [|split; [exact Hmigr|]].
    + intro r. simpl. rewrite Hlisten.
      destruct (Startup.handle r (Startup.store p)) as [reply d'].
      now do 2 eexists.
    + intros Hearly entry Hentry.
      destruct (fst entry) eqn:E; [|reflexivity].
      specialize (Hlog entry Hentry E). lia.
  - do 2 eexists. split; [apply earliestMigration_runs|]. repeat split.
Qed.

Lemma migration_runs_on_timer_while_listening_witness :
  Adopted TaskRow.userId TaskRow.with_userId "user-1"
          (DB.tasks legacyStore) (DB.tasks (Startup.migrateData legacyStore))
  /\ DB.users (Startup.migrateData legacyStore) = DB.users legacyStore.
Proof.
  destruct (migration_runs_on_timer_while_listening jsonSubtasks jsonTimeline
              jsonFiles jsonTags jsonEntries legacyStore)
    as (_ & Hsome & _).
  destruct (Hsome {| UserRow.id := "user-1";
                     UserRow.email := "newrishav@gmail.com";
                     UserRow.passwordHash := "$2b$10$abcdef";
                     UserRow.name := "Rishav";
                     UserRow.createdAt := "2024-01-01T00:00:00.000Z" |}
                  eq_refl)
    as (_ & _ & _ & Htasks & _ & _ & _ & _ & _ & _ & _ & Husers & _).
  split; [exact Htasks | exact Husers].
Defined.

(** It fails: a request that arrives right after start-up is served before
    the timer fires, and the legacy user's task list, which holds one task
    once the migration has run, is still empty. *)
Lemma migration_before_traffic_counterexample :
  Startup.run [Startup.Serve (Startup.GET_tasks "user-1")]
              (Startup.boot legacyStore)
  = Some (Startup.boot legacyStore, [(false, Startup.tasksReply (Ok []))])
  /\ (exists out,
         Server.get_tasks "user-1" (Startup.migrateData legacyStore) = Ok [out]
         /\ TaskRow.id (TaskOut.row out) = "task-1")
  /\ ~ migrationPrecedesTraffic.
Proof.
  assert (Hrun : Startup.run [Startup.Serve (Startup.GET_tasks "user-1")]
                             (Startup.boot legacyStore)
                 = Some (Startup.boot legacyStore,
                         [(false, Startup.tasksReply (Ok []))]))
    by reflexivity.
  split; [exact Hrun|]. split.
  - eexists. split; [vm_compute; reflexivity | reflexivity].
  - intro Hclaim.
    specialize (Hclaim _ _ _ _ Hrun _ (or_introl eq_refl)).
    discriminate Hclaim.
Qed.

(** * Further properties of the code *)

(** ** Lists *)

Lemma NoDup_app_disjoint {A : Type} (l1 l2 : list A) :
  NoDup (l1 ++ l2) -> forall a, In a l1 -> In a l2 -> False.
Proof.
  induction l1 as [|x l1 IH]; simpl; intros H a H1 H2; [exact H1|].
  inversion H as [|? ? Hx Hrest]; subst.
  destruct H1 as [->|H1].
  - apply Hx. apply in_or_app. now right.
  - exact (IH Hrest a H1 H2).
Qed.

Lemma NoDup_map_eq {A B : Type} (f : A -> B) (l : list A) :
  NoDup (map f l) ->
  forall x y, In x l -> In y l -> f x = f y -> x = y.
Proof.
  induction l as [|a l IH]; simpl; intros H x y Hx Hy E; [contradiction|].
  inversion H as [|? ? Ha Hrest]; subst.
  destruct Hx as [->|Hx], Hy as [->|Hy].
  - reflexivity.
  - exfalso. apply Ha. rewrite E. now apply in_map.
  - exfalso. apply Ha. rewrite <- E. now apply in_map.
  - now apply IH.
Qed.

Lemma filter_filter_same {A : Type} (f : A -> bool) (l : list A) :
  filter f (filter f l) = filter f l.
Proof.
  induction l as [|x l IH]; simpl; [reflexivity|].
  destruct (f x) eqn:E; simpl; rewrite ?E, IH; reflexivity.
Qed.

Lemma filter_all {A : Type} (f : A -> bool) (l : list A) :
  (forall x, In x l -> f x = true) -> filter f l = l.
Proof.
  induction l as [|x l IH]; simpl; intro H; [reflexivity|].
  rewrite (H x) by now left.
  f_equal. apply IH. intros y Hy. apply H. now right.
Qed.

Lemma filter_none {A : Type} (f : A -> bool) (l : list A) :
  (forall x, In x l -> f x = false) -> filter f l = [].
Proof.
  induction l as [|x l IH]; simpl; intro H; [reflexivity|].
  rewrite (H x) by now left.
  apply IH. intros y Hy. apply H. now right.
Qed.

Lemma filter_map_commute {A B : Type} (v : A -> B) (f : B -> bool)
      (g : A -> bool) (l : list A) :
  (forall x, f (v x) = g x) ->
  filter f (map v l) = map v (filter g l).
Proof.
  intro H. induction l as [|x l IH]; simpl; [reflexivity|].
  rewrite H. destruct (g x); simpl; now rewrite IH.
Qed.

Lemma find_filter_keeps {A : Type} (test keep : A -> bool) (l : list A) :
  (forall x, In x l -> test x = true -> keep x = true) ->
  find test (filter keep l) = find test l.
Proof.
  induction l as [|x l IH]; simpl; intro H; [reflexivity|].
  destruct (test x) eqn:Et.
  - rewrite (H x) by (now left || assumption). simpl. now rewrite Et.
  - destruct (keep x); simpl; rewrite ?Et; apply IH;
      intros y Hy; apply H; now right.
Qed.

Lemma find_In_test {A : Type} (test : A -> bool) (l : list A) (x : A) :
  find test l = Some x -> In x l /\ test x = true.
Proof. apply find_some. Qed.

(** ** The task handlers of [App.tsx] and the master list *)

Lemma projectTaskView_with_tasks (today : string) (p : InternalProject.t)
      (ts : list ProjectTask.t) (pt : ProjectTask.t) :
  Client.projectTaskView today (InternalProject.with_tasks p ts) pt
  = Client.projectTaskView today p pt.
Proof. reflexivity. Qed.

Lemma patchProjectTask_id (t : Task.t) (pt : ProjectTask.t) :
  ProjectTask.id (Client.patchProjectTask t pt) = ProjectTask.id pt.
Proof.
  unfold Client.patchProjectTask.
  now destruct (ProjectTask.id pt =? Task.id t)%string.
Qed.

(** The projects that [handleUpdateTask] leaves, for a task whose
    [projectId] is set. *)
Lemma handleUpdateTask_projects (t : Task.t) (st : Client.AppState) :
  JS.truthy (Task.projectId t) = true ->
  fst (Client.handleUpdateTask t st)
  = {| Client.tasks := Client.tasks st;
       Client.projects :=
         map (fun p => if (InternalProject.id p
                           =? JS.or_else (Task.projectId t) EmptyString)%string
                       then InternalProject.with_tasks p
                              (map (Client.patchProjectTask t)
                                   (InternalProject.tasks p))
                       else p)
             (Client.projects st) |}.
Proof.
  intro H. unfold Client.handleUpdateTask. rewrite H. cbn [fst].
  now rewrite mapCapturing_list.
Qed.

Lemma handleDeleteTask_projects (taskId : string) (st : Client.AppState)
      (src : InternalProject.t) :
  find (Client.hasTask taskId) (Client.projects st) = Some src ->
  fst (Client.handleDeleteTask taskId st)
  = {| Client.tasks := Client.tasks st;
       Client.projects :=
         map (fun p => if (InternalProject.id p =? InternalProject.id src)%string
                       then InternalProject.with_tasks p
                              (filter (fun pt => negb (ProjectTask.id pt =? taskId)%string)
                                      (InternalProject.tasks p))
                       else p)
             (Client.projects st) |}.
Proof.
  intro H. unfold Client.handleDeleteTask. rewrite H. cbn [fst].
  now rewrite mapCapturing_list.
Qed.

Lemma master_ids_rewritten (today : string)
      (g : InternalProject.t -> InternalProject.t)
      (ps : list InternalProject.t) :
  (forall p, In p ps ->
             map ProjectTask.id (InternalProject.tasks (g p))
             = map ProjectTask.id (InternalProject.tasks p)) ->
  map Task.id
      (flat_map (fun p => map (Client.projectTaskView today p)
                              (InternalProject.tasks p)) (map g ps))
  = map Task.id
        (flat_map (fun p => map (Client.projectTaskView today p)
                                (InternalProject.tasks p)) ps).
Proof.
  induction ps as [|p ps IH]; simpl; intro H; [reflexivity|].
  rewrite !map_app, IH by (intros q Hq; apply H; now right).
  f_equal. rewrite !map_map.
  exact (H p (or_introl eq_refl)).
Qed.

(** X1. An update never adds, removes or reorders an entry of the master
    list: whatever task is passed to [handleUpdateTask], the ids of
    [masterTasksList] are afterwards what they were. *)
Theorem handleUpdateTask_keeps_master_ids :
  forall (today : string) (t : Task.t) (st : Client.AppState),
    map Task.id (Client.masterTasksList today (fst (Client.handleUpdateTask t st)))
    = map Task.id (Client.masterTasksList today st).
Proof.
  intros today t st. unfold Client.masterTasksList.
  destruct (JS.truthy (Task.projectId t)) eqn:E.
  - rewrite (handleUpdateTask_projects t st E). simpl.
    rewrite !map_app. f_equal.
    apply master_ids_rewritten. intros p _.
    destruct (InternalProject.id p =? _)%string; [|reflexivity].
    simpl. rewrite map_map. apply map_ext. apply patchProjectTask_id.
  - unfold Client.handleUpdateTask. rewrite E. simpl.
    rewrite !map_app. f_equal.
    rewrite map_map. apply map_ext_in. intros a _.
    destruct (Task.id a =? Task.id t)%string eqn:Ea; [|reflexivity].
    symmetry. now apply String.eqb_eq.
Qed.

(** X2. An update of a task whose [projectId] names no project of the
    state is lost: the state is left as it is, a standalone task with the
    same id included, and no request is issued. *)
Theorem handleUpdateTask_unknown_project :
  forall (st : Client.AppState) (t : Task.t) (pid : string),
    Task.projectId t = Some pid ->
    pid <> EmptyString ->
    (forall q, In q (Client.projects st) -> InternalProject.id q <> pid) ->
    Client.handleUpdateTask t st = (st, []).
Proof.
  intros st t pid Hpid Hne Hnone.
  destruct (truthy_Some Hne) as [Htruthy Hor].
  unfold Client.handleUpdateTask.
  rewrite Hpid, Htruthy, Hor, mapCapturing_no_match by exact Hnone.
  now destruct st.
Qed.

Lemma handleUpdateTask_unknown_project_witness :
  Client.handleUpdateTask
    (sampleTask "task-1" "Renamed" true (Some "p-9")) sampleState
  = (sampleState, []).
Proof.
  apply (@handleUpdateTask_unknown_project sampleState
           (sampleTask "task-1" "Renamed" true (Some "p-9")) "p-9").
  - reflexivity.
  - discriminate.
  - intros q [<-|[<-|[]]]; discriminate.
Defined.


(** X3. The priority button of [TaskTracker], which is rendered for the
    entries without a [projectId] only.  For a standalone task of the state
    (task ids being distinct), [handleTogglePriority] replaces the task by
    the copy whose [isPriority] is the negation of the old flag read as a
    boolean, and sends that copy with [saveTaskAPI]; a second click on the
    new entry stores and sends the task with the old flag as a boolean,
    which is the original state when the flag was set before. *)
Theorem handleTogglePriority_twice :
  forall (st : Client.AppState) (t : Task.t),
    NoDup (map Task.id (Client.tasks st)) ->
    In t (Client.tasks st) ->
    JS.truthy (Task.projectId t) = false ->
    let b := match Task.isPriority t with Some true => true | _ => false end in
    let flipped := TaskTracker.with_isPriority t (negb b) in
    let restored := TaskTracker.with_isPriority t b in
    let st1 :=
      fst (TaskTracker.handleTogglePriority Client.handleUpdateTask t st) in
    snd (TaskTracker.handleTogglePriority Client.handleUpdateTask t st)
    = [Client.saveTaskAPI flipped]
    /\ In flipped (Client.tasks st1)
    /\ (forall x, In x (Client.tasks st1) ->
                  x = flipped \/ (In x (Client.tasks st) /\ Task.id x <> Task.id t))
    /\ Client.projects st1 = Client.projects st
    /\ TaskTracker.handleTogglePriority Client.handleUpdateTask flipped st1
       = ({| Client.tasks :=
               map (fun x => if (Task.id x =? Task.id t)%string
                             then restored else x) (Client.tasks st);
             Client.projects := Client.projects st |},
          [Client.saveTaskAPI restored])
    /\ (Task.isPriority t <> None ->
        TaskTracker.handleTogglePriority Client.handleUpdateTask flipped st1
        = (st, [Client.saveTaskAPI t])).
Proof.
  intros st t Hnodup Hin Hstandalone b flipped restored st1.
  assert (Hflip : (match Task.isPriority t with
                   | Some true => false
                   | _ => true
                   end) = negb b)
    by (unfold b; now destruct (Task.isPriority t) as [[|]|]).
  assert (Hrun1 :
    TaskTracker.handleTogglePriority Client.handleUpdateTask t st
    = ({| Client.tasks :=
            map (fun x => if (Task.id x =? Task.id t)%string
                          then flipped else x) (Client.tasks st);
          Client.projects := Client.projects st |},
       [Client.saveTaskAPI flipped])).
  { unfold TaskTracker.handleTogglePriority. rewrite Hflip. fold flipped.
    unfold Client.handleUpdateTask.
    change (Task.projectId flipped) with (Task.projectId t).
    now rewrite Hstandalone. }
  assert (Hst1 : st1
    = {| Client.tasks :=
           map (fun x => if (Task.id x =? Task.id t)%string
                         then flipped else x) (Client.tasks st);
         Client.projects := Client.projects st |})
    by (unfold st1; now rewrite Hrun1).
  assert (Hrun2 :
    TaskTracker.handleTogglePriority Client.handleUpdateTask flipped st1
    = ({| Client.tasks :=
            map (fun x => if (Task.id x =? Task.id t)%string
                          then restored else x) (Client.tasks st);
          Client.projects := Client.projects st |},
       [Client.saveTaskAPI restored])).
  { unfold TaskTracker.handleTogglePriority.
    replace (match Task.isPriority flipped with
             | Some true => false
             | _ => true
             end) with b by (cbn; now destruct b).
    change (TaskTracker.with_isPriority flipped b) with restored.
    unfold Client.handleUpdateTask.
    change (Task.projectId restored) with (Task.projectId t).
    rewrite Hstandalone, Hst1. cbn [Client.tasks Client.projects].
    f_equal. f_equal. rewrite map_map. apply map_ext. intro x.
    change (Task.id restored) with (Task.id t).
    destruct (Task.id x =? Task.id t)%string eqn:E.
    - change (Task.id flipped) with (Task.id t).
      now rewrite String.eqb_refl.
    - now rewrite E. }
  split; [now rewrite Hrun1|]. split; [|split; [|split; [|split]]].
  - rewrite Hst1. cbn [Client.tasks]. apply in_map_iff.
    exists t. split; [now rewrite String.eqb_refl | exact Hin].
  - intros x Hx. rewrite Hst1 in Hx. cbn [Client.tasks] in Hx.
    apply in_map_iff in Hx. destruct Hx as (y & <- & Hy).
    destruct (Task.id y =? Task.id t)%string eqn:E; [now left | right].
    split; [exact Hy|]. now apply String.eqb_neq.
  - now rewrite Hst1.
  - exact Hrun2.
  - intro Hset. rewrite Hrun2.
    assert (Hback : restored = t).
    { unfold restored, TaskTracker.with_isPriority, b.
      destruct t as [i c d ty da cr [[|]|] su ei en pi pn]; cbn;
        try reflexivity.
      now contradiction Hset. }
    rewrite Hback. destruct st as [tasks projects].
    cbn [Client.tasks Client.projects] in *. f_equal. f_equal.
    rewrite <- (map_id tasks) at 2.
    apply map_ext_in. intros x Hx.
    destruct (Task.id x =? Task.id t)%string eqn:E; [|reflexivity].
    apply String.eqb_eq in E.
    symmetry. exact (NoDup_map_eq _ _ Hnodup x t Hx Hin E).
Qed.

Lemma handleTogglePriority_twice_witness :
  snd (TaskTracker.handleTogglePriority Client.handleUpdateTask
         (sampleTask "task-1" "Review reports" false None) sampleState)
  = [Client.saveTaskAPI
       (TaskTracker.with_isPriority
          (sampleTask "task-1" "Review reports" false None) true)].
Proof.
  refine (proj1
    (@handleTogglePriority_twice sampleState
       (sampleTask "task-1" "Review reports" false None) _ _ _)).
  - repeat constructor; simpl; intuition discriminate.
  - left. reflexivity.
  - reflexivity.
Defined.




(** ** Deleting a task and the master list *)

Lemma views_without (today : string) (taskId : string) (p : InternalProject.t)
      (ts : list ProjectTask.t) :
  filter (fun t => negb (Task.id t =? taskId)%string)
         (map (Client.projectTaskView today p) ts)
  = map (Client.projectTaskView today p)
        (filter (fun pt => negb (ProjectTask.id pt =? taskId)%string) ts).
Proof. now apply filter_map_commute. Qed.

Lemma hasTask_false_views (today : string) (taskId : string)
      (p : InternalProject.t) :
  Client.hasTask taskId p = false ->
  filter (fun t => negb (Task.id t =? taskId)%string)
         (map (Client.projectTaskView today p) (InternalProject.tasks p))
  = map (Client.projectTaskView today p) (InternalProject.tasks p).
Proof.
  intro H. now rewrite views_without, (@filter_without_task taskId p H).
Qed.

(** The part of the master list that stands for project tasks, after the
    tasks of that id were filtered out of some of the projects. *)
Lemma project_views_rewritten (today : string) (taskId : string)
      (chosen : InternalProject.t -> bool) (ps : list InternalProject.t) :
  filter (fun t => negb (Task.id t =? taskId)%string)
    (flat_map (fun p => map (Client.projectTaskView today p)
                            (InternalProject.tasks p))
       (map (fun p => if chosen p
                      then InternalProject.with_tasks p
                             (filter (fun pt => negb (ProjectTask.id pt =? taskId)%string)
                                     (InternalProject.tasks p))
                      else p) ps))
  = filter (fun t => negb (Task.id t =? taskId)%string)
      (flat_map (fun p => map (Client.projectTaskView today p)
                              (InternalProject.tasks p)) ps).
Proof.
  induction ps as [|p ps IH]; simpl; [reflexivity|].
  rewrite !filter_app, IH. f_equal.
  destruct (chosen p); [|reflexivity].
  cbn [InternalProject.tasks InternalProject.with_tasks].
  rewrite !views_without, filter_filter_same.
  reflexivity.
Qed.

Lemma master_after_delete (today : string) (taskId : string)
      (st : Client.AppState) :
  filter (fun t => negb (Task.id t =? taskId)%string)
         (Client.masterTasksList today (fst (Client.handleDeleteTask taskId st)))
  = filter (fun t => negb (Task.id t =? taskId)%string)
           (Client.masterTasksList today st).
Proof.
  unfold Client.masterTasksList.
  destruct (find (Client.hasTask taskId) (Client.projects st)) as [src|] eqn:E.
  - rewrite (handleDeleteTask_projects taskId st E).
    cbn [Client.tasks Client.projects].
    rewrite !filter_app. f_equal.
    apply (project_views_rewritten today taskId
             (fun p => (InternalProject.id p =? InternalProject.id src)%string)).
  - unfold Client.handleDeleteTask. rewrite E.
    cbn [fst Client.tasks Client.projects].
    now rewrite !filter_app, filter_filter_same.
Qed.

Lemma filter_shorter {A : Type} (f : A -> bool) (l : list A) (x : A) :
  In x l -> f x = false -> length (filter f l) < length l.
Proof.
  induction l as [|a l IH]; simpl; intros Hin Hx; [contradiction|].
  assert (Hle := filter_length_le f l).
  destruct Hin as [->|Hin].
  - rewrite Hx. lia.
  - specialize (IH Hin Hx). destruct (f a); simpl; lia.
Qed.

Lemma hasTask_views (today : string) (taskId : string) (p : InternalProject.t) :
  Client.hasTask taskId p = true ->
  In taskId (map Task.id (map (Client.projectTaskView today p)
                              (InternalProject.tasks p))).
Proof.
  unfold Client.hasTask. intro H.
  apply existsb_exists in H. destruct H as (pt & Hpt & E).
  apply String.eqb_eq in E. rewrite <- E.
  rewrite map_map. apply in_map_iff. now exists pt.
Qed.

Lemma hasTask_of_view (today : string) (taskId : string)
      (ps : list InternalProject.t) :
  In taskId (map Task.id
               (flat_map (fun p => map (Client.projectTaskView today p)
                                       (InternalProject.tasks p)) ps)) ->
  exists q, In q ps /\ Client.hasTask taskId q = true.
Proof.
  intro H. apply in_map_iff in H. destruct H as (t & Hid & Ht).
  apply in_flat_map in Ht. destruct Ht as (q & Hq & Ht).
  apply in_map_iff in Ht. destruct Ht as (pt & <- & Hpt).
  exists q. split; [exact Hq|].
  unfold Client.hasTask. apply existsb_exists. exists pt.
  split; [exact Hpt|]. now apply String.eqb_eq.
Qed.

(** Filtering the tasks of that id out of some projects shortens the part
    of the master list that stands for project tasks, strictly so when one
    of the chosen projects holds the id. *)
Lemma project_views_shrink (today : string) (taskId : string)
      (chosen : InternalProject.t -> bool) (ps : list InternalProject.t) :
  let views := flat_map (fun p => map (Client.projectTaskView today p)
                                      (InternalProject.tasks p)) in
  let rewritten :=
    map (fun p => if chosen p
                  then InternalProject.with_tasks p
                         (filter (fun pt => negb (ProjectTask.id pt =? taskId)%string)
                                 (InternalProject.tasks p))
                  else p) ps in
  length (views rewritten) <= length (views ps)
  /\ ((exists q, In q ps /\ chosen q = true /\ Client.hasTask taskId q = true) ->
      length (views rewritten) < length (views ps)).
Proof.
  induction ps as [|p ps [IHle IHlt]]; simpl.
  - split; [lia|]. intros (q & [] & _).
  - rewrite !length_app, !length_map.
    assert (Hp : length (InternalProject.tasks
                           (if chosen p
                            then InternalProject.with_tasks p
                                   (filter (fun pt => negb (ProjectTask.id pt =? taskId)%string)
                                           (InternalProject.tasks p))
                            else p))
                 <= length (InternalProject.tasks p)).
    { destruct (chosen p); [apply filter_length_le | lia]. }
    split; [simpl in IHle; lia|].
    intros (q & [<-|Hq] & Hc & Hh).
    + rewrite Hc. cbn [InternalProject.tasks InternalProject.with_tasks].
      unfold Client.hasTask in Hh. apply existsb_exists in Hh.
      destruct Hh as (pt & Hpt & E).
      assert (Hf : negb (ProjectTask.id pt =? taskId)%string = false)
        by now rewrite E.
      assert (Hlt := filter_shorter
                       (fun pt => negb (ProjectTask.id pt =? taskId)%string)
                       _ pt Hpt Hf).
      simpl in IHle. lia.
    + assert (Hlt := IHlt (ex_intro _ q (conj Hq (conj Hc Hh)))).
      simpl in Hlt. lia.
Qed.

(** X5. Deleting a task never removes, changes or reorders another one:
    for any state and id, the entries of the master list whose id differs
    from the deleted id are afterwards exactly what they were, whether the
    id was found in a project or among the standalone tasks; and when the
    id is in the master list, the list gets shorter. *)
Theorem handleDeleteTask_keeps_other_tasks :
  forall (today : string) (taskId : string) (st : Client.AppState),
    let before := Client.masterTasksList today st in
    let after :=
      Client.masterTasksList today (fst (Client.handleDeleteTask taskId st)) in
    filter (fun t => negb (Task.id t =? taskId)%string) after
    = filter (fun t => negb (Task.id t =? taskId)%string) before
    /\ (In taskId (map Task.id before) -> length after < length before).
Proof.
  intros today taskId st before after.
  split; [apply master_after_delete|].
  unfold before, after, Client.masterTasksList.
  destruct (find (Client.hasTask taskId) (Client.projects st)) as [src|] eqn:E.
  - intros _. rewrite (handleDeleteTask_projects taskId st E).
    cbn [Client.tasks Client.projects]. rewrite !length_app.
    destruct (find_some _ _ E) as [Hsrc Hhas].
    destruct (project_views_shrink today taskId
                (fun p => (InternalProject.id p =? InternalProject.id src)%string)
                (Client.projects st)) as [_ Hlt].
    assert (H := Hlt (ex_intro _ src
                        (conj Hsrc (conj (String.eqb_refl _) Hhas)))).
    lia.
  - intro Hin. unfold Client.handleDeleteTask. rewrite E.
    cbn [fst Client.tasks Client.projects]. rewrite !length_app.
    rewrite map_app in Hin. apply in_app_or in Hin.
    destruct Hin as [Hin|Hin].
    + apply in_map_iff in Hin. destruct Hin as (t & Hid & Ht).
      assert (Hf : negb (Task.id t =? taskId)%string = false)
        by now rewrite Hid, String.eqb_refl.
      assert (Hlt := filter_shorter
                       (fun t => negb (Task.id t =? taskId)%string)
                       _ t Ht Hf).
      lia.
    + destruct (hasTask_of_view today taskId _ Hin) as (q & Hq & Hh).
      rewrite (List.find_none _ _ E q Hq) in Hh. discriminate.
Qed.

(** With distinct ids in the master list, one id is held by one project
    at most. *)
Lemma hasTask_unique (today : string) (taskId : string)
      (ps : list InternalProject.t) :
  NoDup (map Task.id
           (flat_map (fun p => map (Client.projectTaskView today p)
                                   (InternalProject.tasks p)) ps)) ->
  forall a b, In a ps -> In b ps ->
              Client.hasTask taskId a = true ->
              Client.hasTask taskId b = true -> a = b.
Proof.
  induction ps as [|c ps IH]; simpl; intros H a b Ha Hb Hta Htb;
    [contradiction|].
  rewrite map_app in H.
  assert (Hrest : forall q, In q ps -> Client.hasTask taskId q = true ->
                            In taskId
                               (map Task.id
                                  (flat_map (fun p => map (Client.projectTaskView today p)
                                                          (InternalProject.tasks p)) ps))).
  { intros q Hq Hh. apply in_map_iff.
    destruct (proj1 (in_map_iff _ _ _) (hasTask_views today taskId q Hh))
      as (t & Ht & Hin).
    exists t. split; [exact Ht|]. apply in_flat_map. now exists q. }
  destruct Ha as [->|Ha], Hb as [->|Hb].
  - reflexivity.
  - exfalso. apply (NoDup_app_disjoint _ _ H taskId).
    + now apply hasTask_views.
    + now apply (Hrest b).
  - exfalso. apply (NoDup_app_disjoint _ _ H taskId).
    + now apply hasTask_views.
    + now apply (Hrest a).
  - apply IH; try assumption. now apply NoDup_app_remove_l in H.
Qed.

(** X6. When the ids of the master list are distinct, deleting a task
    removes exactly the entry of that id from the master list, whichever
    kind of task it is, and nothing else changes. *)
Theorem handleDeleteTask_removes_the_task :
  forall (today : string) (taskId : string) (st : Client.AppState),
    NoDup (map Task.id (Client.masterTasksList today st)) ->
    Client.masterTasksList today (fst (Client.handleDeleteTask taskId st))
    = filter (fun t => negb (Task.id t =? taskId)%string)
             (Client.masterTasksList today st).
Proof.
  intros today taskId st Hnodup.
  rewrite <- master_after_delete. symmetry.
  unfold Client.masterTasksList in *. rewrite map_app in Hnodup.
  destruct (find (Client.hasTask taskId) (Client.projects st)) as [src|] eqn:E.
  - rewrite (handleDeleteTask_projects taskId st E).
    cbn [Client.tasks Client.projects].
    destruct (find_some _ _ E) as [Hsrc Hhas].
    rewrite filter_app. f_equal.
    + apply filter_all. intros t Ht.
      apply negb_true_iff, String.eqb_neq. intro Eid.
      apply (NoDup_app_disjoint _ _ Hnodup taskId).
      * rewrite <- Eid. now apply in_map.
      * apply in_map_iff.
        destruct (proj1 (in_map_iff _ _ _) (hasTask_views today taskId src Hhas))
          as (v & Hv & Hin).
        exists v. split; [exact Hv|]. apply in_flat_map. now exists src.
    + apply NoDup_app_remove_l in Hnodup.
      assert (Hone := hasTask_unique today taskId _ Hnodup).
      clear Hnodup E.
      induction (Client.projects st) as [|q ps IH]; simpl; [reflexivity|].
      rewrite filter_app. f_equal.
      * destruct (InternalProject.id q =? InternalProject.id src)%string eqn:Eq.
        -- cbn [InternalProject.tasks InternalProject.with_tasks].
           rewrite views_without, filter_filter_same. reflexivity.
        -- apply hasTask_false_views.
           destruct (Client.hasTask taskId q) eqn:Hq; [|reflexivity].
           rewrite (Hone q src (or_introl eq_refl) Hsrc Hq Hhas) in Eq.
           now rewrite String.eqb_refl in Eq.
      * destruct Hsrc as [->|Hsrc].
        -- clear IH. 
           assert (Hps : forall x, In x ps -> Client.hasTask taskId x = true -> x = src)
             by (intros x Hx Hh; apply Hone; [now right | now left | exact Hh | exact Hhas]).
           clear Hone.
           induction ps as [|x ps IH]; simpl; [reflexivity|].
           rewrite filter_app. f_equal.
           ++ destruct (InternalProject.id x =? InternalProject.id src)%string eqn:Ex.
              ** cbn [InternalProject.tasks InternalProject.with_tasks].
                 rewrite views_without, filter_filter_same. reflexivity.
              ** apply hasTask_false_views.
                 destruct (Client.hasTask taskId x) eqn:Hx; [|reflexivity].
                 rewrite (Hps x (or_introl eq_refl) Hx) in Ex.
                 now rewrite String.eqb_refl in Ex.
           ++ apply IH. intros y Hy. apply Hps. now right.
        -- apply IH; [exact Hsrc|].
           intros a b Ha Hb. apply Hone; now right.
  - unfold Client.handleDeleteTask. rewrite E.
    cbn [fst Client.tasks Client.projects].
    rewrite filter_app, filter_filter_same. f_equal.
    assert (Hnone : forall q, In q (Client.projects st) ->
                              Client.hasTask taskId q = false).
    { intros q Hq. exact (List.find_none _ _ E q Hq). }
    clear Hnodup E.
    induction (Client.projects st) as [|q ps IH]; simpl; [reflexivity|].
    rewrite filter_app. f_equal.
    + apply hasTask_false_views. apply Hnone. now left.
    + apply IH. intros x Hx. apply Hnone. now right.
Qed.

Lemma handleDeleteTask_removes_the_task_witness :
  Client.masterTasksList "2024-05-01"
    (fst (Client.handleDeleteTask "pt-2" sampleState))
  = filter (fun t => negb (Task.id t =? "pt-2")%string)
           (Client.masterTasksList "2024-05-01" sampleState).
Proof.
  apply (@handleDeleteTask_removes_the_task "2024-05-01" "pt-2" sampleState).
  repeat constructor; simpl; intuition discriminate.
Defined.

(** ** Deleting engagements and the detail view *)

Lemma includes_In (ids : list string) (id : string) :
  App.includes ids id = true <-> In id ids.
Proof.
  unfold App.includes. rewrite existsb_exists. split.
  - intros (x & Hx & E). apply String.eqb_eq in E. now subst.
  - intro H. exists id. split; [exact H | apply String.eqb_refl].
Qed.

(** X7. Confirming a deletion issues one [DELETE] per selected id, in
    order, closes the confirmation, and drops the selected engagements.
    The detail pane never shows a deleted engagement afterwards: it shows
    what it showed before when that engagement was not selected, and
    nothing when it was. *)
Theorem handleConfirmDelete_detail :
  forall (st : App.Shell) (ids : list string),
    App.itemsToDelete st = Some ids ->
    let st' := fst (App.handleConfirmDelete st) in
    snd (App.handleConfirmDelete st) = map App.deleteEngagementAPI ids
    /\ App.itemsToDelete st' = None
    /\ (forall e, In e (App.engagements st') <->
                  In e (App.engagements st) /\ ~ In (Engagement.id e) ids)
    /\ (forall e, App.detailShown st' = Some e ->
                  App.detailShown st = Some e /\ ~ In (Engagement.id e) ids)
    /\ (forall e, App.detailShown st = Some e ->
                  ~ In (Engagement.id e) ids ->
                  App.detailShown st' = Some e).
Proof.
  intros st ids Hids st'. unfold st', App.handleConfirmDelete. rewrite Hids.
  cbn [fst snd App.itemsToDelete App.engagements].
  split; [reflexivity|]. split; [reflexivity|]. split.
  { intro e. rewrite filter_In, negb_true_iff.
    rewrite <- (includes_In ids (Engagement.id e)).
    split; intros [H1 H2]; (split; [exact H1|]); [now rewrite H2 | ].
    now destruct (App.includes ids (Engagement.id e)). }
  unfold App.detailShown, App.currentEngagement.
  cbn [App.viewState App.engagements].
  destruct (App.viewState st) as [tab view target].
  cbn [ViewStateData.view ViewStateData.targetId ViewStateData.tab].
  set (t := JS.or_else target EmptyString).
  destruct (view =? "detail")%string eqn:Ev; cbn [andb].
  2:{ cbn [ViewStateData.view]. rewrite Ev. split; intros e H; discriminate. }
  destruct (JS.truthy target) eqn:Et; cbn [andb].
  2:{ cbn [ViewStateData.view ViewStateData.targetId]. rewrite Ev, Et.
      split; intros e H; discriminate. }
  destruct (App.includes ids t) eqn:Ei;
    cbn [ViewStateData.view ViewStateData.targetId].
  - change (("dashboard" =? "detail")%string) with false.
    split; intros e H; [discriminate|].
    intro Hnot. exfalso. apply Hnot.
    apply find_some in H. destruct H as [_ E].
    apply String.eqb_eq in E. rewrite E.
    now apply includes_In.
  - rewrite Ev, Et. fold t.
    assert (Hfind :
      find (fun e => (Engagement.id e =? t)%string)
           (filter (fun e => negb (App.includes ids (Engagement.id e)))
                   (App.engagements st))
      = find (fun e => (Engagement.id e =? t)%string) (App.engagements st)).
    { apply find_filter_keeps. intros x _ E.
      apply String.eqb_eq in E. now rewrite E, Ei. }
    rewrite Hfind. split; intros e H.
    + split; [exact H|]. apply find_some in H. destruct H as [_ E].
      apply String.eqb_eq in E. rewrite E.
      intro Hin. apply includes_In in Hin. congruence.
    + intros _. exact H.
Qed.

Lemma handleConfirmDelete_detail_witness :
  snd (App.handleConfirmDelete sampleShell)
  = [App.deleteEngagementAPI "e-1"; App.deleteEngagementAPI "e-3"]
  /\ App.itemsToDelete (fst (App.handleConfirmDelete sampleShell)) = None.
Proof.
  destruct (@handleConfirmDelete_detail sampleShell ["e-1"; "e-3"] eq_refl)
    as (Hcalls & Hclosed & _).
  split; [exact Hcalls | exact Hclosed].
Defined.

(** ** Rows and their owners *)

Ltac store_fields :=
  cbn [fst snd DB.users DB.engagements DB.tasks DB.projects DB.project_tasks
       DB.research_notes DB.highlights DB.ideas DB.calendar_events
       DB.useful_links DB.notes DB.settings].

Lemma col_eq_two_users (c : option string) (u v : string) :
  u <> v -> DB.col_eq c v = true -> DB.col_eq c u = false.
Proof.
  intros Hne H. destruct c as [s|]; [|discriminate]. simpl in *.
  apply String.eqb_eq in H. subst s. apply String.eqb_neq. congruence.
Qed.

Lemma filter_filter_implied {A : Type} (f g : A -> bool) (l : list A) :
  (forall x, In x l -> f x = true -> g x = true) ->
  filter f (filter g l) = filter f l.
Proof.
  induction l as [|x l IH]; simpl; intro H; [reflexivity|].
  destruct (f x) eqn:Ef.
  - rewrite (H x) by (now left || assumption). simpl. rewrite Ef.
    f_equal. apply IH. intros y Hy. apply H. now right.
  - destruct (g x); simpl; rewrite ?Ef; apply IH;
      intros y Hy; apply H; now right.
Qed.

Lemma filter_filter_swap {A : Type} (f g : A -> bool) (l : list A) :
  filter f (filter g l) = filter g (filter f l).
Proof.
  induction l as [|x l IH]; simpl; [reflexivity|].
  destruct (f x) eqn:Ef, (g x) eqn:Eg; simpl; rewrite ?Ef, ?Eg, IH; reflexivity.
Qed.

Section OwnedRows.

Variable Row : Type.
Variable key : Row -> string.
Variable owner : Row -> option string.

Lemma deleteOwned_other_user (u v id : string) (tbl : list Row) :
  u <> v ->
  filter (fun r => DB.col_eq (owner r) v) (Routes.deleteOwned key owner id u tbl)
  = filter (fun r => DB.col_eq (owner r) v) tbl.
Proof.
  intro Hne. unfold Routes.deleteOwned. apply filter_filter_implied.
  intros x _ Hx. unfold Routes.hit.
  now rewrite (col_eq_two_users _ Hne Hx), andb_false_r.
Qed.

Lemma deleteOwned_same_user (u id : string) (tbl : list Row) :
  filter (fun r => DB.col_eq (owner r) u) (Routes.deleteOwned key owner id u tbl)
  = filter (fun r => negb (key r =? id)%string)
           (filter (fun r => DB.col_eq (owner r) u) tbl).
Proof.
  unfold Routes.deleteOwned. rewrite filter_filter_swap.
  induction tbl as [|x tbl IH]; simpl; [reflexivity|].
  destruct (DB.col_eq (owner x) u) eqn:E; simpl; [|exact IH].
  unfold Routes.hit at 1. rewrite E, andb_true_r.
  destruct (key x =? id)%string; simpl; now rewrite IH.
Qed.

Lemma insertOrReplace_other_user (u v : string) (r : Row) (tbl : list Row) :
  owner r = Some u ->
  u <> v ->
  filter (fun x => DB.col_eq (owner x) v) (DB.insertOrReplace key r tbl)
  = filter (fun x => negb (key x =? key r)%string)
           (filter (fun x => DB.col_eq (owner x) v) tbl).
Proof.
  intros Hr Hne. unfold DB.insertOrReplace.
  rewrite filter_app. simpl. rewrite Hr. simpl.
  apply String.eqb_neq in Hne. rewrite Hne, app_nil_r.
  apply filter_filter_swap.
Qed.

Lemma insertOrReplace_twice (r : Row) (tbl : list Row) :
  DB.insertOrReplace key r (DB.insertOrReplace key r tbl)
  = DB.insertOrReplace key r tbl.
Proof.
  unfold DB.insertOrReplace.
  rewrite filter_app, filter_filter_same. simpl.
  now rewrite String.eqb_refl, app_nil_r.
Qed.

End OwnedRows.

Section Tenants.

Context {jsonSubtasks : JsonArray Subtask.t}.
Context {jsonTimeline : JsonArray TimelineEntry.t}.
Context {jsonFiles : JsonArray EngagementFile.t}.
Context {jsonTags : JsonArray string}.
Context {jsonEntries : JsonArray IdeaEntry.t}.

(** X8. A [DELETE] acts on the rows of the user who sends it only: whatever
    id user [u] deletes, every list that another user [v] reads is
    afterwards what it was, for the seven endpoints that delete from one
    table. *)
Theorem delete_leaves_other_users :
  forall (env : Env.t) (u v id : string) (d : DB.t),
    u <> v ->
    Server.get_engagements v (snd (Routes.delete_engagements u id d))
    = Server.get_engagements v d
    /\ Server.get_tasks v (snd (Routes.delete_tasks u id d))
       = Server.get_tasks v d
    /\ Server.get_highlights v (snd (Routes.delete_highlights u id d))
       = Server.get_highlights v d
    /\ Server.get_ideas env v (snd (Routes.delete_ideas u id d))
       = Server.get_ideas env v d
    /\ Server.get_calendar v (snd (Routes.delete_calendar u id d))
       = Server.get_calendar v d
    /\ Routes.get_links v (snd (Routes.delete_links u id d))
       = Routes.get_links v d
    /\ Server.get_notes v (snd (Routes.delete_notes u id d))
       = Server.get_notes v d.
Proof.
  intros env u v id d Hne.
  repeat split.
  - unfold Server.get_engagements, Routes.delete_engagements.
    cbn [snd DB.engagements DB.set_engagements].
    now rewrite deleteOwned_other_user.
  - unfold Server.get_tasks, Routes.delete_tasks.
    cbn [snd DB.tasks DB.set_tasks].
    now rewrite deleteOwned_other_user.
  - unfold Server.get_highlights, Routes.delete_highlights.
    cbn [snd DB.highlights DB.set_highlights].
    now rewrite deleteOwned_other_user.
  - unfold Server.get_ideas, Routes.delete_ideas.
    cbn [snd DB.ideas DB.set_ideas].
    now rewrite deleteOwned_other_user.
  - unfold Server.get_calendar, Routes.delete_calendar.
    cbn [snd DB.calendar_events DB.set_calendar_events].
    now rewrite deleteOwned_other_user.
  - unfold Routes.get_links, Routes.delete_links.
    cbn [snd DB.useful_links DB.set_useful_links].
    now rewrite deleteOwned_other_user.
  - unfold Server.get_notes, Routes.delete_notes.
    cbn [snd DB.notes DB.set_notes].
    now rewrite deleteOwned_other_user.
Qed.

(** X9. After a [DELETE] the list that the same user reads is the former
    list without the entries of the deleted id, in the former order, for
    the seven endpoints that delete from one table. *)
Theorem delete_then_list :
  forall (env : Env.t) (u id : string) (d : DB.t),
    (forall l, Server.get_engagements u d = Ok l ->
               Server.get_engagements u (snd (Routes.delete_engagements u id d))
               = Ok (filter (fun o => negb (EngagementRow.id (EngagementOut.row o)
                                            =? id)%string) l))
    /\ (forall l, Server.get_tasks u d = Ok l ->
                  Server.get_tasks u (snd (Routes.delete_tasks u id d))
                  = Ok (filter (fun o => negb (TaskRow.id (TaskOut.row o)
                                               =? id)%string) l))
    /\ (forall l, Server.get_highlights u d = Ok l ->
                  Server.get_highlights u (snd (Routes.delete_highlights u id d))
                  = Ok (filter (fun o => negb (HighlightRow.id (HighlightOut.row o)
                                               =? id)%string) l))
    /\ (forall l, Server.get_ideas env u d = Ok l ->
                  Server.get_ideas env u (snd (Routes.delete_ideas u id d))
                  = Ok (filter (fun o => negb (IdeaRow.id (IdeaOut.row o)
                                               =? id)%string) l))
    /\ (forall l, Server.get_calendar u d = Ok l ->
                  Server.get_calendar u (snd (Routes.delete_calendar u id d))
                  = Ok (filter (fun o => negb (CalendarEventRow.id
                                                 (CalendarEventOut.row o)
                                               =? id)%string) l))
    /\ (forall l, Routes.get_links u d = Ok l ->
                  Routes.get_links u (snd (Routes.delete_links u id d))
                  = Ok (filter (fun r => negb (UsefulLinkRow.id r =? id)%string) l))
    /\ (forall l, Server.get_notes u d = Ok l ->
                  Server.get_notes u (snd (Routes.delete_notes u id d))
                  = Ok (filter (fun o => negb (NoteRow.id (NoteOut.row o)
                                               =? id)%string) l)).
Proof.
  intros env u id d.
  repeat split; intros l.
  - unfold Server.get_engagements, Routes.delete_engagements.
    cbn [snd DB.engagements DB.set_engagements].
    rewrite deleteOwned_same_user.
    destruct (mapThrowing Server.formatEngagement
                (filter _ (DB.engagements d))) as [outs|] eqn:E; [|discriminate].
    intros [= <-].
    now rewrite (@mapThrowing_filter _ _ Server.formatEngagement
                   EngagementOut.row formatEngagement_row
                   (fun r => negb (EngagementRow.id r =? id)%string) _ outs E).
  - unfold Server.get_tasks, Routes.delete_tasks.
    cbn [snd DB.tasks DB.set_tasks].
    rewrite deleteOwned_same_user.
    destruct (mapThrowing Server.formatTask
                (filter _ (DB.tasks d))) as [outs|] eqn:E; [|discriminate].
    intros [= <-].
    now rewrite (@mapThrowing_filter _ _ Server.formatTask
                   TaskOut.row formatTask_row
                   (fun r => negb (TaskRow.id r =? id)%string) _ outs E).
  - unfold Server.get_highlights, Routes.delete_highlights.
    cbn [snd DB.highlights DB.set_highlights].
    rewrite deleteOwned_same_user. intros [= <-]. f_equal.
    now apply (map_filter_row _ HighlightOut.row).
  - unfold Server.get_ideas, Routes.delete_ideas.
    cbn [snd DB.ideas DB.set_ideas].
    rewrite deleteOwned_same_user. intros [= <-]. f_equal.
    now apply (map_filter_row _ IdeaOut.row).
  - unfold Server.get_calendar, Routes.delete_calendar.
    cbn [snd DB.calendar_events DB.set_calendar_events].
    rewrite deleteOwned_same_user. intros [= <-]. f_equal.
    now apply (map_filter_row _ CalendarEventOut.row).
  - unfold Routes.get_links, Routes.delete_links.
    cbn [snd DB.useful_links DB.set_useful_links].
    rewrite deleteOwned_same_user. now intros [= <-].
  - unfold Server.get_notes, Routes.delete_notes.
    cbn [snd DB.notes DB.set_notes].
    rewrite deleteOwned_same_user.
    destruct (mapThrowing Server.formatNote
                (filter _ (DB.notes d))) as [outs|] eqn:E; [|discriminate].
    intros [= <-].
    now rewrite (@mapThrowing_filter _ _ Server.formatNote
                   NoteOut.row formatNote_row
                   (fun r => negb (NoteRow.id r =? id)%string) _ outs E).
Qed.

(** X10. The upsert is keyed by the id alone.  When user [u] saves an
    object, the list that another user [v] reads never gains an entry, and
    it loses the entry of that id if [v] had one: the row changes owner.
    This holds for the seven endpoints that upsert into one table. *)
Theorem post_takes_over_the_id :
  forall (env : Env.t) (u v : string) (d : DB.t)
         (e : Engagement.t) (t : Task.t) (h : Highlight.t) (i : Idea.t)
         (c : CalendarEvent.t) (k : UsefulLink.t) (n : Note.t),
    u <> v ->
    (forall l, Server.get_engagements v d = Ok l ->
               Server.get_engagements v (snd (Server.post_engagements u e d))
               = Ok (filter (fun o => negb (EngagementRow.id (EngagementOut.row o)
                                            =? Engagement.id e)%string) l))
    /\ (forall l, Server.get_tasks v d = Ok l ->
                  Server.get_tasks v (snd (Server.post_tasks u t d))
                  = Ok (filter (fun o => negb (TaskRow.id (TaskOut.row o)
                                               =? Task.id t)%string) l))
    /\ (forall l, Server.get_highlights v d = Ok l ->
                  Server.get_highlights v (snd (Server.post_highlights u h d))
                  = Ok (filter (fun o => negb (HighlightRow.id (HighlightOut.row o)
                                               =? Highlight.id h)%string) l))
    /\ (forall l, Server.get_ideas env v d = Ok l ->
                  Server.get_ideas env v (snd (Server.post_ideas u i d))
                  = Ok (filter (fun o => negb (IdeaRow.id (IdeaOut.row o)
                                               =? Idea.id i)%string) l))
    /\ (forall l, Server.get_calendar v d = Ok l ->
                  Server.get_calendar v (snd (Server.post_calendar u c d))
                  = Ok (filter (fun o => negb (CalendarEventRow.id
                                                 (CalendarEventOut.row o)
                                               =? CalendarEvent.id c)%string) l))
    /\ (forall l, Routes.get_links v d = Ok l ->
                  Routes.get_links v (snd (Routes.post_links u k d))
                  = Ok (filter (fun r => negb (UsefulLinkRow.id r
                                               =? UsefulLink.id k)%string) l))
    /\ (forall l, Server.get_notes v d = Ok l ->
                  Server.get_notes v (snd (Server.post_notes u n d))
                  = Ok (filter (fun o => negb (NoteRow.id (NoteOut.row o)
                                               =? Note.id n)%string) l)).
Proof.
  intros env u v d e t h i c k n Hne.
  repeat split; intros l.
  - unfold Server.get_engagements, Server.post_engagements.
    cbn [snd DB.engagements DB.set_engagements].
    rewrite (@insertOrReplace_other_user _ EngagementRow.id EngagementRow.userId
               u v (Server.engagementRow u e) _ eq_refl Hne).
    destruct (mapThrowing Server.formatEngagement
                (filter _ (DB.engagements d))) as [outs|] eqn:E; [|discriminate].
    intros [= <-].
    now rewrite (@mapThrowing_filter _ _ Server.formatEngagement
                   EngagementOut.row formatEngagement_row
                   (fun r => negb (EngagementRow.id r
                                    =? EngagementRow.id (Server.engagementRow u e))%string)
                   _ outs E).
  - unfold Server.get_tasks, Server.post_tasks.
    cbn [snd DB.tasks DB.set_tasks].
    rewrite (@insertOrReplace_other_user _ TaskRow.id TaskRow.userId
               u v (Server.taskRow u t) _ eq_refl Hne).
    destruct (mapThrowing Server.formatTask
                (filter _ (DB.tasks d))) as [outs|] eqn:E; [|discriminate].
    intros [= <-].
    now rewrite (@mapThrowing_filter _ _ Server.formatTask
                   TaskOut.row formatTask_row
                   (fun r => negb (TaskRow.id r =? TaskRow.id (Server.taskRow u t))%string) _ outs E).
  - unfold Server.get_highlights, Server.post_highlights.
    cbn [snd DB.highlights DB.set_highlights].
    rewrite (@insertOrReplace_other_user _ HighlightRow.id HighlightRow.userId
               u v (Server.highlightRow u h) _ eq_refl Hne).
    intros [= <-]. f_equal.
    now apply (map_filter_row _ HighlightOut.row).
  - unfold Server.get_ideas, Server.post_ideas.
    cbn [snd DB.ideas DB.set_ideas].
    rewrite (@insertOrReplace_other_user _ IdeaRow.id IdeaRow.userId
               u v (Server.ideaRow u i) _ eq_refl Hne).
    intros [= <-]. f_equal.
    now apply (map_filter_row _ IdeaOut.row).
  - unfold Server.get_calendar, Server.post_calendar.
    cbn [snd DB.calendar_events DB.set_calendar_events].
    rewrite (@insertOrReplace_other_user _ CalendarEventRow.id
               CalendarEventRow.userId u v (Server.calendarEventRow u c) _ eq_refl Hne).
    intros [= <-]. f_equal.
    now apply (map_filter_row _ CalendarEventOut.row).
  - unfold Routes.get_links, Routes.post_links.
    cbn [snd DB.useful_links DB.set_useful_links].
    rewrite (@insertOrReplace_other_user _ UsefulLinkRow.id UsefulLinkRow.userId
               u v (Routes.usefulLinkRow u k) _ eq_refl Hne).
    now intros [= <-].
  - unfold Server.get_notes, Server.post_notes.
    cbn [snd DB.notes DB.set_notes].
    rewrite (@insertOrReplace_other_user _ NoteRow.id NoteRow.userId
               u v (Server.noteRow u n) _ eq_refl Hne).
    destruct (mapThrowing Server.formatNote
                (filter _ (DB.notes d))) as [outs|] eqn:E; [|discriminate].
    intros [= <-].
    now rewrite (@mapThrowing_filter _ _ Server.formatNote
                   NoteOut.row formatNote_row
                   (fun r => negb (NoteRow.id r =? NoteRow.id (Server.noteRow u n))%string) _ outs E).
Qed.

(** X11. The whole-object upsert is idempotent: replaying a save leaves
    the store exactly as the first save left it, for the seven endpoints
    that upsert into one table. *)
Theorem post_twice_same_store :
  forall (u : string) (d : DB.t)
         (e : Engagement.t) (t : Task.t) (h : Highlight.t) (i : Idea.t)
         (c : CalendarEvent.t) (k : UsefulLink.t) (n : Note.t),
    snd (Server.post_engagements u e (snd (Server.post_engagements u e d)))
    = snd (Server.post_engagements u e d)
    /\ snd (Server.post_tasks u t (snd (Server.post_tasks u t d)))
       = snd (Server.post_tasks u t d)
    /\ snd (Server.post_highlights u h (snd (Server.post_highlights u h d)))
       = snd (Server.post_highlights u h d)
    /\ snd (Server.post_ideas u i (snd (Server.post_ideas u i d)))
       = snd (Server.post_ideas u i d)
    /\ snd (Server.post_calendar u c (snd (Server.post_calendar u c d)))
       = snd (Server.post_calendar u c d)
    /\ snd (Routes.post_links u k (snd (Routes.post_links u k d)))
       = snd (Routes.post_links u k d)
    /\ snd (Server.post_notes u n (snd (Server.post_notes u n d)))
       = snd (Server.post_notes u n d).
Proof.
  intros u d e t h i c k n.
  unfold Server.post_engagements, Server.post_tasks, Server.post_highlights,
    Server.post_ideas, Server.post_calendar, Routes.post_links,
    Server.post_notes, DB.set_engagements, DB.set_tasks, DB.set_highlights,
    DB.set_ideas, DB.set_calendar_events, DB.set_useful_links, DB.set_notes.
  store_fields.
  now rewrite !insertOrReplace_twice.
Qed.

End Tenants.

Lemma delete_leaves_other_users_witness :
  Server.get_tasks "user-2" (snd (Routes.delete_tasks "user-1" "task-2" tenantStore))
  = Server.get_tasks "user-2" tenantStore.
Proof.
  destruct (@delete_leaves_other_users jsonSubtasks jsonTimeline jsonFiles
              jsonTags jsonEntries sampleEnv "user-1" "user-2" "task-2"
              tenantStore ltac:(discriminate)) as (_ & H & _).
  exact H.
Defined.

Lemma post_takes_over_the_id_witness :
  Server.get_tasks "user-1"
    (snd (Server.post_tasks "user-2" (sampleTask "task-1" "Taken over" true None)
                            tenantStore))
  = Ok [].
Proof.
  destruct (@post_takes_over_the_id jsonSubtasks jsonTimeline jsonFiles
              jsonTags jsonEntries sampleEnv "user-2" "user-1" tenantStore
              (sampleEngagement "e-1" "Cloud migration")
              (sampleTask "task-1" "Taken over" true None)
              (Highlight.mk "h-1" "Shipped" "High" "2024-01-01" false None
                            "2024-01-01T00:00:00.000Z")
              (Idea.mk "i-1" "Idea" None None "General" "Low" "New"
                       "2024-01-01T00:00:00.000Z" None None None None None None)
              (CalendarEvent.mk "c-1" "Sync" None "2024-01-01" "09:00" "10:00"
                                "meeting" None None)
              (UsefulLink.mk "l-1" "Docs" "https://example.org" "Docs" None
                             "2024-01-01T00:00:00.000Z")
              (Note.mk "n-1" "Note" "Text" None "2024-01-01T00:00:00.000Z"
                       "2024-01-01T00:00:00.000Z")
              ltac:(discriminate)) as (_ & H & _).
  exact (H _ eq_refl).
Defined.

(** ** The project aggregate: replaying, deleting, other users *)

Section ChildTables.

Variables (Row Child : Type).
Variable key : Row -> string.
Variable parent : Row -> option string.
Variable mk : Child -> Row.
Variable pid : string.

Hypothesis mk_parent : forall c, parent (mk c) = Some pid.

(** The batch of [INSERT]s only appends rows of the project. *)
Lemma fold_insert_appends (cs : list Child) :
  forall tbl,
    exists extra,
      fold_left (fun tbl c => DB.insertIgnoringError key tbl (mk c)) cs tbl
      = tbl ++ extra
      /\ Forall (fun r => parent r = Some pid) extra.
Proof.
  induction cs as [|c cs IH]; intro tbl; simpl.
  - exists []. split; [now rewrite app_nil_r | constructor].
  - unfold DB.insertIgnoringError at 2, DB.insert.
    destruct (existsb _ tbl).
    + apply IH.
    + destruct (IH (tbl ++ [mk c])) as (extra & E & Hall).
      exists (mk c :: extra). split.
      * rewrite E, <- app_assoc. reflexivity.
      * constructor; [apply mk_parent | exact Hall].
Qed.

Lemma filter_other_parent (qid : string) (extra : list Row) :
  qid <> pid ->
  Forall (fun r => parent r = Some pid) extra ->
  filter (fun r => DB.col_eq (parent r) qid) extra = [].
Proof.
  intros Hne Hall. induction Hall as [|r extra Hr _ IH]; simpl; [reflexivity|].
  rewrite Hr. simpl. apply String.eqb_neq in Hne.
  rewrite String.eqb_sym, Hne. exact IH.
Qed.

Lemma filter_not_parent (extra : list Row) :
  Forall (fun r => parent r = Some pid) extra ->
  filter (fun r => negb (DB.col_eq (parent r) pid)) extra = [].
Proof.
  intro Hall. induction Hall as [|r extra Hr _ IH]; simpl; [reflexivity|].
  rewrite Hr. simpl. now rewrite String.eqb_refl.
Qed.

(** Deleting the children of the project after the batch gives what
    deleting them before it gives. *)
Lemma delete_after_insert (tbl : list Row) (cs : list Child) :
  filter (fun r => negb (DB.col_eq (parent r) pid))
    (fold_left (fun tbl c => DB.insertIgnoringError key tbl (mk c)) cs
               (filter (fun r => negb (DB.col_eq (parent r) pid)) tbl))
  = filter (fun r => negb (DB.col_eq (parent r) pid)) tbl.
Proof.
  destruct (fold_insert_appends cs
              (filter (fun r => negb (DB.col_eq (parent r) pid)) tbl))
    as (extra & -> & Hall).
  now rewrite filter_app, filter_filter_same, (filter_not_parent Hall), app_nil_r.
Qed.

(** The children of another project are not touched by the delete and the
    batch. *)
Lemma children_of_other_project (qid : string) (tbl : list Row)
      (cs : list Child) :
  qid <> pid ->
  filter (fun r => DB.col_eq (parent r) qid)
    (fold_left (fun tbl c => DB.insertIgnoringError key tbl (mk c)) cs
               (filter (fun r => negb (DB.col_eq (parent r) pid)) tbl))
  = filter (fun r => DB.col_eq (parent r) qid) tbl.
Proof.
  intro Hne.
  destruct (fold_insert_appends cs
              (filter (fun r => negb (DB.col_eq (parent r) pid)) tbl))
    as (extra & -> & Hall).
  rewrite filter_app, (filter_other_parent Hne Hall), app_nil_r.
  apply filter_filter_implied. intros x _ Hx.
  destruct (parent x) as [s|]; [|discriminate]. simpl in *.
  apply String.eqb_eq in Hx. subst s.
  apply negb_true_iff, String.eqb_neq. exact Hne.
Qed.

End ChildTables.

Lemma children_kept_by_delete {Row : Type} (parent : Row -> option string)
      (qid id : string) (tbl : list Row) :
  qid <> id ->
  filter (fun r => DB.col_eq (parent r) qid)
         (filter (fun r => negb (DB.col_eq (parent r) id)) tbl)
  = filter (fun r => DB.col_eq (parent r) qid) tbl.
Proof.
  intro Hne. apply filter_filter_implied. intros x _ Hx.
  destruct (parent x) as [s|]; [|discriminate]. simpl in *.
  apply String.eqb_eq in Hx. subst s.
  apply negb_true_iff, String.eqb_neq. exact Hne.
Qed.

Lemma get_projects_projectOut (userId : string) (d : DB.t) :
  Server.get_projects userId d
  = Ok (map (projectOut (DB.project_tasks d) (DB.research_notes d))
            (filter (fun p => DB.col_eq (ProjectRow.userId p) userId)
                    (DB.projects d))).
Proof. reflexivity. Qed.

(** Two stores whose child tables agree on the projects that are listed
    give the same list. *)
Lemma projectOut_ext (tasks tasks' : list ProjectTaskRow.t)
      (notes notes' : list ResearchNoteRow.t) (ps : list ProjectRow.t) :
  (forall p, In p ps ->
             filter (fun t => DB.col_eq (ProjectTaskRow.projectId t)
                                        (ProjectRow.id p)) tasks'
             = filter (fun t => DB.col_eq (ProjectTaskRow.projectId t)
                                          (ProjectRow.id p)) tasks) ->
  (forall p, In p ps ->
             filter (fun n => DB.col_eq (ResearchNoteRow.projectId n)
                                        (ProjectRow.id p)) notes'
             = filter (fun n => DB.col_eq (ResearchNoteRow.projectId n)
                                          (ProjectRow.id p)) notes) ->
  map (projectOut tasks' notes') ps = map (projectOut tasks notes) ps.
Proof.
  intros Ht Hn. apply map_ext_in. intros p Hp.
  unfold projectOut. now rewrite (Ht p Hp), (Hn p Hp).
Qed.

(** The store that [POST /api/projects] leaves, table by table. *)
Lemma post_projects_store (u : string) (p : InternalProject.t) (d : DB.t) :
  snd (Server.post_projects u p d)
  = {| DB.users := DB.users d;
       DB.engagements := DB.engagements d;
       DB.tasks := DB.tasks d;
       DB.projects :=
         DB.insertOrReplace ProjectRow.id (Server.projectRow u p) (DB.projects d);
       DB.project_tasks :=
         fold_left (fun tbl t =>
                      DB.insertIgnoringError ProjectTaskRow.id tbl
                        (Server.projectTaskRow (InternalProject.id p) t))
                   (InternalProject.tasks p)
                   (filter (fun t => negb (DB.col_eq (ProjectTaskRow.projectId t)
                                                     (InternalProject.id p)))
                           (DB.project_tasks d));
       DB.research_notes :=
         fold_left (fun tbl n =>
                      DB.insertIgnoringError ResearchNoteRow.id tbl
                        (Server.researchNoteRow (InternalProject.id p) n))
                   (InternalProject.researchNotes p)
                   (filter (fun n => negb (DB.col_eq (ResearchNoteRow.projectId n)
                                                     (InternalProject.id p)))
                           (DB.research_notes d));
       DB.highlights := DB.highlights d;
       DB.ideas := DB.ideas d;
       DB.calendar_events := DB.calendar_events d;
       DB.useful_links := DB.useful_links d;
       DB.notes := DB.notes d;
       DB.settings := DB.settings d |}.
Proof. reflexivity. Qed.

(** The store that a successful [DELETE /api/projects/:id] leaves. *)
Lemma delete_projects_store (u id : string) (d : DB.t) (p0 : ProjectRow.t) :
  find (Routes.hit ProjectRow.id ProjectRow.userId id u) (DB.projects d) = Some p0 ->
  Routes.delete_projects u id d
  = (Ok (Routes.changes ProjectRow.id ProjectRow.userId id u (DB.projects d)),
     {| DB.users := DB.users d;
        DB.engagements := DB.engagements d;
        DB.tasks := DB.tasks d;
        DB.projects :=
          Routes.deleteOwned ProjectRow.id ProjectRow.userId id u (DB.projects d);
        DB.project_tasks :=
          filter (fun t => negb (DB.col_eq (ProjectTaskRow.projectId t) id))
                 (DB.project_tasks d);
        DB.research_notes :=
          filter (fun n => negb (DB.col_eq (ResearchNoteRow.projectId n) id))
                 (DB.research_notes d);
        DB.highlights := DB.highlights d;
        DB.ideas := DB.ideas d;
        DB.calendar_events := DB.calendar_events d;
        DB.useful_links := DB.useful_links d;
        DB.notes := DB.notes d;
        DB.settings := DB.settings d |}).
Proof. intro H. unfold Routes.delete_projects. now rewrite H. Qed.

(** X12. Replaying the save of a project leaves the store exactly as the
    first save left it.  The project is one whose children can all be
    inserted: the submitted tasks have pairwise distinct ids, none of which
    is the id of a stored task of another project, and likewise for the
    research notes.  The first save then leaves the children of the other
    projects followed by every submitted child, and the second save, which
    deletes and inserts the same children, gives the same store. *)
Theorem post_projects_twice_same_store :
  forall (u : string) (p : InternalProject.t) (d : DB.t),
    let pid := InternalProject.id p in
    let d1 := snd (Server.post_projects u p d) in
    NoDup (map ProjectTask.id (InternalProject.tasks p)) ->
    NoDup (map ResearchNote.id (InternalProject.researchNotes p)) ->
    (forall r t, In r (DB.project_tasks d) -> In t (InternalProject.tasks p) ->
                 ProjectTaskRow.id r = ProjectTask.id t ->
                 ProjectTaskRow.projectId r = Some pid) ->
    (forall r n, In r (DB.research_notes d) ->
                 In n (InternalProject.researchNotes p) ->
                 ResearchNoteRow.id r = ResearchNote.id n ->
                 ResearchNoteRow.projectId r = Some pid) ->
    DB.project_tasks d1
    = filter (fun r => negb (DB.col_eq (ProjectTaskRow.projectId r) pid))
             (DB.project_tasks d)
      ++ map (Server.projectTaskRow pid) (InternalProject.tasks p)
    /\ DB.research_notes d1
       = filter (fun r => negb (DB.col_eq (ResearchNoteRow.projectId r) pid))
                (DB.research_notes d)
         ++ map (Server.researchNoteRow pid) (InternalProject.researchNotes p)
    /\ Server.post_projects u p d1 = (Ok "Project synced", d1).
Proof.
  intros u p d pid d1 Htasks Hnotes Hown_tasks Hown_notes.
  destruct (@delete_then_insert ProjectTaskRow.t ProjectTask.t
              ProjectTaskRow.id ProjectTaskRow.projectId
              (Server.projectTaskRow pid) pid (fun _ => eq_refl)
              (DB.project_tasks d) (InternalProject.tasks p))
    as [Ht _]; [exact Htasks | exact Hown_tasks |].
  destruct (@delete_then_insert ResearchNoteRow.t ResearchNote.t
              ResearchNoteRow.id ResearchNoteRow.projectId
              (Server.researchNoteRow pid) pid (fun _ => eq_refl)
              (DB.research_notes d) (InternalProject.researchNotes p))
    as [Hn _]; [exact Hnotes | exact Hown_notes |].
  split; [exact Ht|]. split; [exact Hn|].
  rewrite (surjective_pairing (Server.post_projects u p d1)).
  f_equal. unfold d1.
  rewrite (post_projects_store u p (snd _)).
  rewrite !post_projects_store. store_fields.
  rewrite insertOrReplace_twice.
  rewrite (@delete_after_insert _ _ ProjectTaskRow.id ProjectTaskRow.projectId
             (Server.projectTaskRow (InternalProject.id p))
             (InternalProject.id p) (fun c => eq_refl)).
  rewrite (@delete_after_insert _ _ ResearchNoteRow.id ResearchNoteRow.projectId
             (Server.researchNoteRow (InternalProject.id p))
             (InternalProject.id p) (fun c => eq_refl)).
  reflexivity.
Qed.

Lemma post_projects_twice_same_store_witness :
  Server.post_projects "user-1"
    (sampleProject "p-1" "Certification: AWS SA"
       [ProjectTask.mk "pt-2" "Take practice exam 1" true;
        ProjectTask.mk "pt-3" "Book the exam" false])
    (snd (Server.post_projects "user-1"
            (sampleProject "p-1" "Certification: AWS SA"
               [ProjectTask.mk "pt-2" "Take practice exam 1" true;
                ProjectTask.mk "pt-3" "Book the exam" false])
            projectStore))
  = (Ok "Project synced",
     snd (Server.post_projects "user-1"
            (sampleProject "p-1" "Certification: AWS SA"
               [ProjectTask.mk "pt-2" "Take practice exam 1" true;
                ProjectTask.mk "pt-3" "Book the exam" false])
            projectStore)).
Proof.
  refine (proj2 (proj2
    (@post_projects_twice_same_store "user-1"
       (sampleProject "p-1" "Certification: AWS SA"
          [ProjectTask.mk "pt-2" "Take practice exam 1" true;
           ProjectTask.mk "pt-3" "Book the exam" false])
       projectStore _ _ _ _))).
  - repeat constructor; simpl; intuition discriminate.
  - constructor.
  - intros r t [<-|[<-|[<-|[]]]] [<-|[<-|[]]] E;
      solve [reflexivity | discriminate E].
  - intros r n _ [].
Defined.

(** X13. Saving a project takes the id over.  When user [u] saves a
    project, the list that another user [v] reads loses the project of that
    id if [v] had one, and every other project of [v] is returned with the
    tasks and research notes it had. *)
Theorem post_projects_other_user :
  forall (u v : string) (p : InternalProject.t) (d : DB.t),
    u <> v ->
    forall l,
      Server.get_projects v d = Ok l ->
      Server.get_projects v (snd (Server.post_projects u p d))
      = Ok (filter (fun o => negb (ProjectRow.id (ProjectOut.row o)
                                   =? InternalProject.id p)%string) l).
Proof.
  intros u v p d Hne l. rewrite !get_projects_projectOut.
  intros [= <-]. f_equal.
  rewrite post_projects_store. store_fields.
  rewrite (@insertOrReplace_other_user _ ProjectRow.id ProjectRow.userId
             u v (Server.projectRow u p) _ eq_refl Hne).
  change (ProjectRow.id (Server.projectRow u p)) with (InternalProject.id p).
  rewrite <- (map_filter_row (projectOut (DB.project_tasks d) (DB.research_notes d))
                ProjectOut.row
                (fun r => negb (ProjectRow.id r =? InternalProject.id p)%string))
    by reflexivity.
  apply projectOut_ext; intros q Hq; apply filter_In in Hq;
    destruct Hq as [_ Hq]; apply negb_true_iff, String.eqb_neq in Hq.
  - exact (@children_of_other_project _ _ ProjectTaskRow.id
             ProjectTaskRow.projectId
             (Server.projectTaskRow (InternalProject.id p))
             (InternalProject.id p) (fun c => eq_refl) (ProjectRow.id q)
             (DB.project_tasks d) (InternalProject.tasks p) Hq).
  - exact (@children_of_other_project _ _ ResearchNoteRow.id
             ResearchNoteRow.projectId
             (Server.researchNoteRow (InternalProject.id p))
             (InternalProject.id p) (fun c => eq_refl) (ProjectRow.id q)
             (DB.research_notes d) (InternalProject.researchNotes p) Hq).
Qed.

Lemma post_projects_other_user_witness :
  Server.get_projects "user-1"
    (snd (Server.post_projects "user-2" (sampleProject "p-1" "Mine now" [])
                               projectStore))
  = Ok [projectOut (DB.project_tasks projectStore)
                   (DB.research_notes projectStore)
                   (sampleProjectRow "p-2" "Internal Dev Tools" None)].
Proof.
  exact (@post_projects_other_user "user-2" "user-1"
           (sampleProject "p-1" "Mine now" []) projectStore
           ltac:(discriminate) _ eq_refl).
Defined.

Lemma owner_hit (id u : string) (p : ProjectRow.t) :
  Routes.hit ProjectRow.id ProjectRow.userId id u p = true ->
  ProjectRow.id p = id /\ ProjectRow.userId p = Some u.
Proof.
  unfold Routes.hit. intro H. apply andb_true_iff in H. destruct H as [H1 H2].
  apply String.eqb_eq in H1. split; [exact H1|].
  destruct (ProjectRow.userId p) as [s|]; [|discriminate].
  simpl in H2. apply String.eqb_eq in H2. now subst.
Qed.

(** X14. A user cannot delete the project of another user, nor its
    children.  With project ids distinct, as the primary key has them,
    whatever id user [u] asks to delete, found or not, the projects that
    another user [v] reads are afterwards what they were, tasks and research
    notes included. *)
Theorem delete_projects_leaves_other_users :
  forall (u v id : string) (d : DB.t),
    NoDup (map ProjectRow.id (DB.projects d)) ->
    u <> v ->
    Server.get_projects v (snd (Routes.delete_projects u id d))
    = Server.get_projects v d.
Proof.
  intros u v id d Hnodup Hne.
  destruct (find (Routes.hit ProjectRow.id ProjectRow.userId id u)
                 (DB.projects d)) as [p0|] eqn:E;
    [|unfold Routes.delete_projects; now rewrite E].
  destruct (find_some _ _ E) as [Hin Hhit].
  destruct (owner_hit _ _ _ Hhit) as [Hid Hown].
  rewrite (delete_projects_store u id d E).
  rewrite !get_projects_projectOut. f_equal. store_fields.
  rewrite deleteOwned_other_user by exact Hne.
  apply projectOut_ext; intros q Hq; apply filter_In in Hq;
    destruct Hq as [Hq Hv];
    (assert (Hqid : ProjectRow.id q <> id);
     [ intro Eq; rewrite <- Hid in Eq;
       rewrite (NoDup_map_eq _ _ Hnodup q p0 Hq Hin Eq), Hown in Hv;
       simpl in Hv; apply String.eqb_eq in Hv; congruence
     | now apply children_kept_by_delete ]).
Qed.

Lemma delete_projects_leaves_other_users_witness :
  Server.get_projects "user-1" (snd (Routes.delete_projects "user-2" "p-1" projectStore))
  = Server.get_projects "user-1" projectStore.
Proof.
  apply (@delete_projects_leaves_other_users "user-2" "user-1" "p-1" projectStore).
  - repeat constructor; simpl; intuition discriminate.
  - discriminate.
Defined.

(** X15. Deleting an own project removes the whole aggregate.  When the
    project of that id belongs to the user (project ids being distinct),
    the response reports one deleted row, no task or research note of the
    project is left in the store, and the user's list is the former list
    without that project, the other projects keeping their children. *)
Theorem delete_projects_removes_aggregate :
  forall (u id : string) (d : DB.t) (p : ProjectRow.t),
    NoDup (map ProjectRow.id (DB.projects d)) ->
    In p (DB.projects d) ->
    ProjectRow.id p = id ->
    ProjectRow.userId p = Some u ->
    let d' := snd (Routes.delete_projects u id d) in
    fst (Routes.delete_projects u id d) = Ok 1
    /\ filter (fun t => DB.col_eq (ProjectTaskRow.projectId t) id)
              (DB.project_tasks d') = []
    /\ filter (fun n => DB.col_eq (ResearchNoteRow.projectId n) id)
              (DB.research_notes d') = []
    /\ forall l,
         Server.get_projects u d = Ok l ->
         Server.get_projects u d'
         = Ok (filter (fun o => negb (ProjectRow.id (ProjectOut.row o) =? id)%string) l).
Proof.
  intros u id d p Hnodup Hin Hid Hown d'.
  assert (Hhit : Routes.hit ProjectRow.id ProjectRow.userId id u p = true).
  { unfold Routes.hit. rewrite Hid, Hown, String.eqb_refl. apply col_eq_refl. }
  assert (Hfind : exists p0, find (Routes.hit ProjectRow.id ProjectRow.userId id u)
                                  (DB.projects d) = Some p0).
  { destruct (find _ (DB.projects d)) as [p0|] eqn:E; [now exists p0|].
    rewrite (List.find_none _ _ E p Hin) in Hhit. discriminate. }
  destruct Hfind as [p0 Hfind].
  unfold d'. rewrite (delete_projects_store u id d Hfind). store_fields.
  split; [|split; [|split]].
  - f_equal. unfold Routes.changes.
    destruct (in_split _ _ Hin) as (pre & post & E). rewrite E in Hnodup |- *.
    rewrite map_app in Hnodup. simpl in Hnodup.
    apply NoDup_remove_2 in Hnodup.
    assert (Hother : forall l, (forall q, In q l -> ProjectRow.id q <> id) ->
                               filter (Routes.hit ProjectRow.id ProjectRow.userId id u) l = []).
    { intros l Hl. induction l as [|q l IH]; simpl; [reflexivity|].
      unfold Routes.hit at 1.
      assert (Hq : (ProjectRow.id q =? id)%string = false)
        by (apply String.eqb_neq, Hl; now left).
      rewrite Hq. simpl. apply IH. intros x Hx. apply Hl. now right. }
    rewrite filter_app. simpl. rewrite Hhit.
    rewrite !Hother; [reflexivity | |];
      intros q Hq Eq; apply Hnodup; rewrite Hid, <- Eq;
      apply in_or_app; [right|left]; now apply in_map.
  - apply filter_children_deleted.
  - apply filter_children_deleted.
  - intro l. rewrite get_projects_projectOut. intros [= <-].
    rewrite get_projects_projectOut. f_equal. store_fields.
    rewrite deleteOwned_same_user.
    rewrite <- (map_filter_row (projectOut (DB.project_tasks d) (DB.research_notes d))
                  ProjectOut.row
                  (fun r => negb (ProjectRow.id r =? id)%string))
      by reflexivity.
    apply projectOut_ext; intros q Hq; apply filter_In in Hq;
      destruct Hq as [_ Hq]; apply negb_true_iff, String.eqb_neq in Hq;
      now apply children_kept_by_delete.
Qed.

Lemma delete_projects_removes_aggregate_witness :
  fst (Routes.delete_projects "user-1" "p-1" projectStore) = Ok 1
  /\ DB.project_tasks (snd (Routes.delete_projects "user-1" "p-1" projectStore))
     = [ProjectTaskRow.mk "pt-4" (Some "p-2") "Survey team" (Some 0%Z)].
Proof.
  destruct (@delete_projects_removes_aggregate "user-1" "p-1" projectStore
              (sampleProjectRow "p-1" "Certification: AWS SA" None))
    as (Hres & _).
  - repeat constructor; simpl; intuition discriminate.
  - left. reflexivity.
  - reflexivity.
  - reflexivity.
  - split; [exact Hres | reflexivity].
Defined.

(** X16. Saving a new project and then deleting it restores the store.
    When no project and no child row of the store carries the id of [p],
    [POST /api/projects] of [p] followed by [DELETE /api/projects/:id] by
    the same user reports one deleted row and leaves the store exactly as
    it was before the save. *)
Theorem post_then_delete_project :
  forall (u : string) (p : InternalProject.t) (d : DB.t),
    let pid := InternalProject.id p in
    (forall q, In q (DB.projects d) -> ProjectRow.id q <> pid) ->
    (forall t, In t (DB.project_tasks d) -> ProjectTaskRow.projectId t <> Some pid) ->
    (forall n, In n (DB.research_notes d) -> ResearchNoteRow.projectId n <> Some pid) ->
    Routes.delete_projects u pid (snd (Server.post_projects u p d)) = (Ok 1, d).
Proof.
  intros u p d pid Hp Ht Hn.
  assert (Hkeep : forall (Row : Type) (key : Row -> string) (l : list Row),
             (forall q, In q l -> key q <> pid) ->
             filter (fun x => negb (key x =? pid)%string) l = l).
  { intros Row key l H. apply filter_all. intros x Hx.
    apply negb_true_iff, String.eqb_neq. now apply H. }
  assert (Hkeepc : forall (Row : Type) (parent : Row -> option string) (l : list Row),
             (forall q, In q l -> parent q <> Some pid) ->
             filter (fun x => negb (DB.col_eq (parent x) pid)) l = l).
  { intros Row parent l H. apply filter_all. intros x Hx.
    apply negb_true_iff. specialize (H x Hx).
    destruct (parent x) as [s|]; [|reflexivity]. simpl.
    apply String.eqb_neq. congruence. }
  assert (Hmiss : forall q, In q (DB.projects d) ->
             Routes.hit ProjectRow.id ProjectRow.userId pid u q = false).
  { intros q Hq. unfold Routes.hit.
    assert (Hq' : (ProjectRow.id q =? pid)%string = false)
      by (apply String.eqb_neq, Hp, Hq).
    now rewrite Hq'. }
  assert (Hcount : filter (Routes.hit ProjectRow.id ProjectRow.userId pid u)
                          (DB.projects d) = [])
    by (now apply filter_none).
  assert (Hdel : Routes.deleteOwned ProjectRow.id ProjectRow.userId pid u
                                    (DB.projects d) = DB.projects d).
  { apply filter_all. intros q Hq. now rewrite (Hmiss q Hq). }
  assert (Hhit : Routes.hit ProjectRow.id ProjectRow.userId pid u
                            (Server.projectRow u p) = true).
  { unfold Routes.hit. cbn [ProjectRow.id ProjectRow.userId Server.projectRow].
    fold pid. rewrite String.eqb_refl. apply col_eq_refl. }
  assert (Hprojects :
    DB.projects (snd (Server.post_projects u p d))
    = DB.projects d ++ [Server.projectRow u p]).
  { rewrite post_projects_store. store_fields. unfold DB.insertOrReplace.
    change (ProjectRow.id (Server.projectRow u p)) with pid.
    now rewrite (Hkeep _ ProjectRow.id _ Hp). }
  assert (Hfind :
    find (Routes.hit ProjectRow.id ProjectRow.userId pid u)
         (DB.projects (snd (Server.post_projects u p d)))
    = Some (Server.projectRow u p)).
  { rewrite Hprojects. now apply find_first. }
  rewrite (delete_projects_store u pid _ Hfind).
  rewrite Hprojects. rewrite post_projects_store. store_fields. fold pid.
  unfold Routes.changes, Routes.deleteOwned.
  rewrite !filter_app. simpl filter at 2 4. rewrite Hhit. simpl.
  rewrite Hcount. fold (Routes.deleteOwned ProjectRow.id ProjectRow.userId pid u
                          (DB.projects d)).
  rewrite Hdel, app_nil_r.
  rewrite (@delete_after_insert _ _ ProjectTaskRow.id ProjectTaskRow.projectId
             (Server.projectTaskRow pid) pid (fun c => eq_refl)).
  rewrite (@delete_after_insert _ _ ResearchNoteRow.id ResearchNoteRow.projectId
             (Server.researchNoteRow pid) pid (fun c => eq_refl)).
  rewrite (Hkeepc _ ProjectTaskRow.projectId _ Ht).
  rewrite (Hkeepc _ ResearchNoteRow.projectId _ Hn).
  now destruct d.
Qed.

Lemma post_then_delete_project_witness :
  Routes.delete_projects "user-1" "p-3"
    (snd (Server.post_projects "user-1"
            (sampleProject "p-3" "Onboarding"
               [ProjectTask.mk "pt-7" "Write guide" false]) projectStore))
  = (Ok 1, projectStore).
Proof.
  apply (@post_then_delete_project "user-1"
           (sampleProject "p-3" "Onboarding"
              [ProjectTask.mk "pt-7" "Write guide" false]) projectStore).
  - intros q [<-|[<-|[]]]; discriminate.
  - intros t [<-|[<-|[<-|[]]]]; discriminate.
  - intros n [<-|[]]; discriminate.
Defined.

(** ** Authentication *)

Lemma split_free (sep : ascii) (s : string) :
  freeOf sep s -> Routes.split sep s = [s].
Proof.
  unfold freeOf. induction s as [|c s IH]; simpl; intro H; [reflexivity|].
  destruct (Ascii.eqb c sep) eqn:E.
  - apply Ascii.eqb_eq in E. exfalso. apply H. now left.
  - rewrite IH; [reflexivity|]. intro Hin. apply H. now right.
Qed.

Lemma split_first (sep : ascii) (a b : string) :
  freeOf sep a ->
  Routes.split sep (a ++ String sep b) = a :: Routes.split sep b.
Proof.
  unfold freeOf. induction a as [|c a IH]; simpl; intro H.
  - now rewrite Ascii.eqb_refl.
  - destruct (Ascii.eqb c sep) eqn:E.
    + apply Ascii.eqb_eq in E. exfalso. apply H. now left.
    + rewrite IH; [reflexivity|]. intro Hin. apply H. now right.
Qed.

Lemma Bearer_free : freeOf " "%char "Bearer".
Proof. unfold freeOf. simpl. intuition discriminate. Qed.

Lemma authMiddleware_Bearer (c : Crypto.t) (token rest : string) :
  nth_error (Routes.split " "%char ("Bearer " ++ token ++ rest)) 1 = Some token ->
  Routes.authMiddleware c (Some ("Bearer " ++ token ++ rest)%string)
  = match Crypto.verify c token with
    | Some userId => Routes.next userId
    | None => Routes.rejected 401 "Invalid token"
    end.
Proof.
  intro H. unfold Routes.authMiddleware.
  change (JS.truthy (Some ("Bearer " ++ token ++ rest)%string)) with true.
  change (JS.or_else (Some ("Bearer " ++ token ++ rest)%string) EmptyString)
    with ("Bearer " ++ token ++ rest)%string.
  assert (Hprefix : String.prefix "Bearer " ("Bearer " ++ token ++ rest) = true).
  { simpl. now destruct (token ++ rest)%string. }
  rewrite Hprefix. cbn [negb orb]. now rewrite H.
Qed.

Lemma authMiddleware_Bearer_token (c : Crypto.t) (token : string) :
  freeOf " "%char token ->
  Routes.authMiddleware c (Some ("Bearer " ++ token)%string)
  = match Crypto.verify c token with
    | Some userId => Routes.next userId
    | None => Routes.rejected 401 "Invalid token"
    end
  /\ forall junk,
       Routes.authMiddleware c (Some ("Bearer " ++ token ++ " " ++ junk)%string)
       = match Crypto.verify c token with
         | Some userId => Routes.next userId
         | None => Routes.rejected 401 "Invalid token"
         end.
Proof.
  intro Hfree. split.
  - rewrite <- (@authMiddleware_Bearer c token EmptyString).
    + f_equal. f_equal. f_equal. clear. induction token; simpl; congruence.
    + replace (token ++ EmptyString)%string with token
        by (clear; induction token; simpl; congruence).
      change ("Bearer " ++ token)%string with ("Bearer" ++ String " " token)%string.
      rewrite (split_first _ Bearer_free), (split_free Hfree). reflexivity.
  - intro junk. apply (@authMiddleware_Bearer c token (" " ++ junk)).
    change ("Bearer " ++ token ++ " " ++ junk)%string
      with ("Bearer" ++ String " " (token ++ String " " junk))%string.
    rewrite (split_first _ Bearer_free), (split_first _ Hfree). reflexivity.
Qed.

(** X17. The middleware reads the token between the first and the second
    space of the header and ignores what follows it.  A request without the
    header, or whose header does not start with [Bearer] and a space, is
    answered 401 [No token provided]; for a header [Bearer <token>],
    followed or not by a space and more text, the request is passed on with
    the user id that [jwt.verify] gives for the token, and answered 401
    [Invalid token] when it gives none. *)
Theorem authMiddleware_token_field :
  forall (c : Crypto.t) (token junk : string),
    freeOf " "%char token ->
    let outcome :=
      match Crypto.verify c token with
      | Some userId => Routes.next userId
      | None => Routes.rejected 401 "Invalid token"
      end in
    Routes.authMiddleware c (Some ("Bearer " ++ token)%string) = outcome
    /\ Routes.authMiddleware c (Some ("Bearer " ++ token ++ " " ++ junk)%string)
       = outcome
    /\ Routes.authMiddleware c None = Routes.rejected 401 "No token provided"
    /\ (forall header, String.prefix "Bearer " header = false ->
                       Routes.authMiddleware c (Some header)
                       = Routes.rejected 401 "No token provided").
Proof.
  intros c token junk Hfree outcome.
  destruct (authMiddleware_Bearer_token c Hfree) as [H1 H2].
  split; [exact H1|]. split; [exact (H2 junk)|]. split.
  - reflexivity.
  - intros header H. unfold Routes.authMiddleware.
    destruct (JS.truthy (Some header)) eqn:E; [|reflexivity].
    assert (Hor : JS.or_else (Some header) EmptyString = header).
    { unfold JS.truthy in E. unfold JS.or_else.
      destruct (header =? EmptyString)%string; [discriminate|reflexivity]. }
    now rewrite Hor, H.
Qed.

Lemma authMiddleware_token_field_witness :
  Routes.authMiddleware sampleCrypto
    (Some "Bearer eyJhbGciOiJIUzI1NiJ9.user-1 trailing text")
  = Routes.next "user-1".
Proof.
  refine (proj1 (proj2 (@authMiddleware_token_field sampleCrypto
                          "eyJhbGciOiJIUzI1NiJ9.user-1" "trailing text" _))).
  unfold freeOf. simpl. intuition discriminate.
Defined.

(** What a successful registration did. *)
Lemma register_success {caseMapping : CaseMapping}
      (env : Env.t) (body : RegisterBody.t) (d : DB.t) (message : string) :
  fst (Server.post_auth_register env body d) = Ok message ->
  exists email password name,
    body = {| RegisterBody.email := Some email;
              RegisterBody.password := Some password;
              RegisterBody.name := Some name |}
    /\ email <> EmptyString
    /\ password <> EmptyString
    /\ (forall u, In u (DB.users d) ->
                  (UserRow.email u =? toLowerCase email)%string = false)
    /\ 6 <= JS.length password
    /\ (forall u, In u (DB.users d) ->
                  (UserRow.id u
                   =? "user-" ++ Env.dateNow env ++ "-" ++ Env.randomId env)%string
                  = false)
    /\ snd (Server.post_auth_register env body d)
       = DB.set_users d
           (DB.users d
            ++ [ {| UserRow.id :=
                      ("user-" ++ Env.dateNow env ++ "-" ++ Env.randomId env)%string;
                    UserRow.email := toLowerCase email;
                    UserRow.passwordHash := Env.bcryptHash env password;
                    UserRow.name := name;
                    UserRow.createdAt := Env.isoNow env |} ]).
Proof.
  unfold Server.post_auth_register.
  destruct body as [[email|] [password|] [name|]];
    cbn [RegisterBody.email RegisterBody.password RegisterBody.name];
    try (unfold JS.truthy; cbn; rewrite ?orb_true_r; discriminate).
  destruct (JS.truthy (Some email)) eqn:Ee; [|discriminate].
  destruct (JS.truthy (Some password)) eqn:Ep; [|discriminate].
  destruct (JS.truthy (Some name)) eqn:En; [|discriminate].
  cbn [negb orb].
  assert (Hne : forall s, JS.truthy (Some s) = true ->
                          s <> EmptyString /\ JS.or_else (Some s) EmptyString = s).
  { intros s H. unfold JS.truthy in H. unfold JS.or_else.
    destruct (s =? EmptyString)%string eqn:E; [discriminate|].
    apply String.eqb_neq in E. now split. }
  destruct (Hne _ Ee) as [Hemail ->].
  destruct (Hne _ Ep) as [Hpassword ->].
  destruct (Hne _ En) as [_ ->].
  destruct (JS.length password <? 6)%nat eqn:Elen; [discriminate|].
  destruct (find _ (DB.users d)) eqn:Efind; [discriminate|].
  destruct (existsb _ (DB.users d)) eqn:Eex; [discriminate|].
  intros _. exists email, password, name.
  split; [reflexivity|]. split; [exact Hemail|]. split; [exact Hpassword|].
  split; [exact (List.find_none _ _ Efind)|].
  split; [now apply Nat.ltb_ge|].
  split; [|reflexivity].
  intros u Hu.
  destruct (UserRow.id u =? _)%string eqn:E; [|reflexivity].
  rewrite <- Eex. symmetry. apply existsb_exists. exists u.
  split; [exact Hu|]. now rewrite E.
Qed.

(** X18. A registered user can log in and is then recognised.  After a
    successful [POST /api/auth/register], [POST /api/auth/login] with the
    same password and an e-mail address that [toLowerCase()] maps to the
    same string as the registered one answers with a token and the new
    user, whose e-mail is the registered one as [toLowerCase()] gives it;
    with that token in the [Authorization] header, [GET /api/auth/me]
    passes the middleware and returns the same user.  [bcrypt.compare] is
    taken to accept the password against its own hash, [jwt.verify] to give
    back the user id that [jwt.sign] signed, and the token to hold no
    space. *)
Theorem register_then_login :
  forall (caseMapping : CaseMapping)
         (env : Env.t) (c : Crypto.t) (body : RegisterBody.t) (d : DB.t)
         (email password name typed : string),
    body = {| RegisterBody.email := Some email;
              RegisterBody.password := Some password;
              RegisterBody.name := Some name |} ->
    fst (Server.post_auth_register env body d) = Ok "Registration successful" ->
    toLowerCase typed = toLowerCase email ->
    let id := ("user-" ++ Env.dateNow env ++ "-" ++ Env.randomId env)%string in
    let token := Crypto.sign c id in
    Crypto.compare c password (Env.bcryptHash env password) = true ->
    Crypto.verify c token = Some id ->
    freeOf " "%char token ->
    let d' := snd (Server.post_auth_register env body d) in
    Routes.post_auth_login c
      {| LoginBody.email := Some typed; LoginBody.password := Some password |} d'
    = Ok {| LoginResponse.token := token;
            LoginResponse.user :=
              {| AuthUser.id := id;
                 AuthUser.email := toLowerCase email;
                 AuthUser.name := name |} |}
    /\ Routes.protected c (Some ("Bearer " ++ token)%string)
         (fun userId s => (Routes.get_auth_me userId s, s)) d'
       = (Ok {| CurrentUser.id := id;
                CurrentUser.email := toLowerCase email;
                CurrentUser.name := name;
                CurrentUser.createdAt := Env.isoNow env |}, d').
Proof.
  intros caseMapping env c body d email password name typed Hbody Hok Htyped
         id token Hcompare Hverify Hfree d'.
  destruct (register_success env body d Hok)
    as (email' & password' & name' & Hbody' & Hemail & Hpassword & Hfresh
        & _ & Hid & Hstore).
  rewrite Hbody in Hbody'. injection Hbody' as <- <- <-.
  assert (Htypedne : typed <> EmptyString).
  { intro E. apply Hemail. apply toLowerCase_empty.
    rewrite <- Htyped, E. now apply toLowerCase_empty. }
  destruct (truthy_Some Htypedne) as [Htt Hto].
  destruct (truthy_Some Hpassword) as [Hpt Hpo].
  unfold d'. rewrite Hstore. split.
  - unfold Routes.post_auth_login.
    cbn [LoginBody.email LoginBody.password DB.users DB.set_users].
    rewrite Htt, Hpt, Hto, Hpo, Htyped. cbn [negb orb].
    rewrite (find_first _ (DB.users d) []); [| exact Hfresh | apply String.eqb_refl].
    cbn [UserRow.passwordHash UserRow.id UserRow.email UserRow.name].
    now rewrite Hcompare.
  - unfold Routes.protected.
    destruct (authMiddleware_Bearer_token c Hfree) as [-> _].
    fold id token. rewrite Hverify.
    unfold Routes.get_auth_me. cbn [DB.users DB.set_users].
    rewrite (find_first _ (DB.users d) []); [reflexivity | exact Hid |].
    apply String.eqb_refl.
Qed.

Lemma register_then_login_witness :
  Routes.post_auth_login (caseMapping := asciiCaseMapping) sampleCrypto
    {| LoginBody.email := Some "ADA@example.ORG";
       LoginBody.password := Some "s3cret-pw" |}
    (snd (Server.post_auth_register (caseMapping := asciiCaseMapping)
            sampleEnv sampleRegistration userStore))
  = Ok {| LoginResponse.token :=
            "eyJhbGciOiJIUzI1NiJ9.user-1704240000000-k3j9x2m1q";
          LoginResponse.user :=
            {| AuthUser.id := "user-1704240000000-k3j9x2m1q";
               AuthUser.email := "ada@example.org";
               AuthUser.name := "Ada" |} |}.
Proof.
  refine (proj1 (@register_then_login asciiCaseMapping
                   sampleEnv sampleCrypto sampleRegistration
                   userStore "Ada@Example.org" "s3cret-pw" "Ada"
                   "ADA@example.ORG" eq_refl eq_refl eq_refl eq_refl eq_refl _)).
  unfold freeOf. simpl. intuition discriminate.
Defined.

(** ** Settings and the tab order *)

Lemma find_insertOrReplace_same {Row : Type} (key : Row -> string) (r : Row)
      (tbl : list Row) :
  find (fun x => (key x =? key r)%string) (DB.insertOrReplace key r tbl) = Some r.
Proof.
  unfold DB.insertOrReplace. apply find_first; [|apply String.eqb_refl].
  intros q Hq. apply filter_In in Hq. destruct Hq as [_ Hq].
  now apply negb_true_iff in Hq.
Qed.

Lemma find_insertOrReplace_other {Row : Type} (key : Row -> string) (r : Row)
      (k : string) (tbl : list Row) :
  key r <> k ->
  find (fun x => (key x =? k)%string) (DB.insertOrReplace key r tbl)
  = find (fun x => (key x =? k)%string) tbl.
Proof.
  intro Hne. unfold DB.insertOrReplace.
  apply String.eqb_neq in Hne.
  induction tbl as [|x tbl IH]; simpl; [now rewrite Hne|].
  destruct (key x =? k)%string eqn:Ek.
  - assert (Hx : (key x =? key r)%string = false).
    { apply String.eqb_eq in Ek. apply String.eqb_neq.
      apply String.eqb_neq in Hne. congruence. }
    rewrite Hx. simpl. now rewrite Ek.
  - destruct (key x =? key r)%string; simpl; rewrite ?Ek; exact IH.
Qed.

(** The composite key determines the user and the setting, for user ids
    that hold no colon. *)
Lemma compositeKey_injective (u v k k' : string) :
  freeOf ":"%char u -> freeOf ":"%char v ->
  Routes.compositeKey u k = Routes.compositeKey v k' ->
  u = v /\ k = k'.
Proof.
  unfold Routes.compositeKey, freeOf. revert v.
  induction u as [|a u IH]; intros [|b v] Hu Hv E; simpl in *.
  - injection E as <-. now split.
  - injection E as <- _. exfalso. apply Hv. now left.
  - injection E as -> _. exfalso. apply Hu. now left.
  - injection E as <- E.
    destruct (IH v) as [<- <-]; [| |exact E|now split];
      intro Hin; [apply Hu|apply Hv]; now right.
Qed.

Section SettingsProperties.

Context {Body : Type} {jsonBody : JsonBody Body}.

(** X19. A setting that was saved is read back, on a database file that
    holds the table [settings]: after [POST /api/settings/:key] with any
    body, answered "Saved", [GET /api/settings/:key] by the same user
    returns that body, whatever rows the table held before.  On a file
    without the table the save is answered 500 and changes nothing, and the
    read is answered 500 as well. *)
Theorem settings_round_trip :
  forall (u key : string) (body : Body) (d : DB.t),
    fst (Routes.post_settings true u key body d) = Ok "Saved"
    /\ Routes.get_settings true u key
         (snd (Routes.post_settings true u key body d))
       = Ok (Some body)
    /\ Routes.post_settings false u key body d
       = (Err 500 "SQLITE_ERROR: no such table: settings", d)
    /\ Routes.get_settings (Body := Body) false u key
         (snd (Routes.post_settings false u key body d))
       = Err 500 "SQLITE_ERROR: no such table: settings".
Proof.
  intros u key body d. split; [reflexivity|]. split; [|split; reflexivity].
  unfold Routes.get_settings, Routes.post_settings.
  cbn [negb snd DB.settings DB.set_settings].
  rewrite (find_insertOrReplace_same SettingRow.key
             {| SettingRow.key := Routes.compositeKey u key;
                SettingRow.value := stringifyBody body;
                SettingRow.userId := Some u |}).
  cbn [SettingRow.value]. now rewrite parseBody_stringifyBody.
Qed.

(** X20. Settings are kept apart per user and per key.  For user ids that
    hold no colon, as the ids that registration generates, saving a setting
    as user [u] under [key] leaves what user [v] reads under [key'] as it
    was, unless both the user and the key are the same; this holds whether
    or not the database file has the table. *)
Theorem settings_kept_apart :
  forall (settingsTable : bool) (u v key key' : string) (body : Body)
         (d : DB.t),
    freeOf ":"%char u ->
    freeOf ":"%char v ->
    (u <> v \/ key <> key') ->
    Routes.get_settings (Body := Body) settingsTable v key'
      (snd (Routes.post_settings settingsTable u key body d))
    = Routes.get_settings settingsTable v key' d.
Proof.
  intros [|] u v key key' body d Hu Hv Hne; [|reflexivity].
  unfold Routes.get_settings, Routes.post_settings.
  cbn [negb snd DB.settings DB.set_settings].
  rewrite find_insertOrReplace_other; [reflexivity|].
  cbn [SettingRow.key]. intro E.
  destruct (compositeKey_injective _ _ Hu Hv E) as [E1 E2].
  destruct Hne as [Hne|Hne]; contradiction.
Qed.

End SettingsProperties.

Lemma includes_false (ids : list string) (id : string) :
  App.includes ids id = false <-> ~ In id ids.
Proof.
  rewrite <- includes_In. now destruct (App.includes ids id).
Qed.

(** X21. [fetchTabOrder] never loses a tab: whatever the server answered,
    every tab of the default order is in the result, and a saved order is
    kept as the beginning of the result. *)
Theorem fetchTabOrder_complete :
  forall (res : Response (option (list string))),
    (forall tab, In tab ApiService.DEFAULT_TAB_ORDER ->
                 In tab (ApiService.fetchTabOrder res))
    /\ (forall data, res = Ok (Some data) ->
                     exists missing,
                       ApiService.fetchTabOrder res = data ++ missing
                       /\ forall tab, In tab missing ->
                                      In tab ApiService.DEFAULT_TAB_ORDER
                                      /\ ~ In tab data).
Proof.
  intro res. split.
  - intros tab Htab. destruct res as [[data|]| |]; try exact Htab.
    unfold ApiService.fetchTabOrder. apply in_or_app.
    destruct (App.includes data tab) eqn:E.
    + left. now apply includes_In.
    + right. apply filter_In. split; [exact Htab|]. now rewrite E.
  - intros data ->. eexists. split; [reflexivity|].
    intros tab Htab. apply filter_In in Htab. destruct Htab as [H1 H2].
    split; [exact H1|]. apply includes_false. now apply negb_true_iff.
Qed.

(** X22. The tab order survives a reload, on a database file that holds
    the table [settings].  When the order that [handleReorderTabs] saves
    holds every tab of the default order, what [fetchTabOrder] makes of the
    server's answer to [GET /api/settings/tabOrder] after the save is that
    order exactly.  On a file without the table the save is refused, the
    read is answered 500, and [fetchTabOrder] gives the default order
    whatever was saved. *)
Theorem tab_order_round_trip :
  forall (J : JsonBody (list string)) (u : string) (order : list string)
         (d : DB.t),
    (forall tab, In tab ApiService.DEFAULT_TAB_ORDER -> In tab order) ->
    ApiService.fetchTabOrder
      (Routes.get_settings true u "tabOrder"
         (snd (Routes.post_settings true u "tabOrder" order d)))
    = order
    /\ ApiService.fetchTabOrder
         (Routes.get_settings false u "tabOrder"
            (snd (Routes.post_settings false u "tabOrder" order d)))
       = ApiService.DEFAULT_TAB_ORDER.
Proof.
  intros J u order d Hall. split; [|reflexivity].
  unfold Routes.get_settings, Routes.post_settings.
  cbn [negb snd DB.settings DB.set_settings].
  rewrite (find_insertOrReplace_same SettingRow.key
             {| SettingRow.key := Routes.compositeKey u "tabOrder";
                SettingRow.value := stringifyBody order;
                SettingRow.userId := Some u |}).
  cbn [SettingRow.value]. rewrite parseBody_stringifyBody.
  unfold ApiService.fetchTabOrder.
  rewrite filter_none; [apply app_nil_r|].
  intros tab Htab. apply negb_false_iff, includes_In. now apply Hall.
Qed.

#[export] Instance jsonTabOrder : JsonBody (list string) :=
  {| stringifyBody := Json.stringifyArray Json.encodeTag;
     parseBody := Json.parseArray Json.decodeTag;
     parseBody_stringifyBody :=
       parseArray_stringifyArray Json.encodeTag Json.decodeTag
                                 decode_encode_Tag |}.

Lemma settings_kept_apart_witness :
  Routes.get_settings (Body := list string) true "user-2" "tabOrder"
    (snd (Routes.post_settings true "user-1" "tabOrder" ["notes"; "home"]
            emptyStore))
  = Ok None.
Proof.
  apply (@settings_kept_apart (list string) jsonTabOrder true
           "user-1" "user-2" "tabOrder" "tabOrder" ["notes"; "home"] emptyStore).
  - unfold freeOf. simpl. intuition discriminate.
  - unfold freeOf. simpl. intuition discriminate.
  - left. discriminate.
Defined.

Lemma tab_order_round_trip_witness :
  ApiService.fetchTabOrder
    (Routes.get_settings true "user-1" "tabOrder"
       (snd (Routes.post_settings true "user-1" "tabOrder"
               ["notes"; "links"; "ideas"; "projects"; "highlights"; "tasks";
                "calendar"; "engagements"; "home"] emptyStore)))
  = ["notes"; "links"; "ideas"; "projects"; "highlights"; "tasks";
     "calendar"; "engagements"; "home"].
Proof.
  refine (proj1 (@tab_order_round_trip jsonTabOrder "user-1"
                   ["notes"; "links"; "ideas"; "projects"; "highlights";
                    "tasks"; "calendar"; "engagements"; "home"]
                   emptyStore _)).
  simpl. intuition.
Defined.

(** ** The migration and the other users *)

Section Orphans.

Variable Row : Type.
Variable userId : Row -> option string.
Variable with_userId : Row -> option string -> Row.

Hypothesis userId_with_userId : forall r u, userId (with_userId r u) = u.

Lemma assignOrphans_twice (uid : string) (tbl : list Row) :
  Startup.assignOrphans userId with_userId uid
    (Startup.assignOrphans userId with_userId uid tbl)
  = Startup.assignOrphans userId with_userId uid tbl.
Proof.
  unfold Startup.assignOrphans. rewrite map_map. apply map_ext. intro r.
  destruct (userId r) eqn:E.
  - now rewrite E.
  - now rewrite userId_with_userId.
Qed.

Lemma assignOrphans_other_user (uid v : string) (tbl : list Row) :
  v <> uid ->
  filter (fun r => DB.col_eq (userId r) v)
         (Startup.assignOrphans userId with_userId uid tbl)
  = filter (fun r => DB.col_eq (userId r) v) tbl.
Proof.
  intro Hne. unfold Startup.assignOrphans.
  induction tbl as [|r tbl IH]; simpl; [reflexivity|].
  destruct (userId r) eqn:E.
  - rewrite E. destruct (DB.col_eq (Some s) v); now rewrite IH.
  - rewrite userId_with_userId. simpl.
    apply String.eqb_neq in Hne. rewrite String.eqb_sym, Hne. exact IH.
Qed.

End Orphans.

Lemma legacyUser_migrateData (d : DB.t) :
  Startup.legacyUser (Startup.migrateData d) = Startup.legacyUser d.
Proof.
  unfold Startup.migrateData.
  now destruct (Startup.legacyUser d) eqn:E.
Qed.

(** X23. The migration is idempotent: running the callback a second time,
    as every later start of the server does, leaves the store as the first
    run left it. *)
Theorem migrateData_twice :
  forall d : DB.t,
    Startup.migrateData (Startup.migrateData d) = Startup.migrateData d.
Proof.
  intro d.
  unfold Startup.migrateData at 1. rewrite legacyUser_migrateData.
  destruct (Startup.legacyUser d) as [user|] eqn:E; [|reflexivity].
  unfold Startup.migrateData. rewrite E. store_fields.
  rewrite !assignOrphans_twice by reflexivity.
  reflexivity.
Qed.

Section MigrationAndTenants.

Context {jsonSubtasks : JsonArray Subtask.t}.
Context {jsonTimeline : JsonArray TimelineEntry.t}.
Context {jsonFiles : JsonArray EngagementFile.t}.
Context {jsonTags : JsonArray string}.
Context {jsonEntries : JsonArray IdeaEntry.t}.

(** X24. The migration touches no row that has an owner.  Every list that
    a user other than the legacy user reads, and the projects with their
    children, are after the migration what they were before it. *)
Theorem migrateData_leaves_other_users :
  forall (env : Env.t) (d : DB.t) (legacy : UserRow.t) (v : string),
    Startup.legacyUser d = Some legacy ->
    v <> UserRow.id legacy ->
    let d' := Startup.migrateData d in
    Server.get_engagements v d' = Server.get_engagements v d
    /\ Server.get_tasks v d' = Server.get_tasks v d
    /\ Server.get_projects v d' = Server.get_projects v d
    /\ Server.get_highlights v d' = Server.get_highlights v d
    /\ Server.get_ideas env v d' = Server.get_ideas env v d
    /\ Server.get_calendar v d' = Server.get_calendar v d
    /\ Routes.get_links v d' = Routes.get_links v d
    /\ Server.get_notes v d' = Server.get_notes v d.
Proof.
  intros env d legacy v Hlegacy Hne d'. unfold d', Startup.migrateData.
  rewrite Hlegacy.
  unfold Server.get_engagements, Server.get_tasks, Server.get_projects,
    Server.get_highlights, Server.get_ideas, Server.get_calendar,
    Routes.get_links, Server.get_notes.
  store_fields.
  rewrite !assignOrphans_other_user by (reflexivity || exact Hne).
  repeat split.
Qed.

End MigrationAndTenants.

Lemma migrateData_leaves_other_users_witness :
  Server.get_tasks "user-2" (Startup.migrateData tenantStore)
  = Server.get_tasks "user-2" tenantStore.
Proof.
  destruct (@migrateData_leaves_other_users jsonSubtasks jsonTimeline jsonFiles
              jsonTags jsonEntries sampleEnv tenantStore
              {| UserRow.id := "user-1"; UserRow.email := "newrishav@gmail.com";
                 UserRow.passwordHash := "$2b$10$abcdef"; UserRow.name := "Rishav";
                 UserRow.createdAt := "2024-01-01T00:00:00.000Z" |}
              "user-2" eq_refl ltac:(discriminate)) as (_ & H & _).
  exact H.
Defined.

(** ** Adding a task and deleting it again *)

(** X25. Adding a task and deleting it again restores the client state.
    When the id of the new task is not in the master list, [handleDeleteTask]
    after [handleAddTask] gives back the state as it was, and the requests
    are the upsert of the task followed by [DELETE /api/tasks/:id]. *)
Theorem handleAddTask_then_delete :
  forall (today : string) (task : Task.t) (st : Client.AppState),
    ~ In (Task.id task) (map Task.id (Client.masterTasksList today st)) ->
    let '(st1, added) := App.handleAddTask task st in
    hd_error (Client.masterTasksList today st1) = Some task
    /\ added = [Client.saveTaskAPI task]
    /\ Client.handleDeleteTask (Task.id task) st1
       = (st, [Client.deleteTaskAPI (Task.id task)]).
Proof.
  intros today task st Hfresh. unfold App.handleAddTask.
  split; [reflexivity|]. split; [reflexivity|].
  unfold Client.masterTasksList in Hfresh. rewrite map_app in Hfresh.
  assert (Hnone : forall q, In q (Client.projects st) ->
                            Client.hasTask (Task.id task) q = false).
  { intros q Hq. destruct (Client.hasTask (Task.id task) q) eqn:E; [|reflexivity].
    exfalso. apply Hfresh. apply in_or_app. right.
    destruct (proj1 (in_map_iff _ _ _) (hasTask_views today _ q E))
      as (v & Hv & Hin).
    apply in_map_iff. exists v. split; [exact Hv|].
    apply in_flat_map. now exists q. }
  unfold Client.handleDeleteTask. cbn [Client.projects Client.tasks].
  rewrite (find_all_false _ _ Hnone).
  simpl filter. rewrite String.eqb_refl. simpl.
  rewrite filter_all; [now destruct st|].
  intros t Ht. apply negb_true_iff, String.eqb_neq. intro E.
  apply Hfresh. apply in_or_app. left. rewrite <- E. now apply in_map.
Qed.

Lemma handleAddTask_then_delete_witness :
  Client.handleDeleteTask "task-2"
    (fst (App.handleAddTask (sampleTask "task-2" "Call the vendor" false None)
                            sampleState))
  = (sampleState, [Client.deleteTaskAPI "task-2"]).
Proof.
  refine (proj2 (proj2 (@handleAddTask_then_delete "2024-05-01"
                          (sampleTask "task-2" "Call the vendor" false None)
                          sampleState _))).
  simpl. intuition discriminate.
Defined.

Section TaskRoundTrip.

Context {jsonSubtasks : JsonArray Subtask.t}.

(** X26. Saving a new task and deleting it restores the store.  When no
    row of the tasks table carries the id, [POST /api/tasks] followed by
    [DELETE /api/tasks/:id] by the same user reports one deleted row and
    leaves the store exactly as it was; the same [DELETE] by another user
    reports none and leaves the saved row in place. *)
Theorem post_then_delete_task :
  forall (u v : string) (t : Task.t) (d : DB.t),
    (forall r, In r (DB.tasks d) -> TaskRow.id r <> Task.id t) ->
    u <> v ->
    Routes.delete_tasks u (Task.id t) (snd (Server.post_tasks u t d)) = (Ok 1, d)
    /\ Routes.delete_tasks v (Task.id t) (snd (Server.post_tasks u t d))
       = (Ok 0, snd (Server.post_tasks u t d)).
Proof.
  intros u v t d Hfresh Hne.
  assert (Hmiss : forall w r, In r (DB.tasks d) ->
             Routes.hit TaskRow.id TaskRow.userId (Task.id t) w r = false).
  { intros w r Hr. unfold Routes.hit.
    assert (E : (TaskRow.id r =? Task.id t)%string = false)
      by (apply String.eqb_neq, Hfresh, Hr).
    now rewrite E. }
  assert (Htable : DB.tasks (snd (Server.post_tasks u t d))
                   = DB.tasks d ++ [Server.taskRow u t]).
  { unfold Server.post_tasks. cbn [snd DB.tasks DB.set_tasks].
    unfold DB.insertOrReplace. f_equal.
    apply filter_all. intros r Hr.
    apply negb_true_iff, String.eqb_neq. now apply Hfresh. }
  unfold Routes.delete_tasks. rewrite Htable.
  unfold Routes.changes, Routes.deleteOwned. rewrite !filter_app.
  split.
  - rewrite (filter_none _ _ (Hmiss u)).
    rewrite (filter_all _ (DB.tasks d))
      by (intros r Hr; now rewrite (Hmiss u r Hr)).
    simpl. unfold Routes.hit.
    cbn [TaskRow.id TaskRow.userId Server.taskRow].
    rewrite !String.eqb_refl. simpl. rewrite String.eqb_refl. simpl.
    rewrite app_nil_r.
    unfold Server.post_tasks, DB.set_tasks. store_fields. now destruct d.
  - rewrite (filter_none _ _ (Hmiss v)).
    rewrite (filter_all _ (DB.tasks d))
      by (intros r Hr; now rewrite (Hmiss v r Hr)).
    simpl. unfold Routes.hit.
    cbn [TaskRow.id TaskRow.userId Server.taskRow].
    rewrite String.eqb_refl. simpl.
    apply String.eqb_neq in Hne. rewrite Hne. simpl.
    rewrite <- Htable.
    unfold Server.post_tasks, DB.set_tasks. store_fields. reflexivity.
Qed.

End TaskRoundTrip.

Lemma post_then_delete_task_witness :
  Routes.delete_tasks "user-1" "task-9"
    (snd (Server.post_tasks "user-1"
            (sampleTask "task-9" "Call the vendor" false None) tenantStore))
  = (Ok 1, tenantStore).
Proof.
  refine (proj1 (@post_then_delete_task jsonSubtasks "user-1" "user-2"
                   (sampleTask "task-9" "Call the vendor" false None)
                   tenantStore _ _)).
  - intros r [<-|[<-|[]]]; discriminate.
  - discriminate.
Defined.

(** ** Engagements: adding, editing, deleting and the detail view *)

Lemma find_unique {A : Type} (key : A -> string) (l : list A) (x : A) :
  NoDup (map key l) ->
  In x l ->
  find (fun y => (key y =? key x)%string) l = Some x.
Proof.
  intros Hnodup Hin.
  destruct (find_some_exists (fun y => (key y =? key x)%string) l) as [y Hy].
  - exists x. split; [exact Hin | apply String.eqb_refl].
  - rewrite Hy. f_equal.
    destruct (find_some _ _ Hy) as [Hyin E]. apply String.eqb_eq in E.
    exact (NoDup_map_eq _ _ Hnodup y x Hyin Hin E).
Qed.

Lemma find_map_replace {A : Type} (key : A -> string) (u : A) (k : string)
      (l : list A) :
  find (fun y => (key y =? k)%string)
       (map (fun e => if (key e =? key u)%string then u else e) l)
  = option_map (fun e => if (key e =? key u)%string then u else e)
               (find (fun y => (key y =? k)%string) l).
Proof.
  induction l as [|e l IH]; simpl; [reflexivity|].
  destruct (key e =? key u)%string eqn:E.
  - apply String.eqb_eq in E. rewrite E.
    destruct (key u =? k)%string; [|exact IH].
    simpl. now rewrite E, String.eqb_refl.
  - destruct (key e =? k)%string; [|exact IH].
    simpl. now rewrite E.
Qed.

(** X27. Adding an engagement opens its detail, and deleting it again
    restores the list.  For a new engagement whose id is not empty and not
    yet used, [handleAddEngagement] closes the modal, shows the engagement
    in the detail pane and sends the upsert; [handleBack] then shows no
    detail; a confirmed delete request for the id sends one [DELETE], gives
    back the former list of engagements and leaves the dashboard view. *)
Theorem handleAddEngagement_then_delete :
  forall (e : Engagement.t) (st : App.Shell),
    Engagement.id e <> EmptyString ->
    (forall x, In x (App.engagements st) -> Engagement.id x <> Engagement.id e) ->
    let st1 := fst (App.handleAddEngagement e st) in
    let confirmed :=
      App.handleConfirmDelete (App.handleDeleteRequest [Engagement.id e] st1) in
    snd (App.handleAddEngagement e st) = [App.saveEngagementAPI e]
    /\ App.isAddModalOpen st1 = false
    /\ App.detailShown st1 = Some e
    /\ App.detailShown (App.handleBack st1) = None
    /\ App.currentEngagement (App.handleBack st1) = None
    /\ snd confirmed = [App.deleteEngagementAPI (Engagement.id e)]
    /\ App.engagements (fst confirmed) = App.engagements st
    /\ ViewStateData.view (App.viewState (fst confirmed)) = "dashboard"
    /\ App.detailShown (fst confirmed) = None.
Proof.
  intros e st Hne Hfresh st1 confirmed.
  destruct (truthy_Some Hne) as [Htruthy Hor].
  assert (Hkeep : filter (fun x => negb (App.includes [Engagement.id e]
                                                      (Engagement.id x)))
                         (App.engagements st) = App.engagements st).
  { apply filter_all. intros x Hx. apply negb_true_iff, includes_false.
    intros [E|[]]. exact (Hfresh x Hx (eq_sym E)). }
  unfold confirmed, st1, App.handleConfirmDelete, App.handleDeleteRequest,
    App.handleAddEngagement, App.handleBack, App.handleNavigate,
    App.setViewState, App.detailShown, App.currentEngagement.
  cbn [fst snd App.engagements App.viewState App.isAddModalOpen
       App.editingEngagement App.itemsToDelete
       ViewStateData.view ViewStateData.targetId ViewStateData.tab map].
  rewrite Htruthy, Hor.
  change (("detail" =? "detail")%string) with true.
  change (("dashboard" =? "detail")%string) with false.
  cbn [andb App.includes existsb orb].
  rewrite String.eqb_refl.
  cbn [orb negb ViewStateData.view ViewStateData.targetId filter find].
  rewrite String.eqb_refl. cbn [negb].
  change (("dashboard" =? "detail")%string) with false.
  repeat split. exact Hkeep.
Qed.

Lemma handleAddEngagement_then_delete_witness :
  App.detailShown (fst (App.handleAddEngagement
                          (sampleEngagement "e-4" "Renewal") sampleShell))
  = Some (sampleEngagement "e-4" "Renewal").
Proof.
  refine (proj1 (proj2 (proj2 (@handleAddEngagement_then_delete
                                 (sampleEngagement "e-4" "Renewal")
                                 sampleShell _ _)))).
  - discriminate.
  - intros x [<-|[<-|[<-|[]]]]; discriminate.
Defined.

(** X28. Saving an edited engagement keeps the list in order and the
    detail in place.  [handleUpdateEngagement] leaves the ids of the list
    as they were, closes the edit modal and sends the upsert; when the
    detail pane showed the engagement of that id it now shows the updated
    object, and when it showed another one it still shows that one. *)
Theorem handleUpdateEngagement_detail :
  forall (updated : Engagement.t) (st : App.Shell),
    let st' := fst (App.handleUpdateEngagement updated st) in
    snd (App.handleUpdateEngagement updated st) = [App.saveEngagementAPI updated]
    /\ map Engagement.id (App.engagements st')
       = map Engagement.id (App.engagements st)
    /\ App.editingEngagement st' = None
    /\ forall shown,
         App.detailShown st = Some shown ->
         App.detailShown st'
         = Some (if (Engagement.id shown =? Engagement.id updated)%string
                 then updated else shown).
Proof.
  intros updated st st'. split; [reflexivity|]. split; [|split; [reflexivity|]].
  - unfold st', App.handleUpdateEngagement. cbn [fst App.engagements].
    rewrite map_map. apply map_ext. intro x.
    destruct (Engagement.id x =? Engagement.id updated)%string eqn:E;
      [|reflexivity].
    symmetry. now apply String.eqb_eq.
  - intro shown. unfold st', App.detailShown, App.currentEngagement,
      App.handleUpdateEngagement.
    cbn [fst App.engagements App.viewState].
    destruct (ViewStateData.view (App.viewState st) =? "detail")%string;
      [|discriminate].
    destruct (JS.truthy (ViewStateData.targetId (App.viewState st)));
      [|discriminate].
    rewrite (find_map_replace Engagement.id updated).
    now intros ->.
Qed.

(** ** Subtasks in [TaskTracker] *)

Lemma toggleSubtask_twice (subtaskId : string) (subtasks : list Subtask.t) :
  map (TaskTracker.toggleSubtask subtaskId)
      (map (TaskTracker.toggleSubtask subtaskId) subtasks)
  = subtasks.
Proof.
  rewrite map_map. rewrite <- (map_id subtasks) at 2. apply map_ext.
  intros [id content done]. unfold TaskTracker.toggleSubtask.
  cbn [Subtask.id Subtask.content Subtask.isCompleted].
  destruct (id =? subtaskId)%string eqn:E.
  - cbn [Subtask.id Subtask.content Subtask.isCompleted].
    now rewrite E, negb_involutive.
  - cbn [Subtask.id]. now rewrite E.
Qed.

(** X29. The subtasks of a project task cannot be edited.  When the ids of
    the master list are distinct, [handleToggleSubtask] and
    [handleDeleteSubtask] for an entry that stands for a project task leave
    the state as it is and send no request: such an entry carries no
    subtasks. *)
Theorem subtask_handlers_skip_project_tasks :
  forall (today : string) (st : Client.AppState)
         (p : InternalProject.t) (pt : ProjectTask.t) (subtaskId : string),
    NoDup (map Task.id (Client.masterTasksList today st)) ->
    In p (Client.projects st) ->
    In pt (InternalProject.tasks p) ->
    let tasks := Client.masterTasksList today st in
    TaskTracker.handleToggleSubtask tasks Client.handleUpdateTask
      (ProjectTask.id pt) subtaskId st = (st, [])
    /\ TaskTracker.handleDeleteSubtask tasks Client.handleUpdateTask
         (ProjectTask.id pt) subtaskId st = (st, []).
Proof.
  intros today st p pt subtaskId Hnodup Hp Hpt tasks.
  assert (Hin : In (Client.projectTaskView today p pt) tasks).
  { unfold tasks, Client.masterTasksList. apply in_or_app. right.
    apply in_flat_map. exists p. split; [exact Hp|]. now apply in_map. }
  assert (Hfind := find_unique Task.id tasks _ Hnodup Hin).
  change (Task.id (Client.projectTaskView today p pt))
    with (ProjectTask.id pt) in Hfind.
  unfold TaskTracker.handleToggleSubtask, TaskTracker.handleDeleteSubtask.
  rewrite Hfind. split; reflexivity.
Qed.

Lemma subtask_handlers_skip_project_tasks_witness :
  TaskTracker.handleToggleSubtask
    (Client.masterTasksList "2024-05-01" sampleState) Client.handleUpdateTask
    "pt-2" "st-1" sampleState
  = (sampleState, []).
Proof.
  refine (proj1 (@subtask_handlers_skip_project_tasks "2024-05-01" sampleState
                   (sampleProject "p-1" "Certification"
                      [ProjectTask.mk "pt-1" "Complete Section 1-4" true;
                       ProjectTask.mk "pt-2" "Take practice exam 1" false])
                   (ProjectTask.mk "pt-2" "Take practice exam 1" false)
                   "st-1" _ _ _)).
  - repeat constructor; simpl; intuition discriminate.
  - left. reflexivity.
  - right. left. reflexivity.
Defined.

Lemma with_subtasks_back (task : Task.t) (subtasks other : list Subtask.t) :
  Task.subtasks task = Some subtasks ->
  TaskTracker.with_subtasks (TaskTracker.with_subtasks task other) subtasks
  = task.
Proof. destruct task. simpl. now intros ->. Qed.

(** X30. Ticking a subtask and ticking it again restores the state.  For a
    standalone task with subtasks (the ids of the master list being
    distinct), [handleToggleSubtask] sends the task with the completion of
    the subtask flipped; applied again to the master list that results, it
    gives back the original state and sends the original task. *)
Theorem handleToggleSubtask_twice :
  forall (today : string) (st : Client.AppState) (task : Task.t)
         (subtasks : list Subtask.t) (subtaskId : string),
    NoDup (map Task.id (Client.masterTasksList today st)) ->
    In task (Client.tasks st) ->
    JS.truthy (Task.projectId task) = false ->
    Task.subtasks task = Some subtasks ->
    let toggled :=
      TaskTracker.with_subtasks task
        (map (TaskTracker.toggleSubtask subtaskId) subtasks) in
    let first :=
      TaskTracker.handleToggleSubtask (Client.masterTasksList today st)
        Client.handleUpdateTask (Task.id task) subtaskId st in
    snd first = [Client.saveTaskAPI toggled]
    /\ In toggled (Client.masterTasksList today (fst first))
    /\ TaskTracker.handleToggleSubtask
         (Client.masterTasksList today (fst first))
         Client.handleUpdateTask (Task.id task) subtaskId (fst first)
       = (st, [Client.saveTaskAPI task]).
Proof.
  intros today st task subtasks subtaskId Hnodup Hin Hstandalone Hsubtasks
         toggled first.
  assert (Hmaster : In task (Client.masterTasksList today st))
    by (unfold Client.masterTasksList; apply in_or_app; now left).
  assert (Hrun : forall t, JS.truthy (Task.projectId t) = false ->
                           forall s, Client.handleUpdateTask t s
    = ({| Client.tasks :=
            map (fun x => if (Task.id x =? Task.id t)%string then t else x)
                (Client.tasks s);
          Client.projects := Client.projects s |},
       [Client.saveTaskAPI t])).
  { intros t Ht s. unfold Client.handleUpdateTask. now rewrite Ht. }
  assert (Hfirst : first
    = ({| Client.tasks :=
            map (fun x => if (Task.id x =? Task.id task)%string
                          then toggled else x) (Client.tasks st);
          Client.projects := Client.projects st |},
       [Client.saveTaskAPI toggled])).
  { unfold first, TaskTracker.handleToggleSubtask.
    rewrite (find_unique Task.id _ _ Hnodup Hmaster), Hsubtasks.
    fold toggled. exact (Hrun toggled Hstandalone st). }
  rewrite Hfirst. cbn [fst snd].
  set (st1 := {| Client.tasks :=
                   map (fun x => if (Task.id x =? Task.id task)%string
                                 then toggled else x) (Client.tasks st);
                 Client.projects := Client.projects st |}).
  assert (Htoggled : In toggled (Client.masterTasksList today st1)).
  { unfold Client.masterTasksList, st1. cbn [Client.tasks Client.projects].
    apply in_or_app. left. apply in_map_iff. exists task.
    split; [now rewrite String.eqb_refl | exact Hin]. }
  assert (Hids : map Task.id (Client.masterTasksList today st1)
                 = map Task.id (Client.masterTasksList today st)).
  { unfold Client.masterTasksList, st1. cbn [Client.tasks Client.projects].
    rewrite !map_app. f_equal. rewrite map_map. apply map_ext. intro x.
    destruct (Task.id x =? Task.id task)%string eqn:E; [|reflexivity].
    apply String.eqb_eq in E. now rewrite E. }
  assert (Hnodup1 : NoDup (map Task.id (Client.masterTasksList today st1)))
    by (rewrite Hids; exact Hnodup).
  split; [reflexivity|]. split; [exact Htoggled|].
  unfold TaskTracker.handleToggleSubtask.
  assert (Hfind := find_unique Task.id _ _ Hnodup1 Htoggled).
  change (Task.id toggled) with (Task.id task) in Hfind.
  rewrite Hfind.
  change (Task.subtasks toggled)
    with (Some (map (TaskTracker.toggleSubtask subtaskId) subtasks)).
  cbv iota. rewrite toggleSubtask_twice.
  unfold toggled. rewrite (with_subtasks_back task _ Hsubtasks).
  rewrite (Hrun task Hstandalone st1). f_equal.
  unfold st1. cbn [Client.tasks Client.projects].
  destruct st as [tasks projects]. cbn [Client.tasks Client.projects] in *.
  f_equal. rewrite map_map. rewrite <- (map_id tasks) at 2.
  apply map_ext_in. intros x Hx.
  assert (Htasks : NoDup (map Task.id tasks)).
  { unfold Client.masterTasksList in Hnodup. cbn [Client.tasks] in Hnodup.
    rewrite map_app in Hnodup. now apply NoDup_app_remove_r in Hnodup. }
  destruct (Task.id x =? Task.id task)%string eqn:E.
  - change (Task.id (TaskTracker.with_subtasks task
                       (map (TaskTracker.toggleSubtask subtaskId) subtasks)))
      with (Task.id task).
    rewrite String.eqb_refl. apply String.eqb_eq in E.
    symmetry. exact (NoDup_map_eq _ _ Htasks x task Hx Hin E).
  - now rewrite E.
Qed.

Lemma handleToggleSubtask_twice_witness :
  snd (TaskTracker.handleToggleSubtask
         (Client.masterTasksList "2024-05-01"
            {| Client.tasks := [taskWithSubtasks]; Client.projects := [] |})
         Client.handleUpdateTask (Task.id taskWithSubtasks) "st-1"
         {| Client.tasks := [taskWithSubtasks]; Client.projects := [] |})
  = [Client.saveTaskAPI
       (TaskTracker.with_subtasks taskWithSubtasks
          (map (TaskTracker.toggleSubtask "st-1") sampleSubtasks))].
Proof.
  refine (proj1 (@handleToggleSubtask_twice "2024-05-01"
                   {| Client.tasks := [taskWithSubtasks]; Client.projects := [] |}
                   taskWithSubtasks sampleSubtasks "st-1" _ _ _ _)).
  - repeat constructor; simpl; intuition.
  - left. reflexivity.
  - reflexivity.
  - reflexivity.
Defined.
